(** * Device-authorization flow of the superbox server

    A shallow embedding of the device-flow handlers of
    [superbox/server/handlers] (the auth handler file and
    [models/types.go]): the code generator, the in-memory session store
    with its three indices, the expiry sweep and the HTTP handlers
    [deviceStart], [devicePoll], [deviceSubmit], [callbackGoogle] and
    [callbackGitHub].

    Conventions of the embedding.
    - Go strings are byte strings: [string].
    - [float64(time.Now().Unix())] is a whole number of seconds; the
      timestamps of a session are integers of [Z] (additions such as
      [now + 600] are exact in float64 for every Unix time).
    - The package-level maps [deviceSessions], [stateIndex] and
      [userIndex] are finite maps keyed by strings.
    - Every block run under [sessionMutex] is one atomic operation on
      the store; a handler is a program issuing such operations, so that
      handlers can be run to completion or interleaved.
    - Inputs the handlers take from outside (clock readings, random
      bytes, request fields, the outcome of calls to the OAuth providers)
      are explicit arguments. *)

From Stdlib Require Import ZArith Lia Ascii String List.
From Stdlib.Strings Require Import Byte.
From stdpp Require Import base option list gmap strings fin_maps relations.

Local Open Scope string_scope.
Local Open Scope Z_scope.

(** ** Byte strings *)

Module Bytes.

Definition code (c : ascii) : N := N_of_ascii c.

Definition chr (n : N) : ascii := ascii_of_N n.

(** [c < utf8.RuneSelf] *)
Definition isASCIIbyte (c : ascii) : bool := (code c <? 128)%N.

Definition isLower (c : ascii) : bool := ((97 <=? code c) && (code c <=? 122))%N.

Definition isUpper (c : ascii) : bool := ((65 <=? code c) && (code c <=? 90))%N.

(** [if 'a' <= c && c <= 'z' { c -= 'a' - 'A' }] *)
Definition upperByte (c : ascii) : ascii :=
  if isLower c then chr (code c - 32) else c.

(** [if 'A' <= c && c <= 'Z' { c += 'a' - 'A' }] *)
Definition lowerByte (c : ascii) : ascii :=
  if isUpper c then chr (code c + 32) else c.

Fixpoint all (p : ascii -> bool) (s : string) : bool :=
  match s with
  | EmptyString => true
  | String c s' => p c && all p s'
  end.

Fixpoint map (f : ascii -> ascii) (s : string) : string :=
  match s with
  | EmptyString => EmptyString
  | String c s' => String (f c) (map f s')
  end.

Fixpoint filter (p : ascii -> bool) (s : string) : string :=
  match s with
  | EmptyString => EmptyString
  | String c s' => if p c then String c (filter p s') else filter p s'
  end.

Definition isASCII (s : string) : bool := all isASCIIbyte s.

(** [strings.ReplaceAll(s, old, "")] for a pattern [old] of one byte:
    every occurrence of the byte is dropped. *)
Definition dropByte (old : ascii) (s : string) : string :=
  filter (fun c => negb (Ascii.eqb c old)) s.

(** [s[i:j]] for [0 <= i <= j <= len(s)] *)
Fixpoint drop (n : nat) (s : string) : string :=
  match n, s with
  | O, _ => s
  | S n', String _ s' => drop n' s'
  | S _, EmptyString => EmptyString
  end.

Fixpoint take (n : nat) (s : string) : string :=
  match n, s with
  | S n', String c s' => String c (take n' s')
  | _, _ => EmptyString
  end.

Definition hyphen : ascii := "-"%char.
Definition space : ascii := " "%char.
Definition tab : ascii := chr 9.

End Bytes.

(** ** Code generator *)

Section CodeGenerator.

(** [strings.ToUpper] and [strings.ToLower] of the Go library take a
    table-driven path, [strings.Map(unicode.ToUpper, s)], as soon as the
    string holds a byte outside ASCII.  That path belongs to the Go
    library and its Unicode tables; it is a parameter here. *)
Variable unicodeToUpper : string -> string.
Variable unicodeToLower : string -> string.

Definition ToUpper (s : string) : string :=
  if Bytes.isASCII s then Bytes.map Bytes.upperByte s else unicodeToUpper s.

Definition ToLower (s : string) : string :=
  if Bytes.isASCII s then Bytes.map Bytes.lowerByte s else unicodeToLower s.

(** [strings.ToUpper(strings.ReplaceAll(strings.ReplaceAll(code, "-", ""), " ", ""))] *)
Definition normalizeCode (code : string) : string :=
  ToUpper (Bytes.dropByte Bytes.space (Bytes.dropByte Bytes.hyphen code)).

End CodeGenerator.

(** The alphabet of [generateUserCode]. *)
Definition alphabet : string := "ABCDEFGHIJKLMNOPQRSTUVWXYZ0123456789".

(** [alphabet[i]]; the index is always below [len(alphabet)] where it is used. *)
Definition byteAt (s : string) (i : nat) : ascii :=
  match String.get i s with
  | Some c => c
  | None => Ascii.zero
  end.

(** The loop of [generateUserCode]:
    [raw += string(alphabet[int(v)%len(alphabet)])] for each random byte. *)
Fixpoint rawUserCode (b : list byte) : string :=
  match b with
  | [] => EmptyString
  | v :: b' =>
      String (byteAt alphabet (N.to_nat (Byte.to_N v mod N.of_nat (String.length alphabet))))
             (rawUserCode b')
  end.

(** [fmt.Sprintf("%s-%s", raw[:4], raw[4:])] on the 8 random bytes [b]. *)
Definition generateUserCode (b : list byte) : string :=
  let raw := rawUserCode b in
  Bytes.take 4 raw +:+ "-" +:+ Bytes.drop 4 raw.

(** [base64.URLEncoding]: the URL-safe alphabet, with padding. *)
Definition encodeURL : string :=
  "ABCDEFGHIJKLMNOPQRSTUVWXYZabcdefghijklmnopqrstuvwxyz0123456789-_".

Definition b64 (n : N) : ascii := byteAt encodeURL (N.to_nat (n mod 64)).

Definition padChar : ascii := "="%char.

(** [base64.URLEncoding.EncodeToString] *)
Fixpoint EncodeToString (src : list byte) : string :=
  match src with
  | [] => EmptyString
  | [x] =>
      let v := (Byte.to_N x * 65536)%N in
      String (b64 (v / 262144)) (String (b64 (v / 4096))
        (String padChar (String padChar EmptyString)))
  | [x; y] =>
      let v := (Byte.to_N x * 65536 + Byte.to_N y * 256)%N in
      String (b64 (v / 262144)) (String (b64 (v / 4096))
        (String (b64 (v / 64)) (String padChar EmptyString)))
  | x :: y :: z :: rest =>
      let v := (Byte.to_N x * 65536 + Byte.to_N y * 256 + Byte.to_N z)%N in
      String (b64 (v / 262144)) (String (b64 (v / 4096))
        (String (b64 (v / 64)) (String (b64 v) (EncodeToString rest))))
  end.

(** The random source [crypto/rand]: the [i]-th byte drawn by a request. *)
Definition Rand : Type := nat -> byte.

(** [b := make([]byte, n); rand.Read(b)], for the bytes from position [off] on. *)
Definition readRand (r : Rand) (off n : nat) : list byte :=
  List.map r (seq off n).

(** [generateDeviceCode]: 40 random bytes, URL-safe base64. *)
Definition generateDeviceCode (b : list byte) : string := EncodeToString b.


(** [url.QueryEscape]: letters, digits and [-_.~] are kept, a space becomes
    [+], every other byte becomes [%XX] in upper-case hexadecimal. *)
Definition upperhex : string := "0123456789ABCDEF".

Definition shouldEscape (c : ascii) : bool :=
  let n := Bytes.code c in
  negb (Bytes.isLower c || Bytes.isUpper c || ((48 <=? n) && (n <=? 57))%N
        || (n =? 45)%N || (n =? 95)%N || (n =? 46)%N || (n =? 126)%N).

Fixpoint QueryEscape (s : string) : string :=
  match s with
  | EmptyString => EmptyString
  | String c s' =>
      if Ascii.eqb c Bytes.space then String "+"%char (QueryEscape s')
      else if shouldEscape c then
        String "%"%char
          (String (byteAt upperhex (N.to_nat (Bytes.code c / 16)))
             (String (byteAt upperhex (N.to_nat (Bytes.code c mod 16)))
                (QueryEscape s')))
      else String c (QueryEscape s')
  end.

Definition unhex (c : ascii) : option N :=
  let n := Bytes.code c in
  if ((48 <=? n) && (n <=? 57))%N then Some (n - 48)%N
  else if ((97 <=? n) && (n <=? 102))%N then Some (n - 97 + 10)%N
  else if ((65 <=? n) && (n <=? 70))%N then Some (n - 65 + 10)%N
  else None.

(** [url.QueryUnescape]: [%XX] becomes a byte, [+] a space; [None] is the
    [EscapeError] of a [%] not followed by two hexadecimal digits. *)
Fixpoint unescape (s : string) : option string :=
  match s with
  | EmptyString => Some EmptyString
  | String c rest =>
      if Ascii.eqb c "%"%char then
        match rest with
        | String a (String b rest') =>
            match unhex a, unhex b with
            | Some h, Some l => String (Bytes.chr (h * 16 + l)) <$> unescape rest'
            | _, _ => None
            end
        | _ => None
        end
      else if Ascii.eqb c "+"%char then String Bytes.space <$> unescape rest
      else String c <$> unescape rest
  end.

(** [message, _ := url.QueryUnescape(errorParam)]: the empty string on an error. *)
Definition QueryUnescape (s : string) : string := default EmptyString (unescape s).

(** ** Data model ([models/types.go]) *)

(** A value of [interface{}] in a decoded JSON object or in a token
    bundle.  Numbers are carried as integers: the handlers only use
    [int(v)] of a decoded number. *)
Inductive jval : Type :=
| JString (s : string)
| JNumber (n : Z)
| JBool (b : bool)
| JNull.

(** [map[string]interface{}] *)
Abbreviation jobject := (gmap string jval).

Record DeviceSession : Type := mkDeviceSession {
  DeviceCode : string;
  UserCode : string;
  NormalizedUserCode : string;
  Provider : string;
  State : string;
  Status : string;
  CreatedAt : Z;
  ExpiresAt : Z;
  CompletedAt : Z;
  (** [None] is the nil map of a session no bundle was attached to. *)
  Tokens : option jobject;
  Error : string;
  LastTouched : Z
}.

(** Assignments to single fields of a session. *)
Definition setStatus (v : string) (s : DeviceSession) : DeviceSession :=
  mkDeviceSession (DeviceCode s) (UserCode s) (NormalizedUserCode s) (Provider s)
    (State s) v (CreatedAt s) (ExpiresAt s) (CompletedAt s) (Tokens s) (Error s)
    (LastTouched s).

Definition setCompletedAt (v : Z) (s : DeviceSession) : DeviceSession :=
  mkDeviceSession (DeviceCode s) (UserCode s) (NormalizedUserCode s) (Provider s)
    (State s) (Status s) (CreatedAt s) (ExpiresAt s) v (Tokens s) (Error s)
    (LastTouched s).

Definition setTokens (v : option jobject) (s : DeviceSession) : DeviceSession :=
  mkDeviceSession (DeviceCode s) (UserCode s) (NormalizedUserCode s) (Provider s)
    (State s) (Status s) (CreatedAt s) (ExpiresAt s) (CompletedAt s) v (Error s)
    (LastTouched s).

Definition setError (v : string) (s : DeviceSession) : DeviceSession :=
  mkDeviceSession (DeviceCode s) (UserCode s) (NormalizedUserCode s) (Provider s)
    (State s) (Status s) (CreatedAt s) (ExpiresAt s) (CompletedAt s) (Tokens s) v
    (LastTouched s).

Definition setLastTouched (v : Z) (s : DeviceSession) : DeviceSession :=
  mkDeviceSession (DeviceCode s) (UserCode s) (NormalizedUserCode s) (Provider s)
    (State s) (Status s) (CreatedAt s) (ExpiresAt s) (CompletedAt s) (Tokens s)
    (Error s) v.

(** ** Session store *)

(** The three package-level maps guarded by [sessionMutex]. *)
Record Store : Type := mkStore {
  deviceSessions : gmap string DeviceSession;
  stateIndex : gmap string string;
  userIndex : gmap string string
}.

Definition emptyStore : Store := mkStore ∅ ∅ ∅.

(** [m[k]] on a [map[string]string]: the empty string when [k] is absent. *)
Definition index (m : gmap string string) (k : string) : string :=
  default EmptyString (m !! k).

Definition deviceSessionTTL : Z := 600.
Definition devicePollInterval : Z := 5.

Definition isTerminal (status : string) : bool :=
  String.eqb status "complete" || String.eqb status "error"
  || String.eqb status "expired".

(** The test of the loop of [sessionCleanup] on one session; in Go [&&]
    binds tighter than [||]. *)
Definition sweepable (now : Z) (session : DeviceSession) : bool :=
  let status := Status session in
  let expiresAt := ExpiresAt session in
  let completedAt :=
    if CompletedAt session =? 0 then expiresAt else CompletedAt session in
  (expiresAt <=? now) || (isTerminal status && (now - completedAt >? 120)).

(** The locked loop of [sessionCleanup]: the device codes to remove.  Go
    ranges over the map in no fixed order; the order of the keys of the
    finite map stands for it ([cleanup_order] shows that the order does not
    matter to the removals that follow). *)
Definition expiredCodes (now : Z) (st : Store) : list string :=
  (List.filter (fun p => sweepable now p.2) (map_to_list (deviceSessions st))).*1.

Definition storeSession (session : DeviceSession) (st : Store) : Store :=
  mkStore (<[DeviceCode session := session]> (deviceSessions st))
          (<[State session := DeviceCode session]> (stateIndex st))
          (<[NormalizedUserCode session := DeviceCode session]> (userIndex st)).

Definition removeSession (deviceCode : string) (st : Store) : Store :=
  match deviceSessions st !! deviceCode with
  | None => st
  | Some session =>
      mkStore (delete deviceCode (deviceSessions st))
              (delete (State session) (stateIndex st))
              (delete (NormalizedUserCode session) (userIndex st))
  end.

Definition getSessionCopy (deviceCode : string) (st : Store) : option DeviceSession :=
  deviceSessions st !! deviceCode.

(** [now] is the clock read inside the critical section. *)
Definition markSession (deviceCode status message : string) (now : Z) (st : Store) : Store :=
  match deviceSessions st !! deviceCode with
  | None => st
  | Some session =>
      let s1 := setCompletedAt now (setStatus status session) in
      let s2 := if String.eqb message "" then s1 else setError message s1 in
      mkStore (<[deviceCode := s2]> (deviceSessions st))
              (delete (State session) (stateIndex st))
              (userIndex st)
  end.

Definition setSessionTokens (deviceCode : string) (tokens : jobject) (now : Z) (st : Store) : Store :=
  match deviceSessions st !! deviceCode with
  | None => st
  | Some session =>
      let s1 := setCompletedAt now (setTokens (Some tokens) (setStatus "complete" session)) in
      mkStore (<[deviceCode := s1]> (deviceSessions st))
              (delete (State session) (stateIndex st))
              (userIndex st)
  end.

Definition findState (state : string) (st : Store) : string :=
  index (stateIndex st) state.

(** The critical section of [deviceSubmit] (from [sessionMutex.Lock()] to
    [sessionMutex.Unlock()]): the lookup through [userIndex] and the touch
    of the session found.  It yields [deviceCode] and the session as the
    critical section leaves it.  The handler goes on reading that session
    through its pointer after the unlock.  Those reads see this value when
    the handler is served to its end; when another handler writes the
    session in between, the Go code may read the later status, whereas
    [submitRest] below goes on from the value read here. *)
Definition submitLocked (normalized : string) (now : Z) (st : Store)
  : Store * (string * option DeviceSession) :=
  let deviceCode := index (userIndex st) normalized in
  if String.eqb deviceCode "" then (st, (deviceCode, None))
  else
    match deviceSessions st !! deviceCode with
    | None => (st, (deviceCode, None))
    | Some session =>
        let s1 := if ExpiresAt session <=? now then setStatus "expired" session else session in
        let s2 := setLastTouched now s1 in
        let s3 := if String.eqb (Status s2) "pending" then setStatus "authorizing" s2 else s2 in
        (mkStore (<[deviceCode := s3]> (deviceSessions st)) (stateIndex st) (userIndex st),
         (deviceCode, Some s3))
    end.

(** ** Handlers as programs over the store *)

(** One constructor for each block of the source that runs under
    [sessionMutex], indexed by the type of what the block yields. *)
Inductive Op : Type -> Type :=
| OpScan (now : Z) : Op (list string)
| OpRemove (deviceCode : string) : Op unit
| OpStore (session : DeviceSession) : Op unit
| OpGetCopy (deviceCode : string) : Op (option DeviceSession)
| OpMark (deviceCode status message : string) (now : Z) : Op unit
| OpSetTokens (deviceCode : string) (tokens : jobject) (now : Z) : Op unit
| OpFindState (state : string) : Op string
| OpSubmit (normalized : string) (now : Z) : Op (string * option DeviceSession).

Definition exec {A : Type} (o : Op A) (st : Store) : Store * A :=
  match o in Op T return Store * T with
  | OpScan now => (st, expiredCodes now st)
  | OpRemove deviceCode => (removeSession deviceCode st, tt)
  | OpStore session => (storeSession session st, tt)
  | OpGetCopy deviceCode => (st, getSessionCopy deviceCode st)
  | OpMark deviceCode status message now => (markSession deviceCode status message now st, tt)
  | OpSetTokens deviceCode tokens now => (setSessionTokens deviceCode tokens now st, tt)
  | OpFindState state => (st, findState state st)
  | OpSubmit normalized now => submitLocked normalized now st
  end.

(** A handler: a finite tree of atomic store operations ending in a result. *)
Inductive Prog (R : Type) : Type :=
| Ret (r : R)
| Atomic {A : Type} (o : Op A) (k : A -> Prog R).

Arguments Ret {R} r.
Arguments Atomic {R A} o k.

Fixpoint bind {R S : Type} (p : Prog R) (f : R -> Prog S) : Prog S :=
  match p with
  | Ret r => f r
  | Atomic o k => Atomic o (fun a => bind (k a) f)
  end.

Definition call {A : Type} (o : Op A) : Prog A := Atomic o Ret.

Notation "x <- p ;; q" := (bind p (fun x => q))
  (at level 100, p at next level, right associativity, only parsing).
Notation "p ;;; q" := (bind p (fun _ => q))
  (at level 100, right associativity, only parsing).

(** Running a handler alone, from start to end. *)
Fixpoint run {R : Type} (p : Prog R) (st : Store) : Store * R :=
  match p with
  | Ret r => (st, r)
  | Atomic o k => let (st', a) := exec o st in run (k a) st'
  end.

(** The removals that follow the locked loop of [sessionCleanup]: one
    critical section for each collected code. *)
Fixpoint removeAll (codes : list string) : Prog unit :=
  match codes with
  | [] => Ret tt
  | code :: rest => call (OpRemove code) ;;; removeAll rest
  end.

Definition sessionCleanup (now : Z) : Prog unit :=
  codes <- call (OpScan now) ;;
  removeAll codes.

(** ** HTTP layer *)

Definition StatusOK : Z := 200.
Definition StatusAccepted : Z := 202.
Definition StatusFound : Z := 302.
Definition StatusBadRequest : Z := 400.
Definition StatusNotFound : Z := 404.
Definition StatusGone : Z := 410.
Definition StatusInternalServerError : Z := 500.

(** What a handler writes to the connection. *)
Inductive Response : Type :=
| JSON (status : Z) (body : option jobject)
    (** [c.JSON(status, body)]; [None] is a nil map, written as [null] *)
| DevicePage (message code : string) (isError showForm : bool)
    (** [renderDevicePage(c, message, code, isError, showForm)] *)
| Redirect (status : Z) (endpoint : string) (params : gmap string string)
    (** [c.Redirect(status, endpoint + "?" + params.Encode())] *).

(** [gin.H{"detail": message}] *)
Definition detail (message : string) : option jobject :=
  Some {[ "detail" := JString message ]}.

(** The request data the handlers read besides their own parameters. *)
Record Context : Type := mkContext {
  XForwardedProto : string;   (** [c.GetHeader("X-Forwarded-Proto")] *)
  HostHeader : string;        (** [c.GetHeader("Host")] *)
  RequestHost : string        (** [c.Request.Host] *)
}.

Definition schemeOf (c : Context) : string :=
  if String.eqb (XForwardedProto c) "https" then "https" else "http".

Definition hostOf (c : Context) : string :=
  if String.eqb (HostHeader c) "" then RequestHost c else HostHeader c.

(** The outcome of [client.Do(req)] on a provider's token endpoint together
    with the decoding of the body. *)
Inductive TokenCall : Type :=
| TokenFailed (err : string)                   (** [err != nil] *)
| TokenAnswer (status : Z) (tokens : jobject)  (** [resp.StatusCode] and the decoded body *).

(** The outcome of [firebaseExchange(postBody)]. *)
Inductive FirebaseCall : Type :=
| FirebaseFailed (err : string)
| FirebaseData (data : jobject).

(** [models.AuthResponse] *)
Record AuthResponse : Type := mkAuthResponse {
  IDToken : string;
  RefreshToken : string;
  ExpiresIn : Z;
  Email : option string;
  LocalID : option string
}.

(** [data[key].(string)] *)
Definition asString (data : jobject) (key : string) : option string :=
  match data !! key with
  | Some (JString s) => Some s
  | _ => None
  end.

(** [data[key].(float64)], already converted by [int(.)] *)
Definition asNumber (data : jobject) (key : string) : option Z :=
  match data !! key with
  | Some (JNumber n) => Some n
  | _ => None
  end.

Fixpoint getString (data : jobject) (keys : list string) : string :=
  match keys with
  | [] => EmptyString
  | key :: rest =>
      match asString data key with
      | Some val => val
      | None => getString data rest
      end
  end.

Definition parseAuthResponse (data : jobject) : AuthResponse :=
  let expiresIn :=
    match asNumber data "expiresIn" with
    | Some ei => ei
    | None => match asNumber data "expires_in" with
              | Some ei => ei
              | None => 0
              end
    end in
  let email := asString data "email" in
  let localID :=
    match asString data "localId" with
    | Some lid => Some lid
    | None => asString data "user_id"
    end in
  mkAuthResponse (getString data ["idToken"; "id_token"])
                 (getString data ["refreshToken"; "refresh_token"])
                 expiresIn email localID.

(** The [authDict] both callbacks build from the parsed answer. *)
Definition authDict (provider : string) (authResp : AuthResponse) : jobject :=
  let d0 : jobject :=
    <["id_token" := JString (IDToken authResp)]>
      (<["refresh_token" := JString (RefreshToken authResp)]>
         (<["expires_in" := JNumber (ExpiresIn authResp)]>
            {[ "provider" := JString provider ]})) in
  let d1 := match Email authResp with
            | Some e => <["email" := JString e]> d0
            | None => d0
            end in
  match LocalID authResp with
  | Some l => <["local_id" := JString l]> d1
  | None => d1
  end.

(** The three clock readings a handler may take: the one of the sweep it
    starts with, its own [now], and the one of [markSession] or
    [setSessionTokens]. *)
Record Clock : Type := mkClock {
  atSweep : Z;
  atHandler : Z;
  atMark : Z
}.

Definition steady (now : Z) : Clock := mkClock now now now.

Section Handlers.

Set Default Proof Using "Type".

Variable unicodeToUpper : string -> string.
Variable unicodeToLower : string -> string.

(** Read from the environment by [init]. *)
Variable googleClientID : string.
Variable googleClientSecret : string.
Variable githubClientID : string.
Variable githubClientSecret : string.

Definition unset (v : string) : bool := String.eqb v "".

(** [checkProvider]: [Some] is the error. *)
Definition checkProvider (provider : string) : option string :=
  if String.eqb provider "google" && (unset googleClientID || unset googleClientSecret)
  then Some "google OAuth is not configured on the server"
  else if String.eqb provider "github" && (unset githubClientID || unset githubClientSecret)
  then Some "github OAuth is not configured on the server"
  else None.

(** The session [deviceStart] builds. *)
Definition newSession (now : Z) (rnd : Rand) (provider : string) : DeviceSession :=
  let deviceCode := generateDeviceCode (readRand rnd 0 40) in
  let userCode := generateUserCode (readRand rnd 40 8) in
  let normalized := normalizeCode unicodeToUpper userCode in
  let state := EncodeToString (readRand rnd 48 32) in
  mkDeviceSession deviceCode userCode normalized provider state "pending"
    now (now + deviceSessionTTL) 0 None "" 0.

(** [body] is the outcome of [c.ShouldBindJSON(&req)]: [None] on an
    error, else [req.Provider]. *)
Definition deviceStart (clk : Clock) (rnd : Rand) (c : Context) (body : option string)
  : Prog Response :=
  sessionCleanup (atSweep clk) ;;;
  match body with
  | None => Ret (JSON StatusBadRequest (detail "Invalid request"))
  | Some reqProvider =>
      let provider := ToLower unicodeToLower reqProvider in
      if negb (String.eqb provider "google") && negb (String.eqb provider "github")
      then Ret (JSON StatusBadRequest (detail "Unsupported provider"))
      else
        match checkProvider provider with
        | Some err => Ret (JSON StatusInternalServerError (detail err))
        | None =>
            let session := newSession (atHandler clk) rnd provider in
            call (OpStore session) ;;;
            let verificationURI :=
              schemeOf c +:+ "://" +:+ hostOf c +:+ "/api/v1/auth/device" in
            let verificationURIComplete :=
              verificationURI +:+ "?code=" +:+ QueryEscape (UserCode session) in
            Ret (JSON StatusOK (Some (
              <["device_code" := JString (DeviceCode session)]>
              (<["user_code" := JString (UserCode session)]>
              (<["verification_uri" := JString verificationURI]>
              (<["verification_uri_complete" := JString verificationURIComplete]>
              (<["interval" := JNumber devicePollInterval]>
              {[ "expires_in" := JNumber deviceSessionTTL ]})))))))
        end
  end.

(** [body]: [None] on a binding error, else [req.DeviceCode]. *)
Definition devicePoll (clk : Clock) (body : option string) : Prog Response :=
  sessionCleanup (atSweep clk) ;;;
  match body with
  | None => Ret (JSON StatusBadRequest (detail "Invalid request"))
  | Some deviceCode =>
      found <- call (OpGetCopy deviceCode) ;;
      match found with
      | None => Ret (JSON StatusNotFound (detail "Unknown device code"))
      | Some session =>
          let now := atHandler clk in
          if (ExpiresAt session <=? now) && String.eqb (Status session) "pending" then
            call (OpMark deviceCode "expired" "" (atMark clk)) ;;;
            call (OpRemove deviceCode) ;;;
            Ret (JSON StatusGone (detail "Device authorization expired"))
          else
            let status := Status session in
            if String.eqb status "pending" || String.eqb status "authorizing" then
              Ret (JSON StatusAccepted (Some {[ "status" := JString "pending" ]}))
            else if String.eqb status "complete" then
              let tokens := Tokens session in
              call (OpRemove deviceCode) ;;;
              Ret (JSON StatusOK tokens)
            else if String.eqb status "error" then
              let message :=
                if String.eqb (Error session) "" then "Authorization failed"
                else Error session in
              call (OpRemove deviceCode) ;;;
              Ret (JSON StatusBadRequest (detail message))
            else if String.eqb status "expired" then
              call (OpRemove deviceCode) ;;;
              Ret (JSON StatusGone (detail "Device authorization expired"))
            else
              call (OpRemove deviceCode) ;;;
              Ret (JSON StatusBadRequest (detail "Invalid device session state"))
      end
  end.

(** [deviceForm]: [message], [errorFlag] and [code] are the query
    parameters after their defaults. *)
Definition deviceForm (message : string) (errorFlag : bool) (code : string) : Prog Response :=
  Ret (DevicePage message code errorFlag true).

(** The part of [deviceSubmit] after the critical section; [found] is
    the session the handler reads through the pointer it kept ([None]
    for the nil pointer). *)
Definition submitRest (clk : Clock) (c : Context) (code deviceCode : string)
    (found : option DeviceSession) : Prog Response :=
  match found with
  | None =>
      Ret (DevicePage "Invalid or expired device code. Please try again." code true true)
  | Some session =>
      if String.eqb deviceCode "" then
        Ret (DevicePage "Invalid or expired device code. Please try again." code true true)
      else if String.eqb (Status session) "expired" then
        call (OpRemove deviceCode) ;;;
        Ret (DevicePage "Device code has expired. Restart the login from the CLI." code true true)
      else if String.eqb (Status session) "complete" then
        Ret (DevicePage "This code has already been used. Return to the CLI." code true true)
      else
        let scheme := schemeOf c in
        let host := hostOf c in
        if String.eqb (Provider session) "google" then
          if unset googleClientID || unset googleClientSecret then
            call (OpMark deviceCode "error" "Google OAuth not configured" (atMark clk)) ;;;
            Ret (DevicePage "Google login is not available. Contact support." code true true)
          else
            let callbackURL :=
              scheme +:+ "://" +:+ host +:+ "/api/v1/auth/device/callback/google" in
            Ret (Redirect StatusFound "https://accounts.google.com/o/oauth2/v2/auth"
              (<["client_id" := googleClientID]>
              (<["redirect_uri" := callbackURL]>
              (<["response_type" := "code"]>
              (<["scope" := "openid email profile"]>
              (<["state" := State session]>
              (<["access_type" := "offline"]>
              {[ "prompt" := "consent" ]})))))))
        else if String.eqb (Provider session) "github" then
          if unset githubClientID || unset githubClientSecret then
            call (OpMark deviceCode "error" "GitHub OAuth not configured" (atMark clk)) ;;;
            Ret (DevicePage "GitHub login is not available. Contact support." code true true)
          else
            let callbackURL :=
              scheme +:+ "://" +:+ host +:+ "/api/v1/auth/device/callback/github" in
            Ret (Redirect StatusFound "https://github.com/login/oauth/authorize"
              (<["client_id" := githubClientID]>
              (<["redirect_uri" := callbackURL]>
              (<["scope" := "read:user user:email"]>
              (<["state" := State session]>
              {[ "allow_signup" := "false" ]})))))
        else
          call (OpMark deviceCode "error" "Unsupported provider" (atMark clk)) ;;;
          Ret (DevicePage "Unsupported provider" code true true)
  end.

(** [code] is [c.PostForm("code")]. *)
Definition deviceSubmit (clk : Clock) (c : Context) (code : string) : Prog Response :=
  if String.eqb code "" then
    Ret (DevicePage "Device code is required" code true true)
  else
    let normalized := normalizeCode unicodeToUpper code in
    let now := atHandler clk in
    r <- call (OpSubmit normalized now) ;;
    submitRest clk c code r.1 r.2.


(** [callbackGoogle] and [callbackGitHub] are the same function up to the
    texts below and the requests they send. *)
Record ProviderTexts : Type := mkProviderTexts {
  providerName : string;
  tokenField : string;
  contactFailed : string;
  authorizationFailed : string;
  authorizationFailedPage : string;
  tokenMissing : string;
  tokenMissingPage : string
}.

Definition googleTexts : ProviderTexts :=
  mkProviderTexts "google" "id_token"
    "Failed to contact Google. Please try again."
    "Google authorization failed"
    "Google authorization failed. Please try again."
    "Missing Google ID token"
    "Google response did not include an ID token".

Definition githubTexts : ProviderTexts :=
  mkProviderTexts "github" "access_token"
    "Failed to contact GitHub. Please try again."
    "GitHub authorization failed"
    "GitHub authorization failed. Please try again."
    "Missing GitHub access token"
    "GitHub response did not include an access token".

(** [state], [code] and [errorParam] are the query parameters; [tc] and
    [fc] are the answers of the provider's token endpoint and of
    [firebaseExchange], consulted only where the source makes the call. *)
Definition providerCallback (t : ProviderTexts) (clk : Clock)
    (state code errorParam : string) (tc : TokenCall) (fc : FirebaseCall)
  : Prog Response :=
  if String.eqb state "" then
    Ret (DevicePage "Missing state parameter" "" true false)
  else
    deviceCode <- call (OpFindState state) ;;
    found <- call (OpGetCopy deviceCode) ;;
    match found with
    | None =>
        Ret (DevicePage "Session not found or expired. Return to the CLI and try again."
               "" true false)
    | Some session =>
        if String.eqb deviceCode "" then
          Ret (DevicePage "Session not found or expired. Return to the CLI and try again."
                 "" true false)
        else if ExpiresAt session <=? atHandler clk then
          call (OpMark deviceCode "expired" "" (atMark clk)) ;;;
          call (OpRemove deviceCode) ;;;
          Ret (DevicePage "Session has expired. Please restart the login from the CLI."
                 "" true false)
        else if negb (String.eqb errorParam "") then
          let message := QueryUnescape errorParam in
          call (OpMark deviceCode "error" message (atMark clk)) ;;;
          Ret (DevicePage ("Authorization failed: " +:+ message) "" true false)
        else if String.eqb code "" then
          call (OpMark deviceCode "error" "Missing authorization code" (atMark clk)) ;;;
          Ret (DevicePage "Missing authorization code" "" true false)
        else
          match tc with
          | TokenFailed err =>
              call (OpMark deviceCode "error" err (atMark clk)) ;;;
              Ret (DevicePage (contactFailed t) "" true false)
          | TokenAnswer status tokens =>
              if negb (status =? StatusOK) then
                call (OpMark deviceCode "error" (authorizationFailed t) (atMark clk)) ;;;
                Ret (DevicePage (authorizationFailedPage t) "" true false)
              else
                match asString tokens (tokenField t) with
                | None =>
                    call (OpMark deviceCode "error" (tokenMissing t) (atMark clk)) ;;;
                    Ret (DevicePage (tokenMissingPage t) "" true false)
                | Some providerToken =>
                    if String.eqb providerToken "" then
                      call (OpMark deviceCode "error" (tokenMissing t) (atMark clk)) ;;;
                      Ret (DevicePage (tokenMissingPage t) "" true false)
                    else
                      match fc with
                      | FirebaseFailed err =>
                          call (OpMark deviceCode "error" err (atMark clk)) ;;;
                          Ret (DevicePage "Firebase authentication failed" "" true false)
                      | FirebaseData firebaseData =>
                          let authResp := parseAuthResponse firebaseData in
                          call (OpSetTokens deviceCode
                                  (authDict (providerName t) authResp) (atMark clk)) ;;;
                          Ret (DevicePage
                                 "Authentication complete. You may return to the CLI to finish logging in."
                                 "" false false)
                      end
                end
          end
    end.

Definition callbackGoogle := providerCallback googleTexts.
Definition callbackGitHub := providerCallback githubTexts.

(** ** The server: requests served concurrently *)

(** A request of the device flow with everything its handler reads. *)
Inductive Request : Type :=
| PostDeviceStart (clk : Clock) (rnd : Rand) (c : Context) (body : option string)
| PostDevicePoll (clk : Clock) (body : option string)
| GetDevice (message : string) (errorFlag : bool) (code : string)
| PostDevice (clk : Clock) (c : Context) (code : string)
| GetCallbackGoogle (clk : Clock) (state code errorParam : string)
    (tc : TokenCall) (fc : FirebaseCall)
| GetCallbackGitHub (clk : Clock) (state code errorParam : string)
    (tc : TokenCall) (fc : FirebaseCall).

(** The routes of [RegisterAuth] that belong to the device flow. *)
Definition handler (req : Request) : Prog Response :=
  match req with
  | PostDeviceStart clk rnd c body => deviceStart clk rnd c body
  | PostDevicePoll clk body => devicePoll clk body
  | GetDevice message errorFlag code => deviceForm message errorFlag code
  | PostDevice clk c code => deviceSubmit clk c code
  | GetCallbackGoogle clk state code errorParam tc fc =>
      callbackGoogle clk state code errorParam tc fc
  | GetCallbackGitHub clk state code errorParam tc fc =>
      callbackGitHub clk state code errorParam tc fc
  end.

(** The store together with the handlers in flight, each at the atomic
    operation it is about to make. *)
Record World : Type := mkWorld {
  store : Store;
  threads : list (Prog Response)
}.

Definition initial : World := mkWorld emptyStore [].

(** One step of the server: a request arrives and its handler starts, or
    one handler in flight takes the lock and runs its next critical
    section.  [allowed] says which critical sections may run on which
    store; it restricts the runs a statement is about. *)
Inductive stepWhere (allowed : forall A : Type, Op A -> Store -> Prop) : World -> World -> Prop :=
| step_accept (w : World) (req : Request) :
    stepWhere allowed w (mkWorld (store w) (threads w ++ [handler req]))
| step_atomic (w : World) (i : nat) {A : Type} (o : Op A) (k : A -> Prog Response) :
    threads w !! i = Some (Atomic o k) ->
    allowed A o (store w) ->
    stepWhere allowed w (mkWorld (exec o (store w)).1
                                 (<[i := k (exec o (store w)).2]> (threads w))).

Definition always : forall A : Type, Op A -> Store -> Prop := fun _ _ _ => True.

(** The steps of the server, with no restriction. *)
Definition step : World -> World -> Prop := stepWhere always.

Definition reachable (w : World) : Prop := rtc step initial w.

(** ** Definitions used to state the properties *)

(** Two codes that differ only in the case of ASCII letters and in
    hyphens or spaces put in or left out. *)
Inductive sameCode : string -> string -> Prop :=
| same_nil : sameCode EmptyString EmptyString
| same_byte (a b : ascii) (s t : string) :
    Bytes.upperByte a = Bytes.upperByte b -> sameCode s t ->
    sameCode (String a s) (String b t)
| same_skip_l (c : ascii) (s t : string) :
    c = Bytes.hyphen \/ c = Bytes.space -> sameCode s t -> sameCode (String c s) t
| same_skip_r (c : ascii) (s t : string) :
    c = Bytes.hyphen \/ c = Bytes.space -> sameCode s t -> sameCode s (String c t).

(** ASCII white space, as [unicode.IsSpace] has it: tab, line feed,
    vertical tab, form feed, carriage return and space. *)
Definition isWhitespace (c : ascii) : bool :=
  let n := Bytes.code c in ((9 <=? n) && (n <=? 13) || (n =? 32))%N.

(** The bytes [normalizeCode] keeps. *)
Definition kept (c : ascii) : bool :=
  negb (Ascii.eqb c Bytes.hyphen) && negb (Ascii.eqb c Bytes.space).


(** The store after the removals of [removeAll codes]. *)
Fixpoint removeEach (codes : list string) (st : Store) : Store :=
  match codes with
  | [] => st
  | code :: rest => removeEach rest (removeSession code st)
  end.

(** The store [sessionCleanup] leaves when nothing runs in between. *)
Definition swept (now : Z) (st : Store) : Store :=
  removeEach (expiredCodes now st) st.

(** The terminal statuses. *)
Definition terminal (status : string) : Prop :=
  status = "complete" \/ status = "error" \/ status = "expired".

(** The instant the 120 seconds of the sweep are counted from. *)
Definition completedOrExpiry (session : DeviceSession) : Z :=
  if CompletedAt session =? 0 then ExpiresAt session else CompletedAt session.

(** The answers to a series of polls for one device code, one after the
    other, each with its own clock readings. *)
Fixpoint pollAgain (clks : list Clock) (deviceCode : string) (st : Store) : list Response :=
  match clks with
  | [] => []
  | clk :: rest =>
      let (st', answer) := run (devicePoll clk (Some deviceCode)) st in
      answer :: pollAgain rest deviceCode st'
  end.

Definition unknownDeviceCode : Response :=
  JSON StatusNotFound (detail "Unknown device code").

(** The fields of a session that identify it and fix its lifetime. *)
Definition sameIdentity (s s' : DeviceSession) : Prop :=
  DeviceCode s' = DeviceCode s /\ UserCode s' = UserCode s
  /\ NormalizedUserCode s' = NormalizedUserCode s /\ Provider s' = Provider s
  /\ State s' = State s /\ CreatedAt s' = CreatedAt s /\ ExpiresAt s' = ExpiresAt s.

(** The session a critical section puts into the store, if it is a
    [storeSession]. *)
Definition storedBy {A : Type} (o : Op A) : option DeviceSession :=
  match o with
  | OpStore session => Some session
  | _ => None
  end.

(** [P] holds of every session a program may store, whatever the store
    answers to its earlier operations. *)
Fixpoint storesOnly {R : Type} (P : DeviceSession -> Prop) (p : Prog R) : Prop :=
  match p with
  | Ret _ => True
  | Atomic o k =>
      (forall session, storedBy o = Some session -> P session)
      /\ forall a, storesOnly P (k a)
  end.

(** [expiresAt = createdAt + TTL] *)
Definition ttlFixed (session : DeviceSession) : Prop :=
  ExpiresAt session = CreatedAt session + deviceSessionTTL.

(** Every session of the primary map sits under its own device code. *)
Definition keyed (st : Store) : Prop :=
  forall dc session, deviceSessions st !! dc = Some session -> DeviceCode session = dc.

(** No two live sessions share a device code, a normalized user code or
    a state. *)
Definition uniqueCodes (st : Store) : Prop :=
  forall dc1 dc2 s1 s2,
    deviceSessions st !! dc1 = Some s1 -> deviceSessions st !! dc2 = Some s2 ->
    DeviceCode s1 = DeviceCode s2 \/ NormalizedUserCode s1 = NormalizedUserCode s2
    \/ State s1 = State s2 ->
    dc1 = dc2.

(** No live session carries the normalized user code or the state of [session]. *)
Definition freshFor (st : Store) (session : DeviceSession) : Prop :=
  forall dc live, deviceSessions st !! dc = Some live ->
    NormalizedUserCode live <> NormalizedUserCode session /\ State live <> State session.

(** The runs in which every [storeSession] brings a user code and a state
    that no live session carries: the random draws do not collide. *)
Definition noCollision : forall A : Type, Op A -> Store -> Prop :=
  fun _ o st => forall session, storedBy o = Some session -> freshFor st session.

(** Whatever the state index reaches is pending or authorizing. *)
Definition stateIndexLive (st : Store) : Prop :=
  forall state dc session,
    stateIndex st !! state = Some dc -> deviceSessions st !! dc = Some session ->
    Status session = "pending" \/ Status session = "authorizing".

(** [allowed] holds at every critical section of the run of [p] from [st]. *)
Fixpoint allowedRun {R : Type} (allowed : forall A : Type, Op A -> Store -> Prop)
    (p : Prog R) (st : Store) : Prop :=
  match p with
  | Ret _ => True
  | Atomic o k => allowed _ o st /\ allowedRun allowed (k (exec o st).2) (exec o st).1
  end.

(** The runs in which no [storeSession] brings the device code of a live
    session. *)
Definition freshDeviceCode : forall A : Type, Op A -> Store -> Prop :=
  fun _ o st => forall session, storedBy o = Some session ->
                                deviceSessions st !! DeviceCode session = None.

(** Every entry of the state index leads to a live session with that
    state, and that session is pending, authorizing or expired. *)
Definition stateIndexSound (st : Store) : Prop :=
  forall state dc,
    stateIndex st !! state = Some dc ->
    exists session,
      deviceSessions st !! dc = Some session /\ State session = state
      /\ (Status session = "pending" \/ Status session = "authorizing"
          \/ Status session = "expired").

(** What [normalizeCode] needs of [strings.ToUpper] on the strings that
    hold a byte outside ASCII, the only ones [toUpper] stands for: ASCII
    letters are upper-cased there as in ASCII strings, upper-casing again
    changes nothing, and no hyphen and no space comes out that did not go
    in. *)
Definition upperCasing (toUpper : string -> string) : Prop :=
  forall s, Bytes.isASCII s = false ->
    toUpper (Bytes.map Bytes.upperByte s) = toUpper s
    /\ ToUpper toUpper (toUpper s) = toUpper s
    /\ (Bytes.filter kept s = s -> Bytes.filter kept (toUpper s) = toUpper s).

(** ** Further definitions: bearer tokens, provider login, discipline of the handlers *)

(** The position of a byte in a string, counted from [i]. *)
Fixpoint indexOf (c : ascii) (s : string) (i : N) : option N :=
  match s with
  | EmptyString => None
  | String d s' => if Ascii.eqb c d then Some i else indexOf c s' (i + 1)%N
  end.

(** Whether a byte is one of the 36 symbols of [generateUserCode]. *)
Definition inAlphabet (c : ascii) : bool :=
  match indexOf c alphabet 0 with
  | Some _ => true
  | None => false
  end.

(** The bytes [url.QueryEscape] leaves as they are. *)
Definition unreserved (c : ascii) : bool :=
  negb (Ascii.eqb c Bytes.space) && negb (shouldEscape c).

(** The number of occurrences of a byte. *)
Fixpoint countByte (c : ascii) (s : string) : nat :=
  match s with
  | EmptyString => O
  | String d s' => if Ascii.eqb c d then S (countByte c s') else countByte c s'
  end.

(** [s[n:]]; [None] is the panic of a slice out of range. *)
Fixpoint sliceFrom (n : nat) (s : string) : option string :=
  match n, s with
  | O, _ => Some s
  | S n', String _ s' => sliceFrom n' s'
  | S _, EmptyString => None
  end.

(** The loops of [strings.TrimSpace] over the bytes of [asciiSpace]
    (tab, line feed, vertical tab, form feed, carriage return, space). *)
Fixpoint trimLeft (s : string) : string :=
  match s with
  | EmptyString => EmptyString
  | String c s' => if isWhitespace c then trimLeft s' else s
  end.

Fixpoint trimRight (s : string) : string :=
  match s with
  | EmptyString => EmptyString
  | String c s' =>
      match trimRight s' with
      | EmptyString => if isWhitespace c then EmptyString else String c EmptyString
      | t => String c t
      end
  end.

(** On a string of ASCII bytes [strings.TrimSpace] is the two loops above.
    Where its loops meet a byte outside ASCII the Go library turns to its
    Unicode tables; what it yields on a string that holds such a byte is
    left as a parameter. *)
Variable unicodeTrimSpace : string -> string.

Definition TrimSpace (s : string) : string :=
  if Bytes.isASCII s then trimRight (trimLeft s) else unicodeTrimSpace s.

(** The two results of [extractToken], and the panic of [authHeader[7:]]
    on a header shorter than 7 bytes. *)
Inductive Bearer : Type :=
| BearerToken (token : string)
| BearerError (message : string)
| BearerPanic.

Definition extractToken (authHeader : string) : Bearer :=
  if String.eqb authHeader "" then BearerError "missing authorization header"
  else if negb (String.prefix "bearer " (ToLower unicodeToLower authHeader))
  then BearerError "invalid authorization header"
  else
    match sliceFrom 7 authHeader with
    | None => BearerPanic
    | Some rest =>
        let token := TrimSpace rest in
        if String.eqb token "" then BearerError "invalid authorization header"
        else BearerToken token
    end.

(** [models.AuthProviderRequest]; [None] is a nil pointer. *)
Record AuthProviderRequest : Type := mkAuthProviderRequest {
  RequestProvider : string;
  RequestIDToken : option string;
  RequestAccessToken : option string
}.

(** The first part of [loginProvider]: the [postBody] for
    [firebaseExchange], or the [detail] of the 400 it answers with. *)
Definition providerPostBody (req : AuthProviderRequest) : string + string :=
  let provider := ToLower unicodeToLower (RequestProvider req) in
  if String.eqb provider "google" then
    let token :=
      match RequestIDToken req with
      | Some t => t
      | None => match RequestAccessToken req with
                | Some t => t
                | None => EmptyString
                end
      end in
    if String.eqb token "" then inl "Missing id_token or access_token for Google login"
    else
      let field := match RequestIDToken req with
                   | Some _ => "id_token"
                   | None => "access_token"
                   end in
      inr (field +:+ "=" +:+ QueryEscape token +:+ "&providerId=google.com")
  else if String.eqb provider "github" then
    match RequestAccessToken req with
    | None => inl "Missing access_token for GitHub login"
    | Some t => inr ("access_token=" +:+ QueryEscape t +:+ "&providerId=github.com")
    end
  else inl ("Unsupported provider '" +:+ RequestProvider req +:+ "'").

(** [models.AuthResponse] as [c.JSON] writes it: [email] and [local_id]
    are left out when nil. *)
Definition authResponseJSON (r : AuthResponse) : jobject :=
  let d0 : jobject :=
    <["id_token" := JString (IDToken r)]>
      (<["refresh_token" := JString (RefreshToken r)]>
         {[ "expires_in" := JNumber (ExpiresIn r) ]}) in
  let d1 := match Email r with
            | Some e => <["email" := JString e]> d0
            | None => d0
            end in
  match LocalID r with
  | Some l => <["local_id" := JString l]> d1
  | None => d1
  end.

(** [body] is the outcome of [c.ShouldBindJSON(&req)]; [fc] is the answer
    of [firebaseExchange], consulted only when the call is made. *)
Definition loginProvider (body : option AuthProviderRequest) (fc : FirebaseCall) : Response :=
  match body with
  | None => JSON StatusBadRequest (detail "Invalid request")
  | Some req =>
      match providerPostBody req with
      | inl message => JSON StatusBadRequest (detail message)
      | inr _ =>
          match fc with
          | FirebaseFailed err => JSON StatusBadRequest (detail err)
          | FirebaseData data => JSON StatusOK (Some (authResponseJSON (parseAuthResponse data)))
          end
      end
  end.

(** A token bundle as the callbacks build it. *)
Definition bundleShaped (tokens : jobject) : Prop :=
  (exists v, tokens !! "id_token" = Some (JString v))
  /\ (exists v, tokens !! "refresh_token" = Some (JString v))
  /\ (exists n, tokens !! "expires_in" = Some (JNumber n))
  /\ (tokens !! "provider" = Some (JString "google")
      \/ tokens !! "provider" = Some (JString "github")).

(** What the handlers ask of the store: they store sessions that are
    pending and carry neither bundle nor error, they mark sessions expired
    or in error only, and they attach bundles of the expected shape. *)
Definition handlerOp : forall A : Type, Op A -> Prop :=
  fun _ o =>
    match o with
    | OpStore session =>
        Status session = "pending" /\ Tokens session = None /\ Error session = EmptyString
    | OpMark _ status _ _ => status = "expired" \/ status = "error"
    | OpSetTokens _ tokens _ => bundleShaped tokens
    | _ => True
    end.

(** The five statuses the code writes. *)
Definition knownStatus (status : string) : Prop :=
  status = "pending" \/ status = "authorizing" \/ status = "complete"
  \/ status = "error" \/ status = "expired".

(** Every live session has a known status, and a complete one carries a
    bundle. *)
Definition sessionsShaped (st : Store) : Prop :=
  forall dc session,
    deviceSessions st !! dc = Some session ->
    knownStatus (Status session)
    /\ (Status session = "complete" ->
        exists tokens, Tokens session = Some tokens /\ bundleShaped tokens).

(** A program that keeps to [handlerOp] and ends in a result with [Q],
    whatever a store with [sessionsShaped] answers to its critical
    sections. *)
Fixpoint disciplined {R : Type} (Q : R -> Prop) (p : Prog R) : Prop :=
  match p with
  | Ret r => Q r
  | Atomic o k =>
      handlerOp _ o /\ forall st, sessionsShaped st -> disciplined Q (k (exec o st).2)
  end.

(** A 200 in JSON carries an object, never [null]: a token bundle, or
    the answer of a start with its [device_code]. *)
Definition wellFormedAnswer (r : Response) : Prop :=
  forall body, r = JSON StatusOK body ->
    exists answer, body = Some answer
      /\ (bundleShaped answer \/ exists v, answer !! "device_code" = Some (JString v)).

(** Every entry of the user-code index leads to a live session with that
    normalized user code. *)
Definition userIndexSound (st : Store) : Prop :=
  forall normalized dc,
    userIndex st !! normalized = Some dc ->
    exists session,
      deviceSessions st !! dc = Some session /\ NormalizedUserCode session = normalized.

(** Every live session is found through its normalized user code, and
    through its state as long as it is pending or authorizing. *)
Definition indexedSessions (st : Store) : Prop :=
  forall dc session,
    deviceSessions st !! dc = Some session ->
    userIndex st !! NormalizedUserCode session = Some dc
    /\ (Status session = "pending" \/ Status session = "authorizing" ->
        stateIndex st !! State session = Some dc).

(** The runs in which every [storeSession] brings a device code, a user
    code and a state that no live session carries. *)
Definition freshCodes : forall A : Type, Op A -> Store -> Prop :=
  fun _ o st => forall session, storedBy o = Some session ->
                                deviceSessions st !! DeviceCode session = None
                                /\ freshFor st session.

(** The 256 values of a byte, in order. *)
Definition allBytes : list byte := omap Byte.of_N (List.map N.of_nat (seq 0 256)).

(** The number of byte values that [generateUserCode] turns into the
    symbol [c]. *)
Definition drawsOf (c : ascii) : nat :=
  length (List.filter (fun v => String.eqb (rawUserCode [v]) (String c EmptyString)) allBytes).

(** Requests served one after the other, each to its end: the answers. *)
Fixpoint serveEach (reqs : list Request) (st : Store) : list Response :=
  match reqs with
  | [] => []
  | req :: rest => (run (handler req) st).2 :: serveEach rest (run (handler req) st).1
  end.

(** The store they leave. *)
Definition storeAfter (reqs : list Request) (st : Store) : Store :=
  fold_left (fun st' req => (run (handler req) st').1) reqs st.

(** [session] has left the store with its entries of the two indices. *)
Definition forgotten (st : Store) (session : DeviceSession) : Prop :=
  deviceSessions st !! DeviceCode session = None
  /\ userIndex st !! NormalizedUserCode session = None
  /\ stateIndex st !! State session = None.

(** [session] is live under its device code, the user-code index leads
    to it, and no other live session carries its normalized user code or
    its state. *)
Definition tracked (st : Store) (session : DeviceSession) : Prop :=
  deviceSessions st !! DeviceCode session = Some session
  /\ userIndex st !! NormalizedUserCode session = Some (DeviceCode session)
  /\ forall dc other,
       dc <> DeviceCode session -> deviceSessions st !! dc = Some other ->
       NormalizedUserCode other <> NormalizedUserCode session
       /\ State other <> State session.

(** The answers of a device flow that goes well: to the start, to a poll
    that comes too early, to the submit of the user code, and to the
    provider's callback. *)
Definition startAnswer (c : Context) (session : DeviceSession) : Response :=
  let verificationURI := schemeOf c +:+ "://" +:+ hostOf c +:+ "/api/v1/auth/device" in
  JSON StatusOK (Some (
    <["device_code" := JString (DeviceCode session)]>
    (<["user_code" := JString (UserCode session)]>
    (<["verification_uri" := JString verificationURI]>
    (<["verification_uri_complete" :=
         JString (verificationURI +:+ "?code=" +:+ QueryEscape (UserCode session))]>
    (<["interval" := JNumber devicePollInterval]>
    {[ "expires_in" := JNumber deviceSessionTTL ]})))))).

Definition pendingAnswer : Response :=
  JSON StatusAccepted (Some {[ "status" := JString "pending" ]}).

Definition googleRedirect (c : Context) (session : DeviceSession) : Response :=
  Redirect StatusFound "https://accounts.google.com/o/oauth2/v2/auth"
    (<["client_id" := googleClientID]>
    (<["redirect_uri" :=
         schemeOf c +:+ "://" +:+ hostOf c +:+ "/api/v1/auth/device/callback/google"]>
    (<["response_type" := "code"]>
    (<["scope" := "openid email profile"]>
    (<["state" := State session]>
    (<["access_type" := "offline"]>
    {[ "prompt" := "consent" ]})))))).

Definition githubRedirect (c : Context) (session : DeviceSession) : Response :=
  Redirect StatusFound "https://github.com/login/oauth/authorize"
    (<["client_id" := githubClientID]>
    (<["redirect_uri" :=
         schemeOf c +:+ "://" +:+ hostOf c +:+ "/api/v1/auth/device/callback/github"]>
    (<["scope" := "read:user user:email"]>
    (<["state" := State session]>
    {[ "allow_signup" := "false" ]})))).

Definition completePage : Response :=
  DevicePage "Authentication complete. You may return to the CLI to finish logging in."
    "" false false.

(** ** The code generator *)

Lemma upperByte_idem (c : ascii) : Bytes.upperByte (Bytes.upperByte c) = Bytes.upperByte c.
Proof. destruct c as [[] [] [] [] [] [] [] []]; reflexivity. Qed.

Lemma upperByte_ascii (c : ascii) :
  Bytes.isASCIIbyte c = true -> Bytes.isASCIIbyte (Bytes.upperByte c) = true.
Proof. destruct c as [[] [] [] [] [] [] [] []]; intros H; vm_compute in H |- *; congruence. Qed.

Lemma upperByte_kept (c : ascii) : kept (Bytes.upperByte c) = kept c.
Proof. destruct c as [[] [] [] [] [] [] [] []]; reflexivity. Qed.

Lemma filter_filter (p q : ascii -> bool) (s : string) :
  Bytes.filter p (Bytes.filter q s) = Bytes.filter (fun c => q c && p c) s.
Proof.
  induction s as [|c s IH]; simpl; [reflexivity|].
  destruct (q c); simpl; [destruct (p c)|]; simpl; congruence.
Qed.

Lemma filter_ext (p q : ascii -> bool) (s : string) :
  (forall c, p c = q c) -> Bytes.filter p s = Bytes.filter q s.
Proof. intros E; induction s as [|c s IH]; simpl; [reflexivity|]. rewrite E, IH. reflexivity. Qed.

Lemma all_filter (p q : ascii -> bool) (s : string) :
  Bytes.all p s = true -> Bytes.all p (Bytes.filter q s) = true.
Proof.
  induction s as [|c s IH]; simpl; [reflexivity|].
  intros [Hc Hs]%andb_true_iff. destruct (q c); simpl; [rewrite Hc|]; auto.
Qed.

Lemma isASCII_upper (s : string) :
  Bytes.isASCII s = true -> Bytes.isASCII (Bytes.map Bytes.upperByte s) = true.
Proof.
  unfold Bytes.isASCII. induction s as [|c s IH]; simpl; [reflexivity|].
  intros [Hc Hs]%andb_true_iff. rewrite upperByte_ascii by exact Hc. auto.
Qed.

Lemma filter_kept_upper (s : string) :
  Bytes.filter kept (Bytes.map Bytes.upperByte s) = Bytes.map Bytes.upperByte (Bytes.filter kept s).
Proof.
  induction s as [|c s IH]; simpl; [reflexivity|].
  rewrite upperByte_kept. destruct (kept c); simpl; congruence.
Qed.

Lemma map_upper_idem (s : string) :
  Bytes.map Bytes.upperByte (Bytes.map Bytes.upperByte s) = Bytes.map Bytes.upperByte s.
Proof. induction s as [|c s IH]; simpl; [reflexivity|]. rewrite upperByte_idem, IH. reflexivity. Qed.

Lemma dropBytes_kept (s : string) :
  Bytes.dropByte Bytes.space (Bytes.dropByte Bytes.hyphen s) = Bytes.filter kept s.
Proof. unfold Bytes.dropByte. rewrite filter_filter. reflexivity. Qed.

(** On ASCII input [normalizeCode] drops the hyphens and the spaces and
    upper-cases what is left. *)
Lemma normalizeCode_ascii (code : string) :
  Bytes.isASCII code = true ->
  normalizeCode unicodeToUpper code = Bytes.map Bytes.upperByte (Bytes.filter kept code).
Proof.
  intros H. unfold normalizeCode, ToUpper. rewrite dropBytes_kept.
  unfold Bytes.isASCII in *. rewrite all_filter by exact H. reflexivity.
Qed.

Lemma sameCode_normal (s t : string) :
  sameCode s t ->
  Bytes.map Bytes.upperByte (Bytes.filter kept s) = Bytes.map Bytes.upperByte (Bytes.filter kept t).
Proof.
  induction 1 as [|a b s t Hab _ IH|c s t Hc _ IH|c s t Hc _ IH]; simpl.
  - reflexivity.
  - rewrite <- (upperByte_kept a), <- (upperByte_kept b), Hab.
    destruct (kept (Bytes.upperByte b)); simpl; congruence.
  - destruct Hc as [-> | ->]; exact IH.
  - destruct Hc as [-> | ->]; exact IH.
Qed.

(** ** Running handlers *)

Lemma run_bind {R S : Type} (p : Prog R) (f : R -> Prog S) (st : Store) :
  run (bind p f) st = run (f (run p st).2) (run p st).1.
Proof.
  revert st. induction p as [r|A o k IH]; intros st; simpl; [reflexivity|].
  destruct (exec o st) as [st' a]. apply IH.
Qed.

Lemma run_removeAll (codes : list string) (st : Store) :
  run (removeAll codes) st = (removeEach codes st, tt).
Proof.
  revert st. induction codes as [|c codes IH]; intros st; simpl; [reflexivity|].
  apply IH.
Qed.

Lemma run_sessionCleanup (now : Z) (st : Store) :
  run (sessionCleanup now) st = (swept now st, tt).
Proof. unfold sessionCleanup. simpl. apply run_removeAll. Qed.

(** ** The store operations *)

Lemma isTerminal_spec (status : string) : isTerminal status = true <-> terminal status.
Proof.
  unfold isTerminal, terminal. rewrite !orb_true_iff, !String.eqb_eq.
  split; [intros [[?|?]|?]|intros [?|[?|?]]]; auto.
Qed.

Lemma sweepable_spec (now : Z) (session : DeviceSession) :
  sweepable now session = true <->
  ExpiresAt session <= now
  \/ (terminal (Status session) /\ now - completedOrExpiry session > 120).
Proof.
  unfold sweepable, completedOrExpiry.
  rewrite orb_true_iff, andb_true_iff, isTerminal_spec, Z.leb_le, Z.gtb_gt. reflexivity.
Qed.

Lemma removeSession_sessions (dc : string) (st : Store) :
  deviceSessions (removeSession dc st) = delete dc (deviceSessions st).
Proof.
  unfold removeSession. destruct (deviceSessions st !! dc) eqn:E; simpl; [reflexivity|].
  symmetry. apply delete_id. exact E.
Qed.

Lemma removeSession_comm (a b : string) (st : Store) :
  removeSession a (removeSession b st) = removeSession b (removeSession a st).
Proof.
  destruct (decide (a = b)) as [->|Hab]; [reflexivity|].
  unfold removeSession.
  destruct (deviceSessions st !! a) as [sa|] eqn:Ea;
    destruct (deviceSessions st !! b) as [sb|] eqn:Eb; simpl;
    rewrite ?lookup_delete_ne by congruence; rewrite ?Ea, ?Eb; simpl; try reflexivity.
  f_equal; apply delete_delete.
Qed.

Lemma removeEach_sessions (codes : list string) (st : Store) (dc : string) :
  deviceSessions (removeEach codes st) !! dc
  = if decide (dc ∈ codes) then None else deviceSessions st !! dc.
Proof.
  revert st. induction codes as [|c codes IH]; intros st; simpl.
  - destruct (decide (dc ∈ [])) as [Hin|_]; [|reflexivity].
    exfalso. revert Hin. apply not_elem_of_nil.
  - rewrite IH, removeSession_sessions.
    destruct (decide (dc ∈ codes)) as [Hin|Hin];
      destruct (decide (dc ∈ c :: codes)) as [Hin'|Hin']; try reflexivity.
    + exfalso. apply Hin'. right. exact Hin.
    + apply elem_of_cons in Hin' as [->|?]; [apply lookup_delete_eq|contradiction].
    + apply lookup_delete_ne. intros ->. apply Hin'. left.
Qed.

(** The order in which the collected codes are removed is immaterial. *)
Lemma cleanup_order (l1 l2 : list string) (st : Store) :
  l1 ≡ₚ l2 -> removeEach l1 st = removeEach l2 st.
Proof.
  intros Hp. revert st. induction Hp as [|x l l' _ IH|x y l|l l' l'' _ IH1 _ IH2]; intros st; simpl.
  - reflexivity.
  - apply IH.
  - rewrite removeSession_comm. reflexivity.
  - rewrite IH1. apply IH2.
Qed.

Lemma elem_of_expiredCodes (now : Z) (st : Store) (dc : string) :
  dc ∈ expiredCodes now st <->
  exists session, deviceSessions st !! dc = Some session /\ sweepable now session = true.
Proof.
  unfold expiredCodes. rewrite list_elem_of_fmap. split.
  - intros [[k s] [-> Hin]]. apply list_elem_of_In, filter_In in Hin as [Hin Hs].
    apply list_elem_of_In, elem_of_map_to_list in Hin. eauto.
  - intros [s [Hl Hs]]. exists (dc, s). split; [reflexivity|].
    apply list_elem_of_In, filter_In. split; [|exact Hs].
    apply list_elem_of_In, elem_of_map_to_list. exact Hl.
Qed.

(** What the sweep leaves of the primary map. *)
Lemma swept_sessions (now : Z) (st : Store) (dc : string) :
  deviceSessions (swept now st) !! dc
  = match deviceSessions st !! dc with
    | Some session => if sweepable now session then None else Some session
    | None => None
    end.
Proof.
  unfold swept. rewrite removeEach_sessions.
  destruct (decide (dc ∈ expiredCodes now st)) as [Hin|Hin].
  - apply elem_of_expiredCodes in Hin as [s [-> ->]]. reflexivity.
  - destruct (deviceSessions st !! dc) as [s|] eqn:E; [|reflexivity].
    destruct (sweepable now s) eqn:Hs; [|reflexivity].
    exfalso. apply Hin, elem_of_expiredCodes. eauto.
Qed.

(** C2 (as amended): the sweep removes a session exactly when its
    [expiresAt] has passed, whatever its status, or when it is terminal
    and was completed more than 120 seconds ago; a session it keeps is
    left as it was.  So a session still pending is removed only once
    [expiresAt] has passed, and a complete session completed at most 120
    seconds ago is kept as long as [expiresAt] has not passed. *)
Theorem sweep_policy (now : Z) (st : Store) (dc : string) (session : DeviceSession) :
  deviceSessions st !! dc = Some session ->
  let after := deviceSessions (run (sessionCleanup now) st).1 !! dc in
  (after = None <->
     ExpiresAt session <= now
     \/ (terminal (Status session) /\ now - completedOrExpiry session > 120))
  /\ (after = None \/ after = Some session)
  /\ (Status session = "pending" -> after = None -> ExpiresAt session <= now)
  /\ (Status session = "complete" -> now - CompletedAt session <= 120 ->
      now < ExpiresAt session -> after = Some session).
Proof.
  intros Hl after. subst after. rewrite run_sessionCleanup. simpl.
  rewrite swept_sessions, Hl.
  pose proof (sweepable_spec now session) as Hs.
  destruct (sweepable now session) eqn:E.
  - assert (Hd := proj1 Hs eq_refl). repeat split; auto.
    + intros Hp _. destruct Hd as [?|[[Ht|[Ht|Ht]] _]]; [assumption|congruence..].
    + intros _ Hc He. exfalso. destruct Hd as [?|[_ Hd]]; [lia|].
      unfold completedOrExpiry in Hd. destruct (CompletedAt session =? 0); lia.
  - repeat split; auto; try discriminate.
    intros Hd. apply Hs in Hd. discriminate.
Qed.

(** ** Polling *)

Lemma removeSession_gone (dc : string) (st : Store) :
  deviceSessions (removeSession dc st) !! dc = None.
Proof. rewrite removeSession_sessions. apply lookup_delete_eq. Qed.

(** A removal clears the session's own entries of the two indices. *)
Lemma removeSession_indices (dc : string) (st : Store) (session : DeviceSession) :
  deviceSessions st !! dc = Some session ->
  stateIndex (removeSession dc st) !! State session = None
  /\ userIndex (removeSession dc st) !! NormalizedUserCode session = None.
Proof.
  intros H. unfold removeSession. rewrite H. simpl. split; apply lookup_delete_eq.
Qed.

Lemma swept_absent (now : Z) (st : Store) (dc : string) :
  deviceSessions st !! dc = None -> deviceSessions (swept now st) !! dc = None.
Proof. intros H. rewrite swept_sessions, H. reflexivity. Qed.

Lemma swept_kept (now : Z) (st : Store) (dc : string) (session : DeviceSession) :
  deviceSessions st !! dc = Some session -> sweepable now session = false ->
  deviceSessions (swept now st) !! dc = Some session.
Proof. intros H Hs. rewrite swept_sessions, H, Hs. reflexivity. Qed.

Lemma run_devicePoll (clk : Clock) (dc : string) (st : Store) :
  run (devicePoll clk (Some dc)) st
  = run (match deviceSessions (swept (atSweep clk) st) !! dc with
         | None => Ret (JSON StatusNotFound (detail "Unknown device code"))
         | Some session =>
             if (ExpiresAt session <=? atHandler clk) && String.eqb (Status session) "pending" then
               call (OpMark dc "expired" "" (atMark clk)) ;;;
               call (OpRemove dc) ;;;
               Ret (JSON StatusGone (detail "Device authorization expired"))
             else if String.eqb (Status session) "pending"
                     || String.eqb (Status session) "authorizing" then
               Ret (JSON StatusAccepted (Some {[ "status" := JString "pending" ]}))
             else if String.eqb (Status session) "complete" then
               call (OpRemove dc) ;;; Ret (JSON StatusOK (Tokens session))
             else if String.eqb (Status session) "error" then
               call (OpRemove dc) ;;;
               Ret (JSON StatusBadRequest
                      (detail (if String.eqb (Error session) "" then "Authorization failed"
                               else Error session)))
             else if String.eqb (Status session) "expired" then
               call (OpRemove dc) ;;;
               Ret (JSON StatusGone (detail "Device authorization expired"))
             else
               call (OpRemove dc) ;;;
               Ret (JSON StatusBadRequest (detail "Invalid device session state"))
         end) (swept (atSweep clk) st).
Proof.
  unfold devicePoll. rewrite run_bind, run_sessionCleanup. simpl.
  unfold getSessionCopy. reflexivity.
Qed.

(** A poll for a device code the store does not hold. *)
Lemma poll_unknown (clk : Clock) (dc : string) (st : Store) :
  deviceSessions st !! dc = None ->
  run (devicePoll clk (Some dc)) st = (swept (atSweep clk) st, unknownDeviceCode).
Proof.
  intros H. rewrite run_devicePoll, swept_absent by exact H. reflexivity.
Qed.

Lemma pollAgain_unknown (clks : list Clock) (dc : string) (st : Store) :
  deviceSessions st !! dc = None ->
  Forall (fun answer => answer = unknownDeviceCode) (pollAgain clks dc st).
Proof.
  revert st. induction clks as [|clk clks IH]; intros st H; cbn [pollAgain]; [constructor|].
  rewrite poll_unknown by exact H. constructor; [reflexivity|].
  apply IH, swept_absent, H.
Qed.

Lemma not_sweepable_complete (now : Z) (session : DeviceSession) :
  now < ExpiresAt session -> now - CompletedAt session <= 120 ->
  sweepable now session = false.
Proof.
  intros He Hc. apply not_true_iff_false. rewrite sweepable_spec.
  unfold completedOrExpiry. destruct (CompletedAt session =? 0); lia.
Qed.

Lemma not_sweepable_live (now : Z) (session : DeviceSession) :
  now < ExpiresAt session -> ~ terminal (Status session) ->
  sweepable now session = false.
Proof.
  intros He Ht. apply not_true_iff_false. rewrite sweepable_spec. intros [?|[? _]]; [lia|contradiction].
Qed.

(** C1 (as amended): a complete session that the sweep at the top of the
    poll does not reclaim ([expiresAt] still ahead, completed at most 120
    seconds ago) is handed out once: the poll answers 200 with the stored
    bundle and removes the session with its index entries, and every
    later poll for the device code answers 404, unknown device code. *)
Theorem poll_complete_once (clk : Clock) (st : Store) (dc : string) (session : DeviceSession) :
  deviceSessions st !! dc = Some session ->
  Status session = "complete" ->
  atSweep clk < ExpiresAt session ->
  atSweep clk - CompletedAt session <= 120 ->
  let first := run (devicePoll clk (Some dc)) st in
  first.2 = JSON StatusOK (Tokens session)
  /\ deviceSessions first.1 !! dc = None
  /\ stateIndex first.1 !! State session = None
  /\ userIndex first.1 !! NormalizedUserCode session = None
  /\ forall later : list Clock,
       Forall (fun answer => answer = unknownDeviceCode) (pollAgain later dc first.1).
Proof.
  intros Hl Hs He Hc first. subst first.
  assert (Hk : deviceSessions (swept (atSweep clk) st) !! dc = Some session).
  { apply swept_kept; [exact Hl|]. apply not_sweepable_complete; assumption. }
  rewrite run_devicePoll, Hk, Hs. simpl. rewrite andb_false_r. simpl.
  destruct (removeSession_indices dc _ session Hk) as [H1 H2].
  repeat split; auto using removeSession_gone.
  intros later. apply pollAgain_unknown, removeSession_gone.
Qed.

(** A pending session whose [expiresAt] has passed at the sweep the poll
    starts with: the sweep removes it, and the poll answers 404. *)
Lemma poll_expired_pending_swept (clk : Clock) (st : Store) (dc : string) (session : DeviceSession) :
  deviceSessions st !! dc = Some session ->
  Status session = "pending" ->
  ExpiresAt session <= atSweep clk ->
  run (devicePoll clk (Some dc)) st = (swept (atSweep clk) st, unknownDeviceCode)
  /\ deviceSessions (swept (atSweep clk) st) !! dc = None.
Proof.
  intros Hl Hs He.
  assert (Hg : deviceSessions (swept (atSweep clk) st) !! dc = None).
  { rewrite swept_sessions, Hl.
    replace (sweepable (atSweep clk) session) with true; [reflexivity|].
    symmetry. apply sweepable_spec. left. exact He. }
  split; [|exact Hg]. rewrite run_devicePoll, Hg. reflexivity.
Qed.

(** The 410 of an expired pending session needs the clock to pass
    [expiresAt] between the sweep's reading and the handler's. *)
Lemma poll_expired_pending_gone (clk : Clock) (st : Store) (dc : string) (session : DeviceSession) :
  deviceSessions st !! dc = Some session ->
  Status session = "pending" ->
  atSweep clk < ExpiresAt session <= atHandler clk ->
  let first := run (devicePoll clk (Some dc)) st in
  first.2 = JSON StatusGone (detail "Device authorization expired")
  /\ deviceSessions first.1 !! dc = None
  /\ stateIndex first.1 !! State session = None
  /\ userIndex first.1 !! NormalizedUserCode session = None.
Proof.
  intros Hl Hs [He1 He2] first. subst first.
  assert (Hk : deviceSessions (swept (atSweep clk) st) !! dc = Some session).
  { apply swept_kept; [exact Hl|]. apply not_sweepable_live; [exact He1|].
    rewrite Hs. intros [?|[?|?]]; discriminate. }
  rewrite run_devicePoll, Hk, Hs.
  replace (ExpiresAt session <=? atHandler clk) with true by (symmetry; apply Z.leb_le; exact He2).
  simpl. unfold markSession. rewrite Hk. simpl.
  unfold removeSession. simpl. rewrite lookup_insert_eq. simpl.
  repeat split; rewrite ?lookup_delete_eq; auto.
Qed.

(** C10 (as amended): a session whose status is none of the five known
    ones and whose [expiresAt] is still ahead at the sweep is consumed by
    a poll: it is removed with its index entries and the poll answers 400,
    invalid device session state. *)
Theorem poll_invalid_state (clk : Clock) (st : Store) (dc : string) (session : DeviceSession) :
  deviceSessions st !! dc = Some session ->
  Status session <> "pending" -> Status session <> "authorizing" ->
  Status session <> "complete" -> Status session <> "error" ->
  Status session <> "expired" ->
  atSweep clk < ExpiresAt session ->
  let first := run (devicePoll clk (Some dc)) st in
  first.2 = JSON StatusBadRequest (detail "Invalid device session state")
  /\ deviceSessions first.1 !! dc = None
  /\ stateIndex first.1 !! State session = None
  /\ userIndex first.1 !! NormalizedUserCode session = None.
Proof.
  intros Hl H1 H2 H3 H4 H5 He first. subst first.
  assert (Hk : deviceSessions (swept (atSweep clk) st) !! dc = Some session).
  { apply swept_kept; [exact Hl|]. apply not_sweepable_live; [exact He|].
    intros [?|[?|?]]; contradiction. }
  rewrite run_devicePoll, Hk.
  apply String.eqb_neq in H1, H2, H3, H4, H5. rewrite H1, H2, H3, H4, H5.
  rewrite andb_false_r. simpl.
  destruct (removeSession_indices dc _ session Hk) as [Hs Hu].
  repeat split; auto using removeSession_gone.
Qed.

(** ** Submitting a user code *)

Lemma run_deviceSubmit (clk : Clock) (c : Context) (code : string) (st : Store) :
  code <> EmptyString ->
  run (deviceSubmit clk c code) st
  = run (submitRest clk c code
           (submitLocked (normalizeCode unicodeToUpper code) (atHandler clk) st).2.1
           (submitLocked (normalizeCode unicodeToUpper code) (atHandler clk) st).2.2)
        (submitLocked (normalizeCode unicodeToUpper code) (atHandler clk) st).1.
Proof.
  intros Hc. unfold deviceSubmit. apply String.eqb_neq in Hc. rewrite Hc. simpl.
  destruct (submitLocked _ _ st) as [st' [dc found]]. reflexivity.
Qed.

(** The code echoed on the page has no part in what [deviceSubmit] does
    to the store after its critical section. *)
Lemma submitRest_store (clk : Clock) (c : Context) (code code' deviceCode : string)
    (found : option DeviceSession) (st : Store) :
  (run (submitRest clk c code deviceCode found) st).1
  = (run (submitRest clk c code' deviceCode found) st).1.
Proof.
  unfold submitRest. destruct found as [session|]; [|reflexivity].
  repeat match goal with
         | |- context [if ?b then _ else _] => destruct b
         end; reflexivity.
Qed.

Lemma upperByte_isASCII (c : ascii) :
  Bytes.isASCIIbyte (Bytes.upperByte c) = Bytes.isASCIIbyte c.
Proof. destruct c as [[] [] [] [] [] [] [] []]; reflexivity. Qed.

Lemma isASCII_map_upper (s : string) :
  Bytes.isASCII (Bytes.map Bytes.upperByte s) = Bytes.isASCII s.
Proof.
  unfold Bytes.isASCII. induction s as [|c s IH]; [reflexivity|].
  cbn [Bytes.map Bytes.all]. rewrite upperByte_isASCII, IH. reflexivity.
Qed.

Lemma isASCII_filter_kept (s : string) :
  Bytes.isASCII (Bytes.filter kept s) = Bytes.isASCII s.
Proof.
  unfold Bytes.isASCII. induction s as [|c s IH]; [reflexivity|].
  cbn [Bytes.filter Bytes.all]. destruct (kept c) eqn:E; cbn [Bytes.all]; rewrite IH.
  - reflexivity.
  - replace (Bytes.isASCIIbyte c) with true; [reflexivity|].
    unfold kept in E. apply andb_false_iff in E as [E|E]; apply negb_false_iff in E;
      apply Ascii.eqb_eq in E; subst c; reflexivity.
Qed.

Lemma filter_kept_idem (s : string) :
  Bytes.filter kept (Bytes.filter kept s) = Bytes.filter kept s.
Proof.
  rewrite filter_filter. apply filter_ext. intros c. destruct (kept c); reflexivity.
Qed.

(** [normalizeCode] is [strings.ToUpper] after the hyphens and the spaces
    have been left out. *)
Lemma normalizeCode_filter (code : string) :
  normalizeCode unicodeToUpper code = ToUpper unicodeToUpper (Bytes.filter kept code).
Proof. unfold normalizeCode. rewrite dropBytes_kept. reflexivity. Qed.

Lemma normalizeCode_idem (code : string) :
  Bytes.isASCII code = true \/ upperCasing unicodeToUpper ->
  normalizeCode unicodeToUpper (normalizeCode unicodeToUpper code)
  = normalizeCode unicodeToUpper code.
Proof.
  intros H. destruct (Bytes.isASCII code) eqn:A.
  - rewrite (normalizeCode_ascii code) by exact A.
    rewrite normalizeCode_ascii.
    + rewrite filter_kept_upper, map_upper_idem, filter_kept_idem. reflexivity.
    + apply isASCII_upper. rewrite isASCII_filter_kept. exact A.
  - destruct H as [H|H]; [discriminate H|].
    assert (E : ToUpper unicodeToUpper (Bytes.filter kept code)
                = unicodeToUpper (Bytes.filter kept code)).
    { unfold ToUpper. rewrite isASCII_filter_kept, A. reflexivity. }
    destruct (H (Bytes.filter kept code)) as (_ & U2 & U3);
      [rewrite isASCII_filter_kept; exact A|].
    rewrite (normalizeCode_filter code), E.
    rewrite normalizeCode_filter, (U3 (filter_kept_idem code)). exact U2.
Qed.

Lemma normalizeCode_sameCode (code code' : string) :
  Bytes.isASCII code = true \/ upperCasing unicodeToUpper ->
  sameCode code code' ->
  normalizeCode unicodeToUpper code = normalizeCode unicodeToUpper code'.
Proof.
  intros H Hs. apply sameCode_normal in Hs.
  assert (A : Bytes.isASCII (Bytes.filter kept code) = Bytes.isASCII (Bytes.filter kept code')).
  { rewrite <- (isASCII_map_upper (Bytes.filter kept code)), Hs. apply isASCII_map_upper. }
  rewrite !normalizeCode_filter. unfold ToUpper. rewrite <- A.
  destruct (Bytes.isASCII (Bytes.filter kept code)) eqn:E; [exact Hs|].
  destruct H as [H|H]; [rewrite isASCII_filter_kept in E; congruence|].
  assert (E' : Bytes.isASCII (Bytes.filter kept code') = false) by (rewrite <- A; reflexivity).
  destruct (H _ E) as (U1 & _). destruct (H _ E') as (U1' & _).
  rewrite <- U1, <- U1', Hs. reflexivity.
Qed.

(** Two codes with the same normal form lead a submit to the same entry
    of the user-code index and to the same store. *)
Lemma submit_same_session (code code' : string) (clk : Clock) (c : Context) (st : Store) :
  normalizeCode unicodeToUpper code = normalizeCode unicodeToUpper code' ->
  code <> EmptyString -> code' <> EmptyString ->
  index (userIndex st) (normalizeCode unicodeToUpper code)
  = index (userIndex st) (normalizeCode unicodeToUpper code')
  /\ (run (deviceSubmit clk c code) st).1 = (run (deviceSubmit clk c code') st).1.
Proof.
  intros E Hn Hn'. split; [rewrite E; reflexivity|].
  rewrite !run_deviceSubmit by assumption. rewrite E. apply submitRest_store.
Qed.

(** C8 (as amended): for every input [normalizeCode] is the upper-case
    form, by [strings.ToUpper], of the code with every hyphen and every
    space character left out; no other white space is touched.  It is
    invariant under formatting: two codes that differ only by hyphens or
    spaces put in have the same normal form, whatever their bytes; so have
    two codes that differ in the case of letters as well; a submit of
    either resolves to the same session and does the same to the store;
    and [normalizeCode] is idempotent.  The last three hold of every ASCII
    code outright, and of every code with bytes outside ASCII by what
    [upperCasing] records of [strings.ToUpper] on such strings. *)
Theorem normalizeCode_canonical (code : string) :
  normalizeCode unicodeToUpper code = ToUpper unicodeToUpper (Bytes.filter kept code)
  /\ (Bytes.isASCII code = true ->
      normalizeCode unicodeToUpper code = Bytes.map Bytes.upperByte (Bytes.filter kept code))
  /\ (forall (code' : string),
        Bytes.filter kept code = Bytes.filter kept code' ->
        normalizeCode unicodeToUpper code = normalizeCode unicodeToUpper code'
        /\ forall (clk : Clock) (c : Context) (st : Store),
             code <> EmptyString -> code' <> EmptyString ->
             index (userIndex st) (normalizeCode unicodeToUpper code)
             = index (userIndex st) (normalizeCode unicodeToUpper code')
             /\ (run (deviceSubmit clk c code) st).1 = (run (deviceSubmit clk c code') st).1)
  /\ (Bytes.isASCII code = true \/ upperCasing unicodeToUpper ->
      normalizeCode unicodeToUpper (normalizeCode unicodeToUpper code)
      = normalizeCode unicodeToUpper code
      /\ forall code' : string,
           sameCode code code' ->
           normalizeCode unicodeToUpper code = normalizeCode unicodeToUpper code'
           /\ forall (clk : Clock) (c : Context) (st : Store),
                code <> EmptyString -> code' <> EmptyString ->
                index (userIndex st) (normalizeCode unicodeToUpper code)
                = index (userIndex st) (normalizeCode unicodeToUpper code')
                /\ (run (deviceSubmit clk c code) st).1
                   = (run (deviceSubmit clk c code') st).1).
Proof.
  split; [apply normalizeCode_filter|].
  split; [apply normalizeCode_ascii|]. split.
  - intros code' Hf.
    assert (E : normalizeCode unicodeToUpper code = normalizeCode unicodeToUpper code')
      by (rewrite !normalizeCode_filter, Hf; reflexivity).
    split; [exact E|]. intros clk c st. apply submit_same_session, E.
  - intros H. split; [apply normalizeCode_idem, H|].
    intros code' Hs.
    pose proof (normalizeCode_sameCode code code' H Hs) as E.
    split; [exact E|]. intros clk c st. apply submit_same_session, E.
Qed.

(** C4 (as amended): a submit of a user code that resolves to no session,
    the empty code included, renders the entry form again with an error
    and leaves the store as it was; a submit of the user code of a session
    whose [expiresAt] has passed renders the form again with an error and
    removes that session: the store it leaves is the one [removeSession]
    yields. *)
Theorem submit_unknown_or_expired (clk : Clock) (c : Context) (code : string) (st : Store) :
  let dc := index (userIndex st) (normalizeCode unicodeToUpper code) in
  (code = EmptyString ->
   run (deviceSubmit clk c code) st
   = (st, DevicePage "Device code is required" code true true))
  /\ (code <> EmptyString ->
      dc = EmptyString \/ deviceSessions st !! dc = None ->
      run (deviceSubmit clk c code) st
      = (st, DevicePage "Invalid or expired device code. Please try again." code true true))
  /\ (code <> EmptyString ->
      forall session : DeviceSession,
        dc <> EmptyString -> deviceSessions st !! dc = Some session ->
        ExpiresAt session <= atHandler clk ->
        run (deviceSubmit clk c code) st
        = (removeSession dc st,
           DevicePage "Device code has expired. Restart the login from the CLI." code true true)).
Proof.
  intros dc. split; [intros ->; reflexivity|]. split.
  - intros Hc Hu. rewrite run_deviceSubmit by exact Hc. unfold submitLocked. fold dc.
    destruct (String.eqb dc "") eqn:E; [reflexivity|].
    destruct Hu as [Hu|Hu]; [apply String.eqb_neq in E; contradiction|].
    rewrite Hu. reflexivity.
  - intros Hc session Hd Hl He. rewrite run_deviceSubmit by exact Hc.
    unfold submitLocked. fold dc. apply String.eqb_neq in Hd. rewrite Hd, Hl.
    replace (ExpiresAt session <=? atHandler clk) with true by (symmetry; apply Z.leb_le; exact He).
    simpl. rewrite Hd. simpl. unfold removeSession. simpl.
    rewrite lookup_insert_eq, Hl. simpl. rewrite delete_insert_eq. reflexivity.
Qed.

(** ** Starting a device flow *)

Lemma removeEach_subseteq (codes : list string) (st : Store) :
  deviceSessions (removeEach codes st) ⊆ deviceSessions st
  /\ stateIndex (removeEach codes st) ⊆ stateIndex st
  /\ userIndex (removeEach codes st) ⊆ userIndex st.
Proof.
  revert st. induction codes as [|code codes IH]; intros st; simpl; [auto|].
  destruct (IH (removeSession code st)) as (H1 & H2 & H3).
  assert (deviceSessions (removeSession code st) ⊆ deviceSessions st
          /\ stateIndex (removeSession code st) ⊆ stateIndex st
          /\ userIndex (removeSession code st) ⊆ userIndex st) as (G1 & G2 & G3).
  { unfold removeSession. destruct (deviceSessions st !! code); simpl;
      repeat split; try reflexivity; apply delete_subseteq. }
  repeat split; etrans; eassumption.
Qed.

Lemma swept_nothing_due (now : Z) (st : Store) :
  (forall dc session, deviceSessions st !! dc = Some session -> sweepable now session = false) ->
  swept now st = st.
Proof.
  intros H. unfold swept. replace (expiredCodes now st) with (@nil string); [reflexivity|].
  symmetry. apply elem_of_nil_inv. intros dc Hin.
  apply elem_of_expiredCodes in Hin as [s [Hl Hs]]. rewrite (H _ _ Hl) in Hs. discriminate.
Qed.

(** C9 (as amended): a start whose provider, lower-cased, is neither
    google nor github answers 400 and stores no session.  The store it
    leaves is the one left by the expiry sweep every start begins with:
    nothing is added to the primary map or to an index, the number of
    sessions does not grow, and the store is exactly as before when no
    session was due for the sweep. *)
Theorem start_unsupported (clk : Clock) (rnd : Rand) (c : Context) (provider : string) (st : Store) :
  ToLower unicodeToLower provider <> "google" ->
  ToLower unicodeToLower provider <> "github" ->
  let after := (run (deviceStart clk rnd c (Some provider)) st).1 in
  run (deviceStart clk rnd c (Some provider)) st
  = (swept (atSweep clk) st, JSON StatusBadRequest (detail "Unsupported provider"))
  /\ deviceSessions after ⊆ deviceSessions st
  /\ stateIndex after ⊆ stateIndex st
  /\ userIndex after ⊆ userIndex st
  /\ (size (deviceSessions after) <= size (deviceSessions st))%nat
  /\ ((forall dc session, deviceSessions st !! dc = Some session ->
         sweepable (atSweep clk) session = false) -> after = st).
Proof.
  intros H1 H2 after.
  assert (E : run (deviceStart clk rnd c (Some provider)) st
              = (swept (atSweep clk) st, JSON StatusBadRequest (detail "Unsupported provider"))).
  { unfold deviceStart. rewrite run_bind, run_sessionCleanup. cbn [fst snd].
    apply String.eqb_neq in H1, H2. rewrite H1, H2. reflexivity. }
  subst after. rewrite E. simpl.
  destruct (removeEach_subseteq (expiredCodes (atSweep clk) st) st) as (G1 & G2 & G3).
  repeat split; try assumption.
  - apply map_subseteq_size. exact G1.
  - apply swept_nothing_due.
Qed.

(** ** Critical sections and the fields they leave alone *)

Lemma sameIdentity_refl (s : DeviceSession) : sameIdentity s s.
Proof. repeat split. Qed.

Lemma markSession_frame (dc0 status message : string) (now : Z) (st : Store)
    (dc : string) (s' : DeviceSession) :
  deviceSessions (markSession dc0 status message now st) !! dc = Some s' ->
  exists s, deviceSessions st !! dc = Some s /\ sameIdentity s s'.
Proof.
  unfold markSession. destruct (deviceSessions st !! dc0) as [s0|] eqn:E; simpl.
  - destruct (decide (dc0 = dc)) as [->|Hne].
    + rewrite lookup_insert_eq. intros [= <-]. exists s0. split; [exact E|].
      destruct (String.eqb message ""); repeat split.
    + rewrite lookup_insert_ne by exact Hne. eauto using sameIdentity_refl.
  - eauto using sameIdentity_refl.
Qed.

Lemma setSessionTokens_frame (dc0 : string) (tokens : jobject) (now : Z) (st : Store)
    (dc : string) (s' : DeviceSession) :
  deviceSessions (setSessionTokens dc0 tokens now st) !! dc = Some s' ->
  exists s, deviceSessions st !! dc = Some s /\ sameIdentity s s'.
Proof.
  unfold setSessionTokens. destruct (deviceSessions st !! dc0) as [s0|] eqn:E; simpl.
  - destruct (decide (dc0 = dc)) as [->|Hne].
    + rewrite lookup_insert_eq. intros [= <-]. exists s0. split; [exact E|]. repeat split.
    + rewrite lookup_insert_ne by exact Hne. eauto using sameIdentity_refl.
  - eauto using sameIdentity_refl.
Qed.

Lemma submitLocked_frame (normalized : string) (now : Z) (st : Store)
    (dc : string) (s' : DeviceSession) :
  deviceSessions (submitLocked normalized now st).1 !! dc = Some s' ->
  exists s, deviceSessions st !! dc = Some s /\ sameIdentity s s'.
Proof.
  unfold submitLocked. set (dc0 := index (userIndex st) normalized).
  destruct (String.eqb dc0 ""); simpl; [eauto using sameIdentity_refl|].
  destruct (deviceSessions st !! dc0) as [s0|] eqn:E; simpl; [|eauto using sameIdentity_refl].
  destruct (decide (dc0 = dc)) as [->|Hne].
  - rewrite lookup_insert_eq. intros [= <-]. exists s0. split; [exact E|].
    destruct (ExpiresAt s0 <=? now); simpl;
      [|destruct (String.eqb (Status s0) "pending")]; repeat split.
  - rewrite lookup_insert_ne by exact Hne. eauto using sameIdentity_refl.
Qed.

(** A session found in the store after a critical section was there
    before, under the same device code and with the same identity and
    lifetime, unless the section is the [storeSession] that brought it. *)
Lemma exec_frame {A : Type} (o : Op A) (st : Store) (dc : string) (s' : DeviceSession) :
  deviceSessions (exec o st).1 !! dc = Some s' ->
  (exists s, deviceSessions st !! dc = Some s /\ sameIdentity s s')
  \/ (storedBy o = Some s' /\ dc = DeviceCode s').
Proof.
  destruct o; simpl.
  - eauto using sameIdentity_refl.
  - rewrite removeSession_sessions. intros H. left.
    apply lookup_delete_Some in H as [_ H]. eauto using sameIdentity_refl.
  - destruct (decide (DeviceCode session = dc)) as [<-|Hne].
    + rewrite lookup_insert_eq. intros [= <-]. right. split; reflexivity.
    + rewrite lookup_insert_ne by exact Hne. eauto using sameIdentity_refl.
  - eauto using sameIdentity_refl.
  - intros H. left. eapply markSession_frame, H.
  - intros H. left. eapply setSessionTokens_frame, H.
  - eauto using sameIdentity_refl.
  - intros H. left. eapply submitLocked_frame, H.
Qed.

(** [markSession] and [setSessionTokens] drop the session's entry of the
    state index in the critical section that sets the status. *)
Lemma markSession_state_entry (dc status message : string) (now : Z) (st : Store)
    (session : DeviceSession) :
  deviceSessions st !! dc = Some session ->
  stateIndex (markSession dc status message now st) !! State session = None
  /\ exists s', deviceSessions (markSession dc status message now st) !! dc = Some s'
                /\ Status s' = status /\ CompletedAt s' = now.
Proof.
  intros H. unfold markSession. rewrite H. simpl. split; [apply lookup_delete_eq|].
  rewrite lookup_insert_eq. eexists. split; [reflexivity|].
  destruct (String.eqb message ""); split; reflexivity.
Qed.

Lemma setSessionTokens_state_entry (dc : string) (tokens : jobject) (now : Z) (st : Store)
    (session : DeviceSession) :
  deviceSessions st !! dc = Some session ->
  stateIndex (setSessionTokens dc tokens now st) !! State session = None
  /\ exists s', deviceSessions (setSessionTokens dc tokens now st) !! dc = Some s'
                /\ Status s' = "complete" /\ Tokens s' = Some tokens /\ CompletedAt s' = now.
Proof.
  intros H. unfold setSessionTokens. rewrite H. simpl. split; [apply lookup_delete_eq|].
  rewrite lookup_insert_eq. eexists. repeat split.
Qed.

(** ** Programs and what they store *)

Lemma storesOnly_bind {R S : Type} (P : DeviceSession -> Prop) (p : Prog R) (f : R -> Prog S) :
  storesOnly P p -> (forall r, storesOnly P (f r)) -> storesOnly P (bind p f).
Proof.
  intros Hp Hf. induction p as [r|A o k IH]; simpl in *; [apply Hf|].
  destruct Hp as [Ho Hk]. split; [exact Ho|]. intros a. apply IH, Hk.
Qed.

Lemma storesOnly_removeAll (P : DeviceSession -> Prop) (codes : list string) :
  storesOnly P (removeAll codes).
Proof. induction codes as [|c codes IH]; simpl; [exact I|]. split; [discriminate|]. intros _. exact IH. Qed.

Lemma storesOnly_sessionCleanup (P : DeviceSession -> Prop) (now : Z) :
  storesOnly P (sessionCleanup now).
Proof.
  unfold sessionCleanup. simpl. split; [discriminate|]. intros codes. apply storesOnly_removeAll.
Qed.

(** Splits the tests of a handler until every path is a chain of
    critical sections none of which is a [storeSession]. *)
Ltac walk_paths :=
  repeat first
    [ exact I
    | discriminate
    | progress (cbn [storesOnly bind call storedBy]; intros)
    | split
    | match goal with
      | |- context [if ?b then _ else _] => destruct b
      | |- context [match ?x with _ => _ end] => destruct x
      end ].

Lemma deviceStart_stores (clk : Clock) (rnd : Rand) (c : Context) (body : option string) :
  storesOnly ttlFixed (deviceStart clk rnd c body).
Proof.
  unfold deviceStart. apply storesOnly_bind; [apply storesOnly_sessionCleanup|]. intros _.
  destruct body as [provider|]; [|exact I].
  destruct (negb _ && negb _); [exact I|].
  destruct (checkProvider _); [exact I|].
  cbn [storesOnly bind call storedBy]. split; [|intros _; exact I].
  intros session [= <-]. reflexivity.
Qed.

Lemma devicePoll_stores (P : DeviceSession -> Prop) (clk : Clock) (body : option string) :
  storesOnly P (devicePoll clk body).
Proof.
  unfold devicePoll. apply storesOnly_bind; [apply storesOnly_sessionCleanup|]. intros _.
  walk_paths.
Qed.

Lemma deviceSubmit_stores (P : DeviceSession -> Prop) (clk : Clock) (c : Context) (code : string) :
  storesOnly P (deviceSubmit clk c code).
Proof. unfold deviceSubmit, submitRest. walk_paths. Qed.

Lemma providerCallback_stores (P : DeviceSession -> Prop) (t : ProviderTexts) (clk : Clock)
    (state code errorParam : string) (tc : TokenCall) (fc : FirebaseCall) :
  storesOnly P (providerCallback t clk state code errorParam tc fc).
Proof. unfold providerCallback. walk_paths. Qed.

(** Only [deviceStart] stores sessions, and each one it stores expires
    [deviceSessionTTL] seconds after its creation. *)
Lemma handler_stores (req : Request) : storesOnly ttlFixed (handler req).
Proof.
  destruct req; cbn [handler].
  - apply deviceStart_stores.
  - apply devicePoll_stores.
  - exact I.
  - apply deviceSubmit_stores.
  - apply providerCallback_stores.
  - apply providerCallback_stores.
Qed.

(** ** Invariants of the server *)

Lemma invariant_of_runs (allowed : forall A : Type, Op A -> Store -> Prop) (I : World -> Prop) :
  I initial ->
  (forall w w', I w -> stepWhere allowed w w' -> I w') ->
  forall w, rtc (stepWhere allowed) initial w -> I w.
Proof.
  intros H0 Hstep w Hw.
  revert w Hw. apply (rtc_ind_r (R := stepWhere allowed) I initial H0).
  intros w1 w2 _ Hs IH. eapply Hstep; eassumption.
Qed.

Lemma stepWhere_step (allowed : forall A : Type, Op A -> Store -> Prop) (w w' : World) :
  stepWhere allowed w w' -> step w w'.
Proof.
  intros [w0 req|w0 i A o k Hi _]; [apply step_accept|].
  eapply step_atomic; [exact Hi|exact I].
Qed.

Lemma runs_reachable (allowed : forall A : Type, Op A -> Store -> Prop) (w : World) :
  rtc (stepWhere allowed) initial w -> reachable w.
Proof. apply rtc_subrel. intros x y. apply stepWhere_step. Qed.

(** A handler in flight is a stretch of the handler of some request, so
    it only stores sessions with a fixed lifetime. *)
Lemma threads_store_step (w w' : World) :
  Forall (storesOnly ttlFixed) (threads w) -> step w w' ->
  Forall (storesOnly ttlFixed) (threads w').
Proof.
  intros Hf Hs. revert Hf. destruct Hs as [w1 req|w1 i A o k Hi _]; intros Hf; simpl.
  - apply Forall_app. split; [exact Hf|]. repeat constructor. apply handler_stores.
  - apply Forall_insert; [exact Hf|].
    apply (Forall_lookup_1 _ _ _ _ Hf) in Hi. simpl in Hi. apply Hi.
Qed.

Lemma threads_store (w : World) :
  reachable w -> Forall (storesOnly ttlFixed) (threads w).
Proof.
  apply (invariant_of_runs always (fun w => Forall (storesOnly ttlFixed) (threads w))).
  - constructor.
  - intros w0 w' Hf Hs. eapply threads_store_step; eassumption.
Qed.



Lemma step_keyed (w w' : World) : keyed (store w) -> step w w' -> keyed (store w').
Proof.
  intros Hk Hs. revert Hk. destruct Hs as [w1 req|w1 i A o k Hi _]; intros Hk; simpl; [exact Hk|].
  intros dc s' H. apply exec_frame in H as [[s [Hl Hid]]|[_ ->]]; [|reflexivity].
  destruct Hid as (-> & _). eapply Hk, Hl.
Qed.

Lemma reachable_keyed (w : World) : reachable w -> keyed (store w).
Proof.
  apply (invariant_of_runs always (fun w => keyed (store w))).
  - intros dc s H. simpl in H. rewrite lookup_empty in H. discriminate.
  - intros w0 w' Hk Hs. eapply step_keyed; eassumption.
Qed.

Lemma step_uniqueCodes (w w' : World) :
  keyed (store w) -> uniqueCodes (store w) -> stepWhere noCollision w w' ->
  uniqueCodes (store w').
Proof.
  intros Hk Hu Hs. revert Hk Hu.
  destruct Hs as [w1 req|w1 i A o k Hi Hfresh]; intros Hk Hu; simpl; [exact Hu|].
  intros dc1 dc2 s1 s2 H1 H2 Hshare.
  apply exec_frame in H1 as [[t1 [L1 I1]]|[St1 E1]];
    apply exec_frame in H2 as [[t2 [L2 I2]]|[St2 E2]].
  - apply (Hu dc1 dc2 t1 t2 L1 L2).
    destruct I1 as (<- & _ & <- & _ & <- & _), I2 as (<- & _ & <- & _ & <- & _). exact Hshare.
  - destruct (Hfresh _ St2 _ _ L1) as [Hn Hst].
    destruct I1 as (D1 & _ & N1 & _ & S1 & _).
    destruct Hshare as [Hd|[Hn'|Hs']]; [|congruence..].
    rewrite E2, <- Hd, D1. symmetry. eapply Hk, L1.
  - destruct (Hfresh _ St1 _ _ L2) as [Hn Hst].
    destruct I2 as (D2 & _ & N2 & _ & S2 & _).
    destruct Hshare as [Hd|[Hn'|Hs']]; [|congruence..].
    rewrite E1, Hd, D2. eapply Hk, L2.
  - congruence.
Qed.

(** C6 (as amended): in every reachable state each session sits under
    its own device code, so no two live sessions share a device code.
    No two live sessions share a normalized user code or a state either
    in the runs in which every stored session brings a user code and a
    state that no live session carries; the code does not check for
    that, it relies on the random draws not colliding. *)
Theorem codes_unique (w : World) :
  reachable w ->
  keyed (store w)
  /\ (forall dc1 dc2 s1 s2,
        deviceSessions (store w) !! dc1 = Some s1 ->
        deviceSessions (store w) !! dc2 = Some s2 ->
        DeviceCode s1 = DeviceCode s2 -> dc1 = dc2)
  /\ (rtc (stepWhere noCollision) initial w -> uniqueCodes (store w)).
Proof.
  intros Hw. pose proof (reachable_keyed w Hw) as Hk. split; [exact Hk|]. split.
  - intros dc1 dc2 s1 s2 H1 H2 E. rewrite <- (Hk _ _ H1), <- (Hk _ _ H2). exact E.
  - clear Hw Hk. intros Hw.
    assert (G : keyed (store w) /\ uniqueCodes (store w)); [|apply G].
    revert w Hw. apply (invariant_of_runs noCollision).
    + split; [intros dc s H|intros dc1 dc2 s1 s2 H _ _];
        simpl in H; rewrite lookup_empty in H; discriminate.
    + intros w w' [Hk Hu] Hs. split.
      * eapply step_keyed; [exact Hk|]. eapply stepWhere_step, Hs.
      * eapply step_uniqueCodes; eassumption.
Qed.

(** ** Serving a request without interruption *)

Lemma serve_thread (allowed : forall A : Type, Op A -> Store -> Prop)
    (p : Prog Response) (ts : list (Prog Response)) (st : Store) :
  allowedRun allowed p st ->
  rtc (stepWhere allowed) (mkWorld st (ts ++ [p]))
      (mkWorld (run p st).1 (ts ++ [Ret (run p st).2])).
Proof.
  revert st. induction p as [r|A o k IH]; intros st Ha; simpl.
  - apply rtc_refl.
  - destruct Ha as [Ho Hk]. destruct (exec o st) as [st' a] eqn:E. simpl in *.
    eapply rtc_l; [|apply IH, Hk].
    pose proof (step_atomic allowed (mkWorld st (ts ++ [Atomic o k])) (length ts) o k) as Hs.
    simpl in Hs. rewrite E in Hs. simpl in Hs.
    rewrite insert_app_r_alt, Nat.sub_diag in Hs by reflexivity. simpl in Hs.
    apply Hs; [|exact Ho]. apply list_lookup_middle. reflexivity.
Qed.

(** From a state of the server, a request may arrive and be served to
    its end before anything else happens. *)
Lemma serve (allowed : forall A : Type, Op A -> Store -> Prop) (w : World) (req : Request) :
  rtc (stepWhere allowed) initial w ->
  allowedRun allowed (handler req) (store w) ->
  rtc (stepWhere allowed) initial
      (mkWorld (run (handler req) (store w)).1
               (threads w ++ [Ret (run (handler req) (store w)).2])).
Proof.
  intros Hw Ha. etrans; [exact Hw|].
  eapply rtc_l; [apply (step_accept allowed w req)|].
  apply serve_thread. exact Ha.
Qed.

Lemma allowedRun_always {R : Type} (p : Prog R) (st : Store) : allowedRun always p st.
Proof.
  revert st. induction p as [r|A o k IH]; intros st; simpl; [exact I|].
  split; [exact I|apply IH].
Qed.

Lemma allowedRun_bind {R S : Type} (allowed : forall A : Type, Op A -> Store -> Prop)
    (p : Prog R) (f : R -> Prog S) (st : Store) :
  allowedRun allowed p st ->
  allowedRun allowed (f (run p st).2) (run p st).1 ->
  allowedRun allowed (bind p f) st.
Proof.
  revert st. induction p as [r|A o k IH]; intros st Hp Hf; simpl in *; [exact Hf|].
  destruct Hp as [Ho Hk]. split; [exact Ho|].
  destruct (exec o st) as [st' a]. apply IH; assumption.
Qed.

(** A program that stores nothing runs without collision. *)
Lemma allowedRun_stores_nothing {R : Type} (p : Prog R) (st : Store) :
  storesOnly (fun _ => False) p -> allowedRun noCollision p st.
Proof.
  revert st. induction p as [r|A o k IH]; intros st Hp; simpl in *; [exact I|].
  destruct Hp as [Ho Hk]. split; [|apply IH, Hk].
  intros session Hs. destruct (Ho session Hs).
Qed.

(** A start runs without collision when the session it may store is
    fresh for the store its sweep leaves. *)
Lemma deviceStart_noCollision (clk : Clock) (rnd : Rand) (c : Context) (body : option string)
    (st : Store) :
  (forall provider, freshFor (swept (atSweep clk) st) (newSession (atHandler clk) rnd provider)) ->
  allowedRun noCollision (deviceStart clk rnd c body) st.
Proof.
  intros Hf. unfold deviceStart. apply allowedRun_bind.
  - apply allowedRun_stores_nothing, storesOnly_sessionCleanup.
  - rewrite run_sessionCleanup. cbn [fst snd].
    destruct body as [provider|]; [|exact I].
    destruct (negb _ && negb _); [exact I|].
    destruct (checkProvider _); [exact I|].
    cbn [bind call allowedRun]. split; [|exact I].
    intros session [= <-]. apply Hf.
Qed.

(** ** What the state index reaches *)

Lemma handler_stores_pending (req : Request) :
  storesOnly (fun session => Status session = "pending") (handler req).
Proof.
  destruct req; cbn [handler].
  - unfold deviceStart. apply storesOnly_bind; [apply storesOnly_sessionCleanup|]. intros _.
    destruct body as [provider|]; [|exact I].
    destruct (negb _ && negb _); [exact I|].
    destruct (checkProvider _); [exact I|].
    cbn [storesOnly bind call storedBy]. split; [|intros _; exact I].
    intros session [= <-]. reflexivity.
  - apply devicePoll_stores.
  - exact I.
  - apply deviceSubmit_stores.
  - apply providerCallback_stores.
  - apply providerCallback_stores.
Qed.

Lemma stateIndexSound_removeSession (dc0 : string) (st : Store) :
  stateIndexSound st -> stateIndexSound (removeSession dc0 st).
Proof.
  intros Hi. unfold removeSession.
  destruct (deviceSessions st !! dc0) as [s0|] eqn:E0; [|exact Hi].
  intros state dc H. simpl in H. apply lookup_delete_Some in H as [Hne H].
  destruct (Hi _ _ H) as (s & Hl & Hs & Hst). exists s. simpl.
  split; [|auto]. rewrite lookup_delete_ne; [exact Hl|]. congruence.
Qed.

Lemma stateIndexSound_rewrite (dc0 : string) (s0 s' : DeviceSession) (st : Store) :
  stateIndexSound st -> deviceSessions st !! dc0 = Some s0 ->
  stateIndexSound (mkStore (<[dc0 := s']> (deviceSessions st))
                           (delete (State s0) (stateIndex st)) (userIndex st)).
Proof.
  intros Hi E0 state dc H. simpl in H. apply lookup_delete_Some in H as [Hne H].
  destruct (Hi _ _ H) as (s & Hl & Hs & Hst). exists s. simpl.
  split; [|auto]. rewrite lookup_insert_ne; [exact Hl|]. congruence.
Qed.

Lemma stateIndexSound_submitLocked (normalized : string) (now : Z) (st : Store) :
  stateIndexSound st -> stateIndexSound (submitLocked normalized now st).1.
Proof.
  intros Hi. unfold submitLocked. set (dc0 := index (userIndex st) normalized).
  destruct (String.eqb dc0 ""); [exact Hi|].
  destruct (deviceSessions st !! dc0) as [s0|] eqn:E0; [|exact Hi].
  intros state dc H. simpl in H. destruct (Hi _ _ H) as (s & Hl & Hs & Hst). simpl.
  destruct (decide (dc0 = dc)) as [<-|Hne].
  - rewrite lookup_insert_eq. eexists. split; [reflexivity|].
    rewrite E0 in Hl. injection Hl as ->.
    destruct (ExpiresAt s <=? now); simpl; [auto|].
    destruct (String.eqb (Status s) "pending") eqn:Ep; simpl; auto.
  - rewrite lookup_insert_ne by exact Hne. eauto.
Qed.

Lemma stateIndexSound_exec {A : Type} (o : Op A) (st : Store) :
  stateIndexSound st ->
  (forall session, storedBy o = Some session ->
     Status session = "pending" /\ deviceSessions st !! DeviceCode session = None) ->
  stateIndexSound (exec o st).1.
Proof.
  intros Hi Hs. destruct o; simpl; try exact Hi.
  - apply stateIndexSound_removeSession, Hi.
  - destruct (Hs session eq_refl) as [Hp Hf].
    intros state dc H. simpl in H. simpl.
    apply lookup_insert_Some in H as [[<- <-]|[Hne H]].
    + exists session. rewrite lookup_insert_eq. auto.
    + destruct (Hi _ _ H) as (s & Hl & Hst & Hstatus). exists s.
      split; [|auto]. rewrite lookup_insert_ne; [exact Hl|]. congruence.
  - unfold markSession. destruct (deviceSessions st !! deviceCode) as [s0|] eqn:E0; [|exact Hi].
    apply stateIndexSound_rewrite; assumption.
  - unfold setSessionTokens. destruct (deviceSessions st !! deviceCode) as [s0|] eqn:E0; [|exact Hi].
    apply stateIndexSound_rewrite; assumption.
  - apply stateIndexSound_submitLocked, Hi.
Qed.

(** As long as no start draws the device code of a live session, a session
    the state index reaches is never complete and never in error:
    [markSession] and [setSessionTokens] drop the entry together with the
    change of status.  It may be expired, through [deviceSubmit]. *)
Lemma state_index_never_finished (w : World) :
  rtc (stepWhere freshDeviceCode) initial w ->
  stateIndexSound (store w)
  /\ forall state dc session,
       stateIndex (store w) !! state = Some dc ->
       deviceSessions (store w) !! dc = Some session ->
       Status session <> "complete" /\ Status session <> "error".
Proof.
  intros Hw.
  assert (G : Forall (storesOnly (fun session => Status session = "pending")) (threads w)
              /\ stateIndexSound (store w)).
  { revert w Hw. apply (invariant_of_runs freshDeviceCode).
    - split; [constructor|]. intros state dc H. simpl in H. rewrite lookup_empty in H. discriminate.
    - intros w w' [Hf Hi] Hs. revert Hf Hi.
      destruct Hs as [w1 req|w1 i A o k Hl Hfresh]; intros Hf Hi; simpl.
      + split; [|exact Hi]. apply Forall_app. split; [exact Hf|].
        repeat constructor. apply handler_stores_pending.
      + apply (Forall_lookup_1 _ _ _ _ Hf) in Hl as Hp. simpl in Hp. destruct Hp as [Hp Hk].
        split; [apply Forall_insert; [exact Hf|apply Hk]|].
        apply stateIndexSound_exec; [exact Hi|]. intros session Hst. split; [apply Hp, Hst|].
        apply Hfresh, Hst. }
  destruct G as [_ Hi]. split; [exact Hi|].
  intros state dc session H1 H2. destruct (Hi _ _ H1) as (s & Hl & _ & Hst).
  rewrite H2 in Hl. injection Hl as <-.
  split; intros E; rewrite E in Hst; destruct Hst as [?|[?|?]]; discriminate.
Qed.

(** ** More on the code generator *)

Lemma encodeURL_distinct (k : nat) :
  (k < 64)%nat ->
  indexOf (byteAt encodeURL k) encodeURL 0 = Some (N.of_nat k)
  /\ byteAt encodeURL k <> padChar.
Proof.
  intros H.
  do 64 (destruct k as [|k]; [split; [reflexivity|discriminate]|]).
  lia.
Qed.

Lemma b64_inj (n m : N) : b64 n = b64 m -> (n mod 64 = m mod 64)%N.
Proof.
  unfold b64. intros H.
  assert (Hn : (N.to_nat (n mod 64) < 64)%nat)
    by (pose proof (N.mod_lt n 64 ltac:(discriminate)); lia).
  assert (Hm : (N.to_nat (m mod 64) < 64)%nat)
    by (pose proof (N.mod_lt m 64 ltac:(discriminate)); lia).
  destruct (encodeURL_distinct _ Hn) as [En _], (encodeURL_distinct _ Hm) as [Em _].
  rewrite H, Em in En. injection En. lia.
Qed.

Lemma b64_not_pad (n : N) : b64 n <> padChar.
Proof.
  unfold b64. apply encodeURL_distinct.
  pose proof (N.mod_lt n 64 ltac:(discriminate)). lia.
Qed.

Lemma to_N_lt (x : byte) : (Byte.to_N x < 256)%N.
Proof. destruct x; reflexivity. Qed.

Lemma to_N_inj (x y : byte) : Byte.to_N x = Byte.to_N y -> x = y.
Proof.
  intros H.
  assert (E : Byte.of_N (Byte.to_N x) = Byte.of_N (Byte.to_N y)) by (rewrite H; reflexivity).
  rewrite !Byte.of_to_N in E. congruence.
Qed.

Lemma glue64 (a b : N) : (a mod 64 = b mod 64 -> a / 64 = b / 64 -> a = b)%N.
Proof.
  intros Hm Hd. rewrite (N.div_mod' a 64), (N.div_mod' b 64), Hm, Hd. reflexivity.
Qed.

(** The sextets of two 24-bit groups, compared from the top. *)
Lemma sextets_upper (v v' : N) :
  (v < 16777216 -> v' < 16777216 ->
   (v / 262144) mod 64 = (v' / 262144) mod 64 ->
   (v / 4096) mod 64 = (v' / 4096) mod 64 ->
   v / 4096 = v' / 4096)%N.
Proof.
  intros Hv Hv' H1 H2.
  assert (B : forall u : N, (u < 16777216 -> u / 262144 < 64)%N).
  { intros u Hu. apply N.Div0.div_lt_upper_bound. exact Hu. }
  rewrite !N.mod_small in H1 by (apply B; assumption).
  apply glue64; [exact H2|].
  rewrite !N.Div0.div_div. exact H1.
Qed.

Lemma sextets_all (v v' : N) :
  (v < 16777216 -> v' < 16777216 ->
   (v / 262144) mod 64 = (v' / 262144) mod 64 ->
   (v / 4096) mod 64 = (v' / 4096) mod 64 ->
   (v / 64) mod 64 = (v' / 64) mod 64 ->
   v / 64 = v' / 64)%N.
Proof.
  intros Hv Hv' H1 H2 H3. apply glue64; [exact H3|].
  rewrite !N.Div0.div_div. apply sextets_upper; assumption.
Qed.

Lemma chunk3_inj (x y z x' y' z' : byte) :
  let v := (Byte.to_N x * 65536 + Byte.to_N y * 256 + Byte.to_N z)%N in
  let v' := (Byte.to_N x' * 65536 + Byte.to_N y' * 256 + Byte.to_N z')%N in
  b64 (v / 262144) = b64 (v' / 262144) -> b64 (v / 4096) = b64 (v' / 4096) ->
  b64 (v / 64) = b64 (v' / 64) -> b64 v = b64 v' ->
  x = x' /\ y = y' /\ z = z'.
Proof.
  intros v v' H1 H2 H3 H4.
  apply b64_inj in H1, H2, H3, H4.
  pose proof (to_N_lt x); pose proof (to_N_lt y); pose proof (to_N_lt z).
  pose proof (to_N_lt x'); pose proof (to_N_lt y'); pose proof (to_N_lt z').
  assert (E : v = v').
  { apply glue64; [exact H4|]. apply sextets_all; try assumption; subst v v'; lia. }
  subst v v'.
  assert (Byte.to_N x = Byte.to_N x' /\ Byte.to_N y = Byte.to_N y' /\ Byte.to_N z = Byte.to_N z')
    as (Ex & Ey & Ez) by lia.
  auto using to_N_inj.
Qed.

Lemma chunk2_inj (x y x' y' : byte) :
  let v := (Byte.to_N x * 65536 + Byte.to_N y * 256)%N in
  let v' := (Byte.to_N x' * 65536 + Byte.to_N y' * 256)%N in
  b64 (v / 262144) = b64 (v' / 262144) -> b64 (v / 4096) = b64 (v' / 4096) ->
  b64 (v / 64) = b64 (v' / 64) ->
  x = x' /\ y = y'.
Proof.
  intros v v' H1 H2 H3.
  apply b64_inj in H1, H2, H3.
  pose proof (to_N_lt x); pose proof (to_N_lt y).
  pose proof (to_N_lt x'); pose proof (to_N_lt y').
  assert (E : (v / 64 = v' / 64)%N) by (apply sextets_all; try assumption; subst v v'; lia).
  subst v v'.
  replace (Byte.to_N x * 65536 + Byte.to_N y * 256)%N
    with ((Byte.to_N x * 1024 + Byte.to_N y * 4) * 64)%N in E by lia.
  replace (Byte.to_N x' * 65536 + Byte.to_N y' * 256)%N
    with ((Byte.to_N x' * 1024 + Byte.to_N y' * 4) * 64)%N in E by lia.
  rewrite !N.div_mul in E by discriminate.
  assert (Byte.to_N x = Byte.to_N x' /\ Byte.to_N y = Byte.to_N y') as (Ex & Ey) by lia.
  auto using to_N_inj.
Qed.

Lemma chunk1_inj (x x' : byte) :
  let v := (Byte.to_N x * 65536)%N in
  let v' := (Byte.to_N x' * 65536)%N in
  b64 (v / 262144) = b64 (v' / 262144) -> b64 (v / 4096) = b64 (v' / 4096) ->
  x = x'.
Proof.
  intros v v' H1 H2.
  apply b64_inj in H1, H2.
  pose proof (to_N_lt x); pose proof (to_N_lt x').
  assert (E : (v / 4096 = v' / 4096)%N) by (apply sextets_upper; try assumption; subst v v'; lia).
  subst v v'.
  replace (Byte.to_N x * 65536)%N with ((Byte.to_N x * 16) * 4096)%N in E by lia.
  replace (Byte.to_N x' * 65536)%N with ((Byte.to_N x' * 16) * 4096)%N in E by lia.
  rewrite !N.div_mul in E by discriminate.
  apply to_N_inj. lia.
Qed.

Lemma EncodeToString_inj_upto (n : nat) (b1 b2 : list byte) :
  (length b1 <= n)%nat -> EncodeToString b1 = EncodeToString b2 -> b1 = b2.
Proof.
  revert b1 b2. induction n as [|n IH]; intros b1 b2 Hn H.
  - destruct b1; [|simpl in Hn; lia].
    destruct b2 as [|x' [|y' [|z' r']]]; [reflexivity|discriminate H..].
  - destruct b1 as [|x [|y [|z r]]]; destruct b2 as [|x' [|y' [|z' r']]];
      cbn [EncodeToString] in H; try discriminate H;
      try (injection H; intros; exfalso;
           match goal with
           | E : padChar = b64 _ |- _ => symmetry in E; revert E; apply b64_not_pad
           | E : b64 _ = padChar |- _ => revert E; apply b64_not_pad
           end).
    + reflexivity.
    + injection H as H1 H2. f_equal. eapply chunk1_inj; eassumption.
    + injection H as H1 H2 H3. destruct (chunk2_inj x y x' y' H1 H2 H3) as [-> ->]. reflexivity.
    + injection H as H1 H2 H3 H4 Hr.
      destruct (chunk3_inj x y z x' y' z' H1 H2 H3 H4) as (-> & -> & ->).
      do 3 f_equal. apply IH; [simpl in Hn; lia|exact Hr].
Qed.

Lemma readRand_ext (r1 r2 : Rand) (off n : nat) :
  readRand r1 off n = readRand r2 off n <->
  forall i, (off <= i < off + n)%nat -> r1 i = r2 i.
Proof.
  unfold readRand. revert off. induction n as [|n IH]; intros off; simpl.
  - split; [intros _ i Hi; lia|reflexivity].
  - split.
    + intros [= H0 Hr] i Hi. destruct (decide (i = off)) as [->|Hne]; [exact H0|].
      apply (proj1 (IH (S off)) Hr). lia.
    + intros H. f_equal; [apply H; lia|]. apply IH. intros i Hi. apply H. lia.
Qed.

(** X1: the device code and the state of a new session determine the
    random bytes they were drawn from: two starts get the same device code
    exactly when their 40 bytes agree, and the same state exactly when
    their 32 bytes agree.  The device code is 56 bytes long, the state 44. *)
Theorem session_codes_injective (now now' : Z) (r1 r2 : Rand) (p1 p2 : string) :
  (DeviceCode (newSession now r1 p1) = DeviceCode (newSession now' r2 p2)
   <-> forall i, (i < 40)%nat -> r1 i = r2 i)
  /\ (State (newSession now r1 p1) = State (newSession now' r2 p2)
      <-> forall i, (48 <= i < 80)%nat -> r1 i = r2 i)
  /\ String.length (DeviceCode (newSession now r1 p1)) = 56%nat
  /\ String.length (State (newSession now r1 p1)) = 44%nat.
Proof.
  cbn [newSession DeviceCode State]. unfold generateDeviceCode.
  split; [|split; [|split; reflexivity]].
  - split.
    + intros H i Hi. apply (EncodeToString_inj_upto 40) in H; [|reflexivity].
      apply (proj1 (readRand_ext r1 r2 0 40) H). lia.
    + intros H. f_equal. apply readRand_ext. intros i Hi. apply H. lia.
  - split.
    + intros H i Hi. apply (EncodeToString_inj_upto 32) in H; [|reflexivity].
      apply (proj1 (readRand_ext r1 r2 48 32) H). lia.
    + intros H. f_equal. apply readRand_ext. intros i Hi. apply H. lia.
Qed.

(** The symbol [generateUserCode] draws for one random byte. *)
Lemma symbol_facts (v : byte) :
  let c := byteAt alphabet (N.to_nat (Byte.to_N v mod N.of_nat (String.length alphabet))) in
  Bytes.isASCIIbyte c = true /\ kept c = true /\ Bytes.upperByte c = c
  /\ unreserved c = true /\ inAlphabet c = true.
Proof. destruct v; vm_compute; repeat split. Qed.

Lemma rawUserCode_facts (b : list byte) :
  String.length (rawUserCode b) = length b
  /\ Bytes.isASCII (rawUserCode b) = true
  /\ Bytes.filter kept (rawUserCode b) = rawUserCode b
  /\ Bytes.map Bytes.upperByte (rawUserCode b) = rawUserCode b
  /\ Bytes.all unreserved (rawUserCode b) = true
  /\ Bytes.all inAlphabet (rawUserCode b) = true.
Proof.
  induction b as [|v b (IH1 & IH2 & IH3 & IH4 & IH5 & IH6)]; [repeat split|].
  destruct (symbol_facts v) as (F1 & F2 & F3 & F4 & F5).
  cbn [rawUserCode String.length Bytes.isASCII Bytes.all Bytes.filter Bytes.map].
  fold (Bytes.isASCII (rawUserCode b)).
  rewrite F1, F2, F3, F4, F5, IH1, IH2, IH4, IH5, IH6.
  cbn [Bytes.filter]. rewrite IH3. repeat split.
Qed.

Lemma QueryEscape_unreserved (s : string) :
  Bytes.all unreserved s = true -> QueryEscape s = s.
Proof.
  induction s as [|c s IH]; [reflexivity|]. cbn [Bytes.all QueryEscape].
  unfold unreserved at 1. intros [[Hs He]%andb_true_iff Hr]%andb_true_iff.
  apply negb_true_iff in Hs, He. rewrite Hs, He, (IH Hr). reflexivity.
Qed.

Lemma take_drop_hyphen (s : string) (n : nat) :
  Bytes.filter kept (Bytes.take n s +:+ "-" +:+ Bytes.drop n s) = Bytes.filter kept s
  /\ Bytes.isASCII (Bytes.take n s +:+ "-" +:+ Bytes.drop n s) = Bytes.isASCII s
  /\ Bytes.all unreserved (Bytes.take n s +:+ "-" +:+ Bytes.drop n s) = Bytes.all unreserved s.
Proof.
  revert s. induction n as [|n IH]; intros s.
  - change (Bytes.take 0 s +:+ "-" +:+ Bytes.drop 0 s) with (String "-"%char s).
    repeat split.
  - destruct s as [|c s]; [repeat split|].
    destruct (IH s) as (I1 & I2 & I3).
    change (Bytes.take (S n) (String c s) +:+ "-" +:+ Bytes.drop (S n) (String c s))
      with (String c (Bytes.take n s +:+ "-" +:+ Bytes.drop n s)).
    cbn [Bytes.filter Bytes.isASCII Bytes.all].
    fold (Bytes.isASCII (Bytes.take n s +:+ "-" +:+ Bytes.drop n s)).
    fold (Bytes.isASCII s). rewrite I1, I2, I3. repeat split.
Qed.

(** X2: the user code drawn from 8 random bytes is 9 bytes long with a
    hyphen in the middle; what [normalizeCode] makes of it is the 8 symbols
    drawn, all of them of the alphabet; and [url.QueryEscape] leaves the
    user code as it is, so the verification link shows it verbatim. *)
Theorem generateUserCode_shape (b : list byte) :
  length b = 8%nat ->
  String.length (generateUserCode b) = 9%nat
  /\ String.get 4 (generateUserCode b) = Some Bytes.hyphen
  /\ normalizeCode unicodeToUpper (generateUserCode b) = rawUserCode b
  /\ String.length (rawUserCode b) = 8%nat
  /\ Bytes.all inAlphabet (rawUserCode b) = true
  /\ QueryEscape (generateUserCode b) = generateUserCode b.
Proof.
  intros Hb.
  destruct (rawUserCode_facts b) as (F1 & F2 & F3 & F4 & F5 & F6).
  destruct (take_drop_hyphen (rawUserCode b) 4) as (T1 & T2 & T3).
  assert (L : String.length (generateUserCode b) = 9%nat
              /\ String.get 4 (generateUserCode b) = Some Bytes.hyphen).
  { do 9 (destruct b as [|? b]; try discriminate Hb). split; reflexivity. }
  destruct L as [L1 L2].
  split; [exact L1|]. split; [exact L2|]. split.
  - unfold generateUserCode. rewrite normalizeCode_ascii by (rewrite T2; exact F2).
    rewrite T1, F3, F4. reflexivity.
  - split; [rewrite F1; exact Hb|]. split; [exact F6|].
    apply QueryEscape_unreserved. unfold generateUserCode. rewrite T3. exact F5.
Qed.

(** ** Escaping *)

Lemma unescape_step (c : ascii) (t : string) :
  unescape (QueryEscape (String c t)) = String c <$> unescape (QueryEscape t).
Proof. destruct c as [[] [] [] [] [] [] [] []]; reflexivity. Qed.

Lemma escape_bytes_step (p : ascii -> bool) (c : ascii) (t : string) :
  (forall d, unreserved d = true -> p d = true) ->
  p "%"%char = true -> p "+"%char = true ->
  (forall n, (n < 16)%nat -> p (byteAt upperhex n) = true) ->
  Bytes.all p (QueryEscape t) = true ->
  Bytes.all p (QueryEscape (String c t)) = true.
Proof.
  intros Hu Hp Hplus Hh Ht. cbn [QueryEscape].
  destruct (Ascii.eqb c Bytes.space) eqn:Es; [cbn [Bytes.all]; rewrite Hplus, Ht; reflexivity|].
  destruct (shouldEscape c) eqn:Ee; cbn [Bytes.all].
  - rewrite Hp, !Hh, Ht; [reflexivity| |].
    + assert (Bytes.code c mod 16 < 16)%N by (apply N.mod_lt; discriminate). lia.
    + assert (Bytes.code c < 256)%N by (apply N_ascii_bounded).
      assert (Bytes.code c / 16 < 16)%N by (apply N.Div0.div_lt_upper_bound; exact H). lia.
  - rewrite Hu, Ht; [reflexivity|]. unfold unreserved. rewrite Es, Ee. reflexivity.
Qed.

Lemma unescape_escape (s : string) : unescape (QueryEscape s) = Some s.
Proof. induction s as [|c s IH]; [reflexivity|]. rewrite unescape_step, IH. reflexivity. Qed.

Lemma escape_bytes (s : string) :
  Bytes.all (fun c => unreserved c || Ascii.eqb c "%"%char || Ascii.eqb c "+"%char)
    (QueryEscape s) = true.
Proof.
  induction s as [|c s IH]; [reflexivity|]. apply escape_bytes_step.
  - intros d Hd. rewrite Hd. reflexivity.
  - reflexivity.
  - reflexivity.
  - intros n Hn. do 16 (destruct n as [|n]; [reflexivity|]). lia.
  - exact IH.
Qed.

Lemma escape_avoids (d : ascii) (s : string) :
  (unreserved d || Ascii.eqb d "%"%char || Ascii.eqb d "+"%char) = false ->
  countByte d (QueryEscape s) = O.
Proof.
  intros Hd. pose proof (escape_bytes s) as A.
  induction (QueryEscape s) as [|c t IH]; [reflexivity|].
  cbn [Bytes.all] in A. apply andb_true_iff in A as [Ac At]. cbn [countByte].
  destruct (Ascii.eqb d c) eqn:E; [|apply IH, At].
  apply Ascii.eqb_eq in E. subst c. rewrite Hd in Ac. discriminate Ac.
Qed.

(** X3: [url.QueryUnescape] undoes [url.QueryEscape] on every byte string,
    and an escaped string is made of letters, digits and [-_.~%+] only: it
    holds no [&], no [=], no [?], no [#], no [/] and no space. *)
Theorem QueryEscape_roundtrip (s : string) :
  unescape (QueryEscape s) = Some s
  /\ QueryUnescape (QueryEscape s) = s
  /\ Bytes.all (fun c => unreserved c || Ascii.eqb c "%"%char || Ascii.eqb c "+"%char)
       (QueryEscape s) = true
  /\ countByte "&"%char (QueryEscape s) = O
  /\ countByte "="%char (QueryEscape s) = O
  /\ countByte "?"%char (QueryEscape s) = O
  /\ countByte "#"%char (QueryEscape s) = O
  /\ countByte "/"%char (QueryEscape s) = O
  /\ countByte Bytes.space (QueryEscape s) = O.
Proof.
  split; [apply unescape_escape|].
  split; [unfold QueryUnescape; rewrite unescape_escape; reflexivity|].
  split; [apply escape_bytes|]. repeat split; apply escape_avoids; reflexivity.
Qed.

(** ** Provider login *)

Lemma countByte_app (c : ascii) (a b : string) :
  countByte c (a +:+ b) = (countByte c a + countByte c b)%nat.
Proof.
  induction a as [|d a IH]; [reflexivity|].
  change (String d a +:+ b) with (String d (a +:+ b)). cbn [countByte].
  rewrite IH. destruct (Ascii.eqb c d); reflexivity.
Qed.

(** X4: when [loginProvider] goes on to the exchange, the body it posts is
    [field=escaped-token&providerId=host] for the token the request
    chose (for Google the id token if there is one, else the access token,
    and never an empty one; for GitHub the access token).  The body holds
    exactly one [&] and two [=], whatever bytes the token is made of, and
    unescaping the middle part gives the token back. *)
Theorem loginProvider_postBody (req : AuthProviderRequest) (postBody : string) :
  providerPostBody req = inr postBody ->
  exists field token host,
    postBody = field +:+ "=" +:+ QueryEscape token +:+ "&providerId=" +:+ host
    /\ ((host = "google.com" /\ token <> EmptyString
         /\ ((field = "id_token" /\ RequestIDToken req = Some token)
             \/ (field = "access_token" /\ RequestIDToken req = None
                 /\ RequestAccessToken req = Some token)))
        \/ (host = "github.com" /\ field = "access_token"
            /\ RequestAccessToken req = Some token))
    /\ countByte "&"%char postBody = 1%nat
    /\ countByte "="%char postBody = 2%nat
    /\ QueryUnescape (QueryEscape token) = token.
Proof.
  unfold providerPostBody. intros H.
  assert (Amp : forall t, countByte "&"%char (QueryEscape t) = O)
    by (intros t; apply escape_avoids; reflexivity).
  assert (Eq : forall t, countByte "="%char (QueryEscape t) = O)
    by (intros t; apply escape_avoids; reflexivity).
  assert (Un : forall t, QueryUnescape (QueryEscape t) = t)
    by (intros t; unfold QueryUnescape; rewrite unescape_escape; reflexivity).
  destruct (String.eqb (ToLower unicodeToLower (RequestProvider req)) "google").
  - destruct (RequestIDToken req) as [t|] eqn:Ei.
    + destruct (String.eqb t "") eqn:Et; [discriminate H|]. injection H as <-.
      exists "id_token", t, "google.com". apply String.eqb_neq in Et.
      split; [reflexivity|]. split; [left; auto|].
      rewrite !countByte_app, Amp, Eq. repeat split. apply Un.
    + destruct (RequestAccessToken req) as [t|] eqn:Ea; [|discriminate H].
      destruct (String.eqb t "") eqn:Et; [discriminate H|]. injection H as <-.
      exists "access_token", t, "google.com". apply String.eqb_neq in Et.
      split; [reflexivity|]. split; [left; split; [reflexivity|split; [exact Et|right; auto]]|].
      rewrite !countByte_app, Amp, Eq. repeat split. apply Un.
  - destruct (String.eqb (ToLower unicodeToLower (RequestProvider req)) "github");
      [|discriminate H].
    destruct (RequestAccessToken req) as [t|] eqn:Ea; [|discriminate H]. injection H as <-.
    exists "access_token", t, "github.com".
    split; [reflexivity|]. split; [right; auto|].
    rewrite !countByte_app, Amp, Eq. repeat split. apply Un.
Qed.

(** The tokens [loginProvider] takes for missing, and the provider it
    echoes. *)
Lemma loginProvider_empty_tokens (provider accessToken : string) (fc : FirebaseCall) :
  (ToLower unicodeToLower provider = "google" ->
   loginProvider (Some (mkAuthProviderRequest provider (Some EmptyString) (Some accessToken))) fc
   = JSON StatusBadRequest (detail "Missing id_token or access_token for Google login"))
  /\ (ToLower unicodeToLower provider = "github" ->
      providerPostBody (mkAuthProviderRequest provider None (Some EmptyString))
      = inr "access_token=&providerId=github.com")
  /\ (ToLower unicodeToLower provider <> "google" ->
      ToLower unicodeToLower provider <> "github" ->
      loginProvider (Some (mkAuthProviderRequest provider None (Some accessToken))) fc
      = JSON StatusBadRequest (detail ("Unsupported provider '" +:+ provider +:+ "'"))).
Proof.
  unfold loginProvider, providerPostBody. cbn [RequestProvider RequestIDToken RequestAccessToken].
  split; [|split].
  - intros ->. reflexivity.
  - intros ->. reflexivity.
  - intros H1%String.eqb_neq H2%String.eqb_neq. rewrite H1, H2. reflexivity.
Qed.

(** X5: [loginProvider] answers 400 or 200, and 200 only when the request
    was bound, a body was posted and the exchange succeeded; the 200
    carries [id_token], [refresh_token] and [expires_in].  It refuses a
    Google login whose id token is present but empty even when an access
    token comes with it, while it lets a GitHub login with an empty access
    token through to the exchange; a provider it does not know is echoed
    in the detail as the request spelled it. *)
Theorem loginProvider_answers (body : option AuthProviderRequest) (fc : FirebaseCall) :
  ((exists message, loginProvider body fc = JSON StatusBadRequest (detail message))
   \/ (exists answer : jobject,
         loginProvider body fc = JSON StatusOK (Some answer)
         /\ (exists v, answer !! "id_token" = Some (JString v))
         /\ (exists v, answer !! "refresh_token" = Some (JString v))
         /\ (exists n, answer !! "expires_in" = Some (JNumber n))
         /\ exists req postBody data,
              body = Some req /\ providerPostBody req = inr postBody /\ fc = FirebaseData data))
  /\ forall provider accessToken : string,
       (ToLower unicodeToLower provider = "google" ->
        loginProvider
          (Some (mkAuthProviderRequest provider (Some EmptyString) (Some accessToken))) fc
        = JSON StatusBadRequest (detail "Missing id_token or access_token for Google login"))
       /\ (ToLower unicodeToLower provider = "github" ->
           providerPostBody (mkAuthProviderRequest provider None (Some EmptyString))
           = inr "access_token=&providerId=github.com")
       /\ (ToLower unicodeToLower provider <> "google" ->
           ToLower unicodeToLower provider <> "github" ->
           loginProvider (Some (mkAuthProviderRequest provider None (Some accessToken))) fc
           = JSON StatusBadRequest (detail ("Unsupported provider '" +:+ provider +:+ "'"))).
Proof.
  split; [|intros provider accessToken; apply loginProvider_empty_tokens].
  destruct body as [req|]; [|left; eexists; reflexivity].
  unfold loginProvider. destruct (providerPostBody req) as [message|postBody] eqn:E;
    [left; eexists; reflexivity|].
  destruct fc as [err|data]; [left; eexists; reflexivity|].
  right. eexists. split; [reflexivity|].
  assert (K : forall r : AuthResponse,
             (exists v, authResponseJSON r !! "id_token" = Some (JString v))
             /\ (exists v, authResponseJSON r !! "refresh_token" = Some (JString v))
             /\ (exists n, authResponseJSON r !! "expires_in" = Some (JNumber n))).
  { intros [i r e [m|] [l|]]; repeat split; eexists; reflexivity. }
  destruct (K (parseAuthResponse data)) as (K1 & K2 & K3).
  split; [exact K1|]. split; [exact K2|]. split; [exact K3|].
  exists req, postBody, data. split; [reflexivity|]. split; [exact E|reflexivity].
Qed.

(** ** Bearer tokens *)

Lemma prefix_split (p s : string) :
  String.prefix p s = true -> exists r, s = p +:+ r.
Proof.
  revert s. induction p as [|a p IH]; intros s H; [exists s; reflexivity|].
  destruct s as [|b s]; [discriminate H|]. cbn [String.prefix] in H.
  destruct (ascii_dec a b) as [->|]; [|discriminate H].
  destruct (IH s H) as [r ->]. exists r. reflexivity.
Qed.

Lemma prefix_app (p r : string) : String.prefix p (p +:+ r) = true.
Proof.
  induction p as [|a p IH]; [destruct r; reflexivity|].
  change (String a p +:+ r) with (String a (p +:+ r)). cbn [String.prefix].
  destruct (ascii_dec a a) as [_|N]; [exact IH|contradiction].
Qed.

Lemma map_app_split (f : ascii -> ascii) (p r h : string) :
  Bytes.map f h = p +:+ r ->
  exists a b, h = a +:+ b /\ Bytes.map f a = p /\ Bytes.map f b = r
              /\ sliceFrom (String.length p) h = Some b.
Proof.
  revert h. induction p as [|c p IH]; intros h H.
  - exists EmptyString, h. repeat split. exact H.
  - destruct h as [|d h]; [discriminate H|]. injection H as Hc Hr.
    destruct (IH h Hr) as (a & b & -> & Ha & Hb & Hs).
    exists (String d a), b. cbn [Bytes.map String.length sliceFrom]. rewrite Hc, Ha.
    repeat split; assumption.
Qed.

Lemma isASCII_app (a b : string) :
  Bytes.isASCII (a +:+ b) = Bytes.isASCII a && Bytes.isASCII b.
Proof.
  unfold Bytes.isASCII. induction a as [|c a IH]; [reflexivity|].
  change (String c a +:+ b) with (String c (a +:+ b)). cbn [Bytes.all].
  rewrite IH, andb_assoc. reflexivity.
Qed.

Lemma trimLeft_ascii (s : string) :
  Bytes.isASCII s = true -> Bytes.isASCII (trimLeft s) = true.
Proof.
  unfold Bytes.isASCII. induction s as [|c s IH]; [reflexivity|].
  intros H. cbn [trimLeft]. destruct (isWhitespace c); [|exact H].
  cbn [Bytes.all] in H. apply andb_true_iff in H as [_ H]. apply IH, H.
Qed.

(** What [trimLeft] yields does not start with white space. *)
Lemma trimLeft_head (s : string) :
  match trimLeft s with
  | EmptyString => True
  | String c _ => isWhitespace c = false
  end.
Proof.
  induction s as [|c s IH]; [exact I|]. cbn [trimLeft].
  destruct (isWhitespace c) eqn:E; [exact IH|exact E].
Qed.

(** The last byte of a string, if it has one. *)
Lemma trimRight_last (s : string) :
  match trimRight s with
  | EmptyString => True
  | String _ _ as t =>
      exists u c, t = u +:+ String c EmptyString /\ isWhitespace c = false
  end.
Proof.
  induction s as [|c s IH]; [exact I|]. cbn [trimRight].
  destruct (trimRight s) as [|d t].
  - destruct (isWhitespace c) eqn:E; [exact I|].
    exists EmptyString, c. split; [reflexivity|exact E].
  - destruct IH as (u & e & Hu & He). exists (String c u), e. rewrite Hu. split; [reflexivity|exact He].
Qed.

(** [trimRight] keeps the first byte of a string that does not start with
    white space. *)
Lemma trimRight_head (c : ascii) (s : string) :
  isWhitespace c = false -> exists t, trimRight (String c s) = String c t.
Proof.
  intros H. cbn [trimRight]. destruct (trimRight s); rewrite ?H; eauto.
Qed.

Lemma trimRight_app_space (t pad : string) :
  Bytes.all isWhitespace pad = true -> trimRight (t +:+ pad) = trimRight t.
Proof.
  intros Hp. induction t as [|c t IH].
  - change (EmptyString +:+ pad) with pad. induction pad as [|d pad IHp]; [reflexivity|].
    cbn [Bytes.all] in Hp. apply andb_true_iff in Hp as [Hd Hp].
    cbn [trimRight]. rewrite (IHp Hp). cbn [trimRight]. rewrite Hd. reflexivity.
  - change (String c t +:+ pad) with (String c (t +:+ pad)). cbn [trimRight].
    rewrite IH. reflexivity.
Qed.

Lemma trimLeft_app_space (pad t : string) :
  Bytes.all isWhitespace pad = true -> trimLeft (pad +:+ t) = trimLeft t.
Proof.
  induction pad as [|d pad IH]; [reflexivity|]. cbn [Bytes.all].
  intros [Hd Hp]%andb_true_iff.
  change (String d pad +:+ t) with (String d (pad +:+ t)). cbn [trimLeft]. rewrite Hd.
  apply IH, Hp.
Qed.

Lemma trimRight_fixed (t : string) :
  (exists u c, t = u +:+ String c EmptyString /\ isWhitespace c = false) ->
  trimRight t = t.
Proof.
  intros (u & c & -> & Hc). induction u as [|d u IH].
  - change (EmptyString +:+ String c EmptyString) with (String c EmptyString).
    cbn [trimRight]. rewrite Hc. reflexivity.
  - change (String d u +:+ String c EmptyString) with (String d (u +:+ String c EmptyString)).
    cbn [trimRight]. rewrite IH. destruct u; reflexivity.
Qed.

Lemma extractToken_ascii_run (h : string) :
  Bytes.isASCII h = true ->
  extractToken h
  = if String.eqb h "" then BearerError "missing authorization header"
    else if negb (String.prefix "bearer " (Bytes.map Bytes.lowerByte h))
    then BearerError "invalid authorization header"
    else match sliceFrom 7 h with
         | None => BearerPanic
         | Some rest =>
             if String.eqb (trimRight (trimLeft rest)) ""
             then BearerError "invalid authorization header"
             else BearerToken (trimRight (trimLeft rest))
         end.
Proof.
  intros H. unfold extractToken, ToLower. rewrite H.
  destruct (String.eqb h ""); [reflexivity|].
  destruct (String.prefix "bearer " (Bytes.map Bytes.lowerByte h)) eqn:P; [|reflexivity].
  cbn [negb]. apply prefix_split in P as [r P].
  apply map_app_split in P as (a & b & -> & Ha & Hb & Hs).
  cbn [String.length] in Hs. rewrite Hs.
  rewrite isASCII_app in H. apply andb_true_iff in H as [_ H].
  unfold TrimSpace. rewrite H. reflexivity.
Qed.

(** X6: on an ASCII header [extractToken] never slices out of range, and
    when it yields a token, the header is a 7-byte scheme that lower-cases
    to [bearer ] followed by the token between optional white space: the
    token is not empty and neither starts nor ends with white space. *)
Theorem extractToken_sound (authHeader : string) :
  Bytes.isASCII authHeader = true ->
  extractToken authHeader <> BearerPanic
  /\ forall token,
       extractToken authHeader = BearerToken token ->
       token <> EmptyString
       /\ trimLeft token = token /\ trimRight token = token
       /\ exists scheme rest,
            authHeader = scheme +:+ rest
            /\ Bytes.map Bytes.lowerByte scheme = "bearer "
            /\ token = trimRight (trimLeft rest).
Proof.
  intros H. rewrite (extractToken_ascii_run authHeader H).
  destruct (String.eqb authHeader ""); [split; [discriminate|intros ? [=]]|].
  destruct (String.prefix "bearer " (Bytes.map Bytes.lowerByte authHeader)) eqn:P;
    [|split; [discriminate|intros ? [=]]].
  cbn [negb]. apply prefix_split in P as [r P].
  apply map_app_split in P as (a & b & -> & Ha & Hb & Hs).
  cbn [String.length] in Hs. rewrite Hs.
  destruct (String.eqb (trimRight (trimLeft b)) "") eqn:E; [split; [discriminate|intros ? [=]]|].
  split; [discriminate|]. intros token [= <-]. apply String.eqb_neq in E.
  split; [exact E|].
  pose proof (trimLeft_head b) as Hh. pose proof (trimRight_last (trimLeft b)) as Hl.
  destruct (trimLeft b) as [|c l] eqn:Eb; [exfalso; apply E; reflexivity|].
  destruct (trimRight_head c l Hh) as [t Ht]. rewrite Ht in Hl |- *.
  split; [cbn [trimLeft]; rewrite Hh; reflexivity|].
  split; [apply trimRight_fixed, Hl|].
  exists a, b. rewrite Eb, Ht. repeat split. exact Ha.
Qed.

(** X7: a header made of a scheme that lower-cases to [bearer ] and an
    ASCII token that is not empty and has no white space at its ends, with
    any white space around the token, yields that token. *)
Theorem extractToken_bearer (scheme before token after : string) :
  Bytes.map Bytes.lowerByte scheme = "bearer " ->
  Bytes.isASCII scheme = true -> Bytes.isASCII token = true ->
  Bytes.all isWhitespace before = true -> Bytes.all isWhitespace after = true ->
  token <> EmptyString -> trimLeft token = token -> trimRight token = token ->
  extractToken (scheme +:+ before +:+ token +:+ after) = BearerToken token.
Proof.
  intros Hs As At Wb Wa Ne Tl Tr.
  assert (Aw : forall pad, Bytes.all isWhitespace pad = true -> Bytes.isASCII pad = true).
  { unfold Bytes.isASCII. induction pad as [|c pad IH]; [reflexivity|]. cbn [Bytes.all].
    intros [Hc Hp]%andb_true_iff. rewrite (IH Hp), andb_true_r.
    destruct c as [[] [] [] [] [] [] [] []]; try reflexivity; discriminate Hc. }
  assert (A : Bytes.isASCII (scheme +:+ before +:+ token +:+ after) = true).
  { rewrite !isASCII_app, As, At, (Aw _ Wb), (Aw _ Wa). reflexivity. }
  rewrite (extractToken_ascii_run _ A).
  assert (L : String.length scheme = 7%nat).
  { clear -Hs. do 8 (destruct scheme as [|? scheme]; try discriminate Hs). reflexivity. }
  assert (M : forall x y, Bytes.map Bytes.lowerByte (x +:+ y)
                          = Bytes.map Bytes.lowerByte x +:+ Bytes.map Bytes.lowerByte y).
  { intros x y. induction x as [|c x IH]; [reflexivity|].
    change (String c x +:+ y) with (String c (x +:+ y)). cbn [Bytes.map]. rewrite IH. reflexivity. }
  assert (S7 : forall x y, String.length x = 7%nat -> sliceFrom 7 (x +:+ y) = Some y).
  { intros x y Hx. do 8 (destruct x as [|? x]; try discriminate Hx). reflexivity. }
  destruct scheme as [|c0 scheme]; [discriminate L|].
  change (String c0 scheme +:+ before +:+ token +:+ after)
    with (String c0 (scheme +:+ before +:+ token +:+ after)).
  cbn [String.eqb].
  change (String c0 (scheme +:+ before +:+ token +:+ after))
    with (String c0 scheme +:+ before +:+ token +:+ after).
  rewrite M, Hs, prefix_app.
  cbn [negb]. rewrite S7 by exact L.
  rewrite trimLeft_app_space by exact Wb.
  assert (T : trimLeft (token +:+ after) = token +:+ after).
  { destruct token as [|c t]; [contradiction|].
    change (String c t +:+ after) with (String c (t +:+ after)).
    cbn [trimLeft] in Tl |- *. destruct (isWhitespace c) eqn:Ec; [|reflexivity].
    exfalso. pose proof (trimLeft_head t) as Hh. rewrite Tl in Hh. congruence. }
  rewrite T, trimRight_app_space, Tr by exact Wa.
  apply String.eqb_neq in Ne. rewrite Ne. reflexivity.
Qed.

(** ** Sessions and answers in every reachable state *)

Lemma authDict_shaped (provider : string) (authResp : AuthResponse) :
  provider = "google" \/ provider = "github" -> bundleShaped (authDict provider authResp).
Proof.
  intros Hp. unfold bundleShaped, authDict.
  assert (G : forall (key : string) (d : jobject),
             key <> "email" -> key <> "local_id" ->
             match LocalID authResp with
             | Some l => <["local_id" := JString l]>
                           match Email authResp with
                           | Some e => <["email" := JString e]> d
                           | None => d
                           end
             | None => match Email authResp with
                       | Some e => <["email" := JString e]> d
                       | None => d
                       end
             end !! key = d !! key).
  { intros key d H1 H2. destruct (LocalID authResp), (Email authResp);
      rewrite ?lookup_insert_ne by congruence; reflexivity. }
  rewrite !G by discriminate.
  repeat split.
  - eexists. apply lookup_insert_eq.
  - eexists. rewrite lookup_insert_ne by discriminate. apply lookup_insert_eq.
  - eexists. rewrite !lookup_insert_ne by discriminate. apply lookup_insert_eq.
  - rewrite !lookup_insert_ne by discriminate. rewrite lookup_singleton_eq.
    destruct Hp as [->| ->]; [left|right]; reflexivity.
Qed.

Lemma sessionsShaped_rewrite (dc0 : string) (s' : DeviceSession) (st : Store)
    (states users : gmap string string) :
  sessionsShaped st ->
  knownStatus (Status s') ->
  (Status s' = "complete" -> exists tokens, Tokens s' = Some tokens /\ bundleShaped tokens) ->
  sessionsShaped (mkStore (<[dc0 := s']> (deviceSessions st)) states users).
Proof.
  intros Hi Hk Hc dc s H. cbn [deviceSessions] in H.
  apply lookup_insert_Some in H as [[_ <-]|[_ H]]; [split; assumption|].
  apply (Hi _ _ H).
Qed.

(** A critical section of a handler keeps the sessions in shape. *)
Lemma sessionsShaped_exec {A : Type} (o : Op A) (st : Store) :
  sessionsShaped st -> handlerOp A o -> sessionsShaped (exec o st).1.
Proof.
  intros Hi Ho. destruct o; cbn [exec fst]; try exact Hi.
  - intros dc s H. rewrite removeSession_sessions in H.
    apply lookup_delete_Some in H as [_ H]. apply (Hi _ _ H).
  - destruct Ho as (Hp & Ht & _). unfold storeSession.
    apply sessionsShaped_rewrite; [exact Hi|left; exact Hp|].
    intros Hc. rewrite Hp in Hc. discriminate Hc.
  - unfold markSession. destruct (deviceSessions st !! deviceCode) as [s0|] eqn:E0; [|exact Hi].
    cbn zeta. apply sessionsShaped_rewrite; [exact Hi| |].
    + destruct (String.eqb message ""); cbn [Status setError setCompletedAt setStatus];
        destruct Ho as [->| ->]; unfold knownStatus; auto.
    + intros Hc. exfalso.
      destruct (String.eqb message ""); cbn [Status setError setCompletedAt setStatus] in Hc;
        destruct Ho as [->| ->]; discriminate Hc.
  - unfold setSessionTokens. destruct (deviceSessions st !! deviceCode) as [s0|] eqn:E0; [|exact Hi].
    cbn zeta. apply sessionsShaped_rewrite; [exact Hi| |].
    + right. right. left. reflexivity.
    + intros _. exists tokens. split; [reflexivity|exact Ho].
  - unfold submitLocked. destruct (String.eqb (index (userIndex st) normalized) ""); [exact Hi|].
    destruct (deviceSessions st !! index (userIndex st) normalized) as [s0|] eqn:E0; [|exact Hi].
    cbn zeta. cbn [fst]. destruct (Hi _ _ E0) as [Hk Hc].
    apply sessionsShaped_rewrite; [exact Hi| |].
    + destruct (ExpiresAt s0 <=? now); cbn [Status setLastTouched setStatus].
      * unfold knownStatus. auto.
      * destruct (String.eqb (Status s0) "pending");
          cbn [Status setLastTouched setStatus]; [unfold knownStatus; auto|exact Hk].
    + destruct (ExpiresAt s0 <=? now); cbn [Status Tokens setLastTouched setStatus].
      * intros Hx. discriminate Hx.
      * destruct (String.eqb (Status s0) "pending") eqn:Ep;
          cbn [Status Tokens setLastTouched setStatus]; [intros Hx; discriminate Hx|exact Hc].
Qed.

Lemma disciplined_bind {R S : Type} (Q : S -> Prop) (p : Prog R) (f : R -> Prog S) :
  disciplined (fun r => disciplined Q (f r)) p -> disciplined Q (bind p f).
Proof.
  induction p as [r|A o k IH]; cbn [bind disciplined]; [auto|].
  intros [Ho Hk]. split; [exact Ho|]. intros st Hst. apply IH, Hk, Hst.
Qed.

Lemma disciplined_sessionCleanup (Q : unit -> Prop) (now : Z) :
  Q tt -> disciplined Q (sessionCleanup now).
Proof.
  intros HQ. unfold sessionCleanup. cbn [bind call disciplined]. split; [exact I|].
  intros st _. generalize (exec (OpScan now) st).2. intros codes.
  induction codes as [|c codes IH]; cbn [removeAll bind call disciplined]; [exact HQ|].
  split; [exact I|]. intros _ _. exact IH.
Qed.

Lemma wellFormed_ok (answer : jobject) :
  bundleShaped answer \/ (exists v, answer !! "device_code" = Some (JString v)) ->
  wellFormedAnswer (JSON StatusOK (Some answer)).
Proof. intros H body E. exists answer. split; [congruence|exact H]. Qed.

Lemma wellFormed_other (status : Z) (body : option jobject) :
  (status =? StatusOK) = false -> wellFormedAnswer (JSON status body).
Proof.
  intros H body' E. exfalso. injection E as E _. rewrite E, Z.eqb_refl in H. discriminate H.
Qed.

Lemma wellFormed_page (message code : string) (isError showForm : bool) :
  wellFormedAnswer (DevicePage message code isError showForm).
Proof. intros body E. discriminate E. Qed.

Lemma wellFormed_redirect (status : Z) (endpoint : string) (params : gmap string string) :
  wellFormedAnswer (Redirect status endpoint params).
Proof. intros body E. discriminate E. Qed.

(** An answer that is no 200 in JSON. *)
Ltac other_answer :=
  first [ apply wellFormed_page
        | apply wellFormed_redirect
        | apply wellFormed_other; reflexivity ].

(** Follows a handler along its tests down to its answers. *)
Ltac walk_answers :=
  repeat first
    [ exact I
    | other_answer
    | progress (cbn [disciplined bind call handlerOp])
    | split
    | intros ? ?
    | left; reflexivity
    | right; reflexivity
    | match goal with
      | |- context [if ?b then _ else _] => destruct b
      | |- context [match ?x with _ => _ end] => destruct x
      end ].

Lemma deviceStart_disciplined (clk : Clock) (rnd : Rand) (c : Context) (body : option string) :
  disciplined wellFormedAnswer (deviceStart clk rnd c body).
Proof.
  unfold deviceStart. apply disciplined_bind, disciplined_sessionCleanup.
  destruct body as [provider|]; [|cbn [disciplined]; other_answer].
  destruct (negb _ && negb _); [cbn [disciplined]; other_answer|].
  destruct (checkProvider _); [cbn [disciplined]; other_answer|].
  cbn [bind call disciplined handlerOp]. split.
  { unfold newSession. cbn [Status Tokens Error]. split; [reflexivity|]. split; reflexivity. }
  intros st _. apply wellFormed_ok. right. eexists. apply lookup_insert_eq.
Qed.

Lemma devicePoll_disciplined (clk : Clock) (body : option string) :
  disciplined wellFormedAnswer (devicePoll clk body).
Proof.
  unfold devicePoll. apply disciplined_bind, disciplined_sessionCleanup.
  destruct body as [dc|]; [|cbn [disciplined]; other_answer].
  cbn [bind call disciplined handlerOp]. split; [exact I|]. intros st Hst.
  cbn [exec snd]. unfold getSessionCopy.
  destruct (deviceSessions st !! dc) as [session|] eqn:E; [|cbn [disciplined]; other_answer].
  destruct (Hst _ _ E) as [_ Hc].
  destruct (_ && _); [walk_answers|].
  destruct (_ || _); [walk_answers|].
  destruct (String.eqb (Status session) "complete") eqn:Ec.
  - apply String.eqb_eq in Ec. destruct (Hc Ec) as (tokens & Ht & Hb).
    cbn [bind call disciplined handlerOp]. split; [exact I|].
    intros _ _. rewrite Ht. apply wellFormed_ok. left. exact Hb.
  - walk_answers.
Qed.

Lemma deviceSubmit_disciplined (clk : Clock) (c : Context) (code : string) :
  disciplined wellFormedAnswer (deviceSubmit clk c code).
Proof.
  unfold deviceSubmit. destruct (String.eqb code ""); [cbn [disciplined]; other_answer|].
  cbn [bind call disciplined handlerOp]. split; [exact I|]. intros st _.
  generalize (exec (OpSubmit (normalizeCode unicodeToUpper code) (atHandler clk)) st).2.
  intros [deviceCode found]. cbn [fst snd]. unfold submitRest. walk_answers.
Qed.

Lemma providerCallback_disciplined (t : ProviderTexts) (clk : Clock)
    (state code errorParam : string) (tc : TokenCall) (fc : FirebaseCall) :
  providerName t = "google" \/ providerName t = "github" ->
  disciplined wellFormedAnswer (providerCallback t clk state code errorParam tc fc).
Proof.
  intros Hp. unfold providerCallback.
  destruct (String.eqb state ""); [cbn [disciplined]; other_answer|].
  cbn [bind call disciplined handlerOp]. split; [exact I|]. intros st _.
  generalize (exec (OpFindState state) st).2. intros deviceCode.
  split; [exact I|]. intros st' _. generalize (exec (OpGetCopy deviceCode) st').2.
  intros [session|]; [|cbn [disciplined]; other_answer].
  destruct (String.eqb deviceCode ""); [cbn [disciplined]; other_answer|].
  destruct (ExpiresAt session <=? atHandler clk); [walk_answers|].
  destruct (negb _); [walk_answers|].
  destruct (String.eqb code ""); [walk_answers|].
  destruct tc as [err|status tokens]; [walk_answers|].
  destruct (negb _); [walk_answers|].
  destruct (asString tokens (tokenField t)) as [providerToken|]; [|walk_answers].
  destruct (String.eqb providerToken ""); [walk_answers|].
  destruct fc as [err|data]; [walk_answers|].
  cbn [bind call disciplined handlerOp]. split; [apply authDict_shaped, Hp|].
  intros _ _. other_answer.
Qed.

Lemma handler_disciplined (req : Request) : disciplined wellFormedAnswer (handler req).
Proof.
  destruct req; cbn [handler].
  - apply deviceStart_disciplined.
  - apply devicePoll_disciplined.
  - unfold deviceForm. cbn [disciplined]. other_answer.
  - apply deviceSubmit_disciplined.
  - apply providerCallback_disciplined. left. reflexivity.
  - apply providerCallback_disciplined. right. reflexivity.
Qed.

(** X8: in every state the server reaches, whatever the interleaving of
    the handlers, each live session has one of the five statuses
    [pending], [authorizing], [complete], [error], [expired] (so the last
    branch of the poll, for any other status, is never taken), a complete
    session carries a bundle with [id_token], [refresh_token],
    [expires_in] and the provider, and every 200 a handler has answered
    in JSON carries such a bundle or the [device_code] of a start, never
    [null]. *)
Theorem sessions_and_answers_shaped (w : World) :
  reachable w ->
  (forall dc session,
      deviceSessions (store w) !! dc = Some session ->
      knownStatus (Status session)
      /\ (Status session = "complete" ->
          exists tokens, Tokens session = Some tokens /\ bundleShaped tokens))
  /\ forall i r, threads w !! i = Some (Ret r) -> wellFormedAnswer r.
Proof.
  intros Hw.
  assert (G : Forall (disciplined wellFormedAnswer) (threads w) /\ sessionsShaped (store w)).
  { revert w Hw. apply (invariant_of_runs always).
    - split; [constructor|]. intros dc s H. cbn in H. rewrite lookup_empty in H. discriminate H.
    - intros w w' [Hf Hi] Hs. revert Hf Hi.
      destruct Hs as [w1 req|w1 i A o k Hl _]; intros Hf Hi; cbn [store threads].
      + split; [|exact Hi]. apply Forall_app. split; [exact Hf|].
        repeat constructor. apply handler_disciplined.
      + apply (Forall_lookup_1 _ _ _ _ Hf) in Hl as Hp. cbn [disciplined] in Hp.
        destruct Hp as [Ho Hk]. split.
        * apply Forall_insert; [exact Hf|]. apply Hk, Hi.
        * apply sessionsShaped_exec; assumption. }
  destruct G as [Hf Hi]. split; [exact Hi|].
  intros i r Hl. apply (Forall_lookup_1 _ _ _ _ Hf) in Hl. exact Hl.
Qed.

(** ** The indices and the sessions they lead to *)

Lemma stepWhere_weaken (allowed allowed' : forall A : Type, Op A -> Store -> Prop) (w w' : World) :
  (forall A (o : Op A) st, allowed A o st -> allowed' A o st) ->
  stepWhere allowed w w' -> stepWhere allowed' w w'.
Proof.
  intros Hsub [w0 req|w0 i A o k Hi Ha]; [apply step_accept|].
  eapply step_atomic; [exact Hi|apply Hsub, Ha].
Qed.

Lemma userIndexSound_rewrite (dc0 : string) (s0 s' : DeviceSession) (st : Store)
    (states : gmap string string) :
  userIndexSound st -> deviceSessions st !! dc0 = Some s0 ->
  NormalizedUserCode s' = NormalizedUserCode s0 ->
  userIndexSound (mkStore (<[dc0 := s']> (deviceSessions st)) states (userIndex st)).
Proof.
  intros Hi E0 Hn normalized dc H. cbn [userIndex] in H. cbn [deviceSessions].
  destruct (Hi _ _ H) as (s & Hl & Hs).
  destruct (decide (dc0 = dc)) as [<-|Hne].
  - exists s'. rewrite lookup_insert_eq. split; [reflexivity|]. congruence.
  - exists s. rewrite lookup_insert_ne by exact Hne. split; assumption.
Qed.

Lemma userIndexSound_exec {A : Type} (o : Op A) (st : Store) :
  userIndexSound st ->
  (forall session, storedBy o = Some session ->
     deviceSessions st !! DeviceCode session = None) ->
  userIndexSound (exec o st).1.
Proof.
  intros Hi Hs. destruct o; cbn [exec fst]; try exact Hi.
  - unfold removeSession.
    destruct (deviceSessions st !! deviceCode) as [s0|] eqn:E0; [|exact Hi].
    intros normalized dc H. cbn [userIndex] in H. cbn [deviceSessions].
    apply lookup_delete_Some in H as [Hne H].
    destruct (Hi _ _ H) as (s & Hl & Hn). exists s. split; [|exact Hn].
    rewrite lookup_delete_ne; [exact Hl|]. intros <-. congruence.
  - specialize (Hs session eq_refl).
    intros normalized dc H. cbn [userIndex storeSession] in H. cbn [deviceSessions storeSession].
    apply lookup_insert_Some in H as [[<- <-]|[Hne H]].
    + exists session. rewrite lookup_insert_eq. split; reflexivity.
    + destruct (Hi _ _ H) as (s & Hl & Hn). exists s. split; [|exact Hn].
      rewrite lookup_insert_ne; [exact Hl|]. congruence.
  - unfold markSession. destruct (deviceSessions st !! deviceCode) as [s0|] eqn:E0; [|exact Hi].
    cbn zeta. eapply userIndexSound_rewrite; [exact Hi|exact E0|].
    destruct (String.eqb message ""); reflexivity.
  - unfold setSessionTokens. destruct (deviceSessions st !! deviceCode) as [s0|] eqn:E0; [|exact Hi].
    cbn zeta. eapply userIndexSound_rewrite; [exact Hi|exact E0|reflexivity].
  - unfold submitLocked. destruct (String.eqb (index (userIndex st) normalized) ""); [exact Hi|].
    destruct (deviceSessions st !! index (userIndex st) normalized) as [s0|] eqn:E0; [|exact Hi].
    cbn zeta. cbn [fst]. eapply userIndexSound_rewrite; [exact Hi|exact E0|].
    destruct (ExpiresAt s0 <=? now); cbn [Status setLastTouched setStatus];
      [reflexivity|destruct (String.eqb (Status s0) "pending"); reflexivity].
Qed.

(** A session that leaves the states [pending] and [authorizing] and its
    entry of the state index in one critical section. *)
Lemma indexedSessions_retire (dc0 : string) (s0 s' : DeviceSession) (st : Store) :
  indexedSessions st -> uniqueCodes st -> deviceSessions st !! dc0 = Some s0 ->
  NormalizedUserCode s' = NormalizedUserCode s0 ->
  Status s' <> "pending" -> Status s' <> "authorizing" ->
  indexedSessions (mkStore (<[dc0 := s']> (deviceSessions st))
                           (delete (State s0) (stateIndex st)) (userIndex st)).
Proof.
  intros Hi Hu E0 Hn Hp Ha dc s H. cbn [deviceSessions] in H. cbn [userIndex stateIndex].
  apply lookup_insert_Some in H as [[<- <-]|[Hne H]].
  - split; [rewrite Hn; apply (Hi _ _ E0)|]. intros [?|?]; contradiction.
  - destruct (Hi _ _ H) as [Hx Hy]. split; [exact Hx|]. intros Hst.
    rewrite lookup_delete_ne; [apply Hy, Hst|].
    intros E. apply Hne. apply (Hu dc0 dc s0 s E0 H). right. right. exact E.
Qed.

Lemma indexedSessions_exec {A : Type} (o : Op A) (st : Store) :
  indexedSessions st -> uniqueCodes st -> handlerOp A o -> freshCodes A o st ->
  indexedSessions (exec o st).1.
Proof.
  intros Hi Hu Ho Hf. destruct o; cbn [exec fst]; try exact Hi.
  - unfold removeSession.
    destruct (deviceSessions st !! deviceCode) as [s0|] eqn:E0; [|exact Hi].
    intros dc s H. cbn [deviceSessions] in H. cbn [userIndex stateIndex].
    apply lookup_delete_Some in H as [Hne H]. destruct (Hi _ _ H) as [Hx Hy].
    split.
    + rewrite lookup_delete_ne; [exact Hx|].
      intros E. apply Hne. apply (Hu deviceCode dc s0 s E0 H). right. left. exact E.
    + intros Hst. rewrite lookup_delete_ne; [apply Hy, Hst|].
      intros E. apply Hne. apply (Hu deviceCode dc s0 s E0 H). right. right. exact E.
  - destruct (Hf session eq_refl) as [Hnone Hfresh].
    intros dc s H. cbn [deviceSessions storeSession] in H. cbn [userIndex stateIndex storeSession].
    apply lookup_insert_Some in H as [[<- <-]|[Hne H]].
    + rewrite !lookup_insert_eq. split; [reflexivity|]. intros _. reflexivity.
    + destruct (Hi _ _ H) as [Hx Hy]. destruct (Hfresh _ _ H) as [Hn Hs].
      rewrite !lookup_insert_ne by congruence. split; assumption.
  - unfold markSession. destruct (deviceSessions st !! deviceCode) as [s0|] eqn:E0; [|exact Hi].
    cbn zeta. apply indexedSessions_retire; try assumption.
    + destruct (String.eqb message ""); reflexivity.
    + destruct (String.eqb message ""); cbn [Status setError setCompletedAt setStatus];
        destruct Ho as [->| ->]; discriminate.
    + destruct (String.eqb message ""); cbn [Status setError setCompletedAt setStatus];
        destruct Ho as [->| ->]; discriminate.
  - unfold setSessionTokens. destruct (deviceSessions st !! deviceCode) as [s0|] eqn:E0; [|exact Hi].
    cbn zeta. apply indexedSessions_retire; try assumption; [reflexivity|discriminate..].
  - unfold submitLocked. destruct (String.eqb (index (userIndex st) normalized) ""); [exact Hi|].
    destruct (deviceSessions st !! index (userIndex st) normalized) as [s0|] eqn:E0; [|exact Hi].
    cbn zeta. cbn [fst]. intros dc s H. cbn [deviceSessions] in H. cbn [userIndex stateIndex].
    apply lookup_insert_Some in H as [[<- <-]|[Hne H]]; [|apply (Hi _ _ H)].
    destruct (Hi _ _ E0) as [Hx Hy].
    destruct (ExpiresAt s0 <=? now);
      cbn [Status State NormalizedUserCode setLastTouched setStatus].
    + split; [exact Hx|]. intros [E|E]; discriminate E.
    + destruct (String.eqb (Status s0) "pending") eqn:Ep;
        cbn [Status State NormalizedUserCode setLastTouched setStatus].
      * apply String.eqb_eq in Ep. split; [exact Hx|]. intros _. apply Hy. left. exact Ep.
      * split; [exact Hx|exact Hy].
Qed.

(** X9: as long as every start draws a device code, a user code and a
    state that no live session carries, the user-code index and the live
    sessions correspond one to one: every entry of the index leads to a
    live session with that normalized user code, every live session is
    found under its normalized user code, and every session that is
    pending or authorizing is found under its state.  So the user who types
    the code shown and the callback that brings the state reach the
    session they belong to. *)
Theorem indices_match_sessions (w : World) :
  rtc (stepWhere freshCodes) initial w ->
  userIndexSound (store w) /\ indexedSessions (store w).
Proof.
  intros Hw.
  assert (G : (Forall (disciplined wellFormedAnswer) (threads w) /\ sessionsShaped (store w))
              /\ (keyed (store w) /\ uniqueCodes (store w))
              /\ userIndexSound (store w) /\ indexedSessions (store w)); [|apply G].
  revert w Hw. apply (invariant_of_runs freshCodes).
  - split; [split; [constructor|]|split; [split|split]].
    + intros dc s H. cbn in H. rewrite lookup_empty in H. discriminate H.
    + intros dc s H. cbn in H. rewrite lookup_empty in H. discriminate H.
    + intros dc1 dc2 s1 s2 H. cbn in H. rewrite lookup_empty in H. discriminate H.
    + intros n dc H. cbn in H. rewrite lookup_empty in H. discriminate H.
    + intros dc s H. cbn in H. rewrite lookup_empty in H. discriminate H.
  - intros w w' ([Hf Hi] & [Hk Hu] & Hx & Hy) Hs.
    assert (Hk' : keyed (store w')).
    { eapply step_keyed; [exact Hk|]. eapply stepWhere_step, Hs. }
    assert (Hu' : uniqueCodes (store w')).
    { eapply step_uniqueCodes; [exact Hk|exact Hu|].
      eapply stepWhere_weaken; [|exact Hs].
      intros A o st Ha session Hst. apply (Ha session Hst). }
    split; [|split; [split; assumption|]]; clear Hk' Hu'; revert Hf Hi Hk Hu Hx Hy;
      destruct Hs as [w1 req|w1 i A o k Hl Hfresh]; intros Hf Hi Hk Hu Hx Hy; cbn [store threads].
    + split; [|exact Hi]. apply Forall_app. split; [exact Hf|].
      repeat constructor. apply handler_disciplined.
    + apply (Forall_lookup_1 _ _ _ _ Hf) in Hl as Hp. cbn [disciplined] in Hp.
      destruct Hp as [Ho Hc]. split.
      * apply Forall_insert; [exact Hf|]. apply Hc, Hi.
      * apply sessionsShaped_exec; assumption.
    + split; assumption.
    + apply (Forall_lookup_1 _ _ _ _ Hf) in Hl as Hp. cbn [disciplined] in Hp.
      destruct Hp as [Ho Hc]. split.
      * apply userIndexSound_exec; [exact Hx|]. intros session Hst. apply (Hfresh session Hst).
      * apply indexedSessions_exec; assumption.
Qed.

(** ** A device flow from its start to its end *)

Lemma tracked_removeSession (dc0 : string) (st : Store) (s : DeviceSession) :
  dc0 <> DeviceCode s -> tracked st s ->
  tracked (removeSession dc0 st) s
  /\ stateIndex (removeSession dc0 st) !! State s = stateIndex st !! State s.
Proof.
  intros Hne (Hl & Hu & Ho). unfold removeSession.
  destruct (deviceSessions st !! dc0) as [s0|] eqn:E0; [|split; [split; [|split]|]; auto].
  destruct (Ho _ _ Hne E0) as [Hn Hs].
  split; [split; [|split]|]; cbn [deviceSessions userIndex stateIndex].
  - rewrite lookup_delete_ne by exact Hne. exact Hl.
  - rewrite lookup_delete_ne by exact Hn. exact Hu.
  - intros dc other Hd H. apply lookup_delete_Some in H as [_ H]. apply (Ho _ _ Hd H).
  - apply lookup_delete_ne. exact Hs.
Qed.

Lemma tracked_removeEach (codes : list string) (st : Store) (s : DeviceSession) :
  DeviceCode s ∉ codes -> tracked st s ->
  tracked (removeEach codes st) s
  /\ stateIndex (removeEach codes st) !! State s = stateIndex st !! State s.
Proof.
  revert st. induction codes as [|c codes IH]; intros st Hn Ht; cbn [removeEach]; [auto|].
  apply not_elem_of_cons in Hn as [Hc Hn].
  destruct (tracked_removeSession c st s) as [Ht' Hs']; [congruence|exact Ht|].
  destruct (IH _ Hn Ht') as [Ht'' Hs'']. split; [exact Ht''|]. congruence.
Qed.

(** The sweep leaves a session it does not reclaim as it finds it, with
    its entries of the indices. *)
Lemma tracked_swept (now : Z) (st : Store) (s : DeviceSession) :
  tracked st s -> sweepable now s = false ->
  tracked (swept now st) s
  /\ stateIndex (swept now st) !! State s = stateIndex st !! State s.
Proof.
  intros Ht Hs. apply tracked_removeEach; [|exact Ht].
  intros Hin. apply elem_of_expiredCodes in Hin as (s' & Hl & Hs').
  destruct Ht as (Hl' & _). rewrite Hl' in Hl. injection Hl as <-. congruence.
Qed.

Lemma tracked_rewrite (st : Store) (s s' : DeviceSession) (states : gmap string string) :
  tracked st s ->
  DeviceCode s' = DeviceCode s -> NormalizedUserCode s' = NormalizedUserCode s ->
  State s' = State s ->
  tracked (mkStore (<[DeviceCode s := s']> (deviceSessions st)) states (userIndex st)) s'.
Proof.
  intros (Hl & Hu & Ho) Hd Hn Hs. unfold tracked. rewrite Hd, Hn, Hs.
  split; [|split]; cbn [deviceSessions userIndex].
  - apply lookup_insert_eq.
  - exact Hu.
  - intros dc other Hne H. rewrite lookup_insert_ne in H by congruence.
    apply (Ho _ _ Hne H).
Qed.

Lemma tracked_storeSession (st : Store) (s : DeviceSession) :
  freshFor st s ->
  tracked (storeSession s st) s
  /\ stateIndex (storeSession s st) !! State s = Some (DeviceCode s).
Proof.
  intros Hf. unfold storeSession. split; [split; [|split]|];
    cbn [deviceSessions userIndex stateIndex]; try apply lookup_insert_eq.
  intros dc other Hne H. rewrite lookup_insert_ne in H by congruence. apply (Hf _ _ H).
Qed.

Lemma normalizeCode_generated (b : list byte) :
  normalizeCode unicodeToUpper (generateUserCode b) = rawUserCode b.
Proof.
  destruct (rawUserCode_facts b) as (F1 & F2 & F3 & F4 & F5 & F6).
  destruct (take_drop_hyphen (rawUserCode b) 4) as (T1 & T2 & T3).
  unfold generateUserCode. rewrite normalizeCode_ascii by (rewrite T2; exact F2).
  rewrite T1, F3, F4. reflexivity.
Qed.

(** A start that goes through. *)
Lemma run_deviceStart (clk : Clock) (rnd : Rand) (c : Context) (reqProvider : string)
    (st : Store) :
  let provider := ToLower unicodeToLower reqProvider in
  provider = "google" \/ provider = "github" -> checkProvider provider = None ->
  run (deviceStart clk rnd c (Some reqProvider)) st
  = (storeSession (newSession (atHandler clk) rnd provider) (swept (atSweep clk) st),
     startAnswer c (newSession (atHandler clk) rnd provider)).
Proof.
  intros provider Hp Hc. unfold deviceStart. rewrite run_bind, run_sessionCleanup. cbn [fst snd].
  fold provider. rewrite Hc.
  replace (negb (String.eqb provider "google") && negb (String.eqb provider "github"))
    with false by (destruct Hp as [->| ->]; reflexivity).
  reflexivity.
Qed.

(** A poll for a session that is waiting for the user. *)
Lemma poll_waiting (clk : Clock) (st : Store) (s : DeviceSession) :
  tracked st s -> Status s = "pending" \/ Status s = "authorizing" ->
  atSweep clk < ExpiresAt s -> atHandler clk < ExpiresAt s ->
  run (devicePoll clk (Some (DeviceCode s))) st = (swept (atSweep clk) st, pendingAnswer).
Proof.
  intros Ht Hs H1 H2.
  assert (Hk : deviceSessions (swept (atSweep clk) st) !! DeviceCode s = Some s).
  { apply swept_kept; [apply Ht|]. apply not_sweepable_live; [exact H1|].
    intros [E|[E|E]]; destruct Hs as [E'|E']; rewrite E' in E; discriminate E. }
  rewrite run_devicePoll, Hk.
  replace (ExpiresAt s <=? atHandler clk) with false by (symmetry; apply Z.leb_gt; exact H2).
  cbn [andb].
  replace (String.eqb (Status s) "pending" || String.eqb (Status s) "authorizing") with true
    by (destruct Hs as [->| ->]; reflexivity).
  reflexivity.
Qed.

Lemma waiting_not_sweepable (now : Z) (s : DeviceSession) :
  Status s = "pending" \/ Status s = "authorizing" -> now < ExpiresAt s ->
  sweepable now s = false.
Proof.
  intros Hs H. apply not_sweepable_live; [exact H|].
  intros [E|[E|E]]; destruct Hs as [E'|E']; rewrite E' in E; discriminate E.
Qed.

(** The critical section of a submit of the code of a pending session. *)
Lemma submit_pending (clk : Clock) (c : Context) (code : string) (st : Store) (s : DeviceSession) :
  tracked st s -> code <> EmptyString -> DeviceCode s <> EmptyString ->
  normalizeCode unicodeToUpper code = NormalizedUserCode s ->
  Status s = "pending" -> atHandler clk < ExpiresAt s ->
  let s' := setStatus "authorizing" (setLastTouched (atHandler clk) s) in
  run (deviceSubmit clk c code) st
  = run (submitRest clk c code (DeviceCode s) (Some s'))
        (mkStore (<[DeviceCode s := s']> (deviceSessions st)) (stateIndex st) (userIndex st)).
Proof.
  intros (Hl & Hu & _) Hc Hd Hn Hs He s'. rewrite run_deviceSubmit by exact Hc.
  unfold submitLocked. rewrite Hn. unfold index. rewrite Hu. cbn [default from_option id].
  apply String.eqb_neq in Hd. rewrite Hd, Hl.
  replace (ExpiresAt s <=? atHandler clk) with false by (symmetry; apply Z.leb_gt; exact He).
  cbn [Status setLastTouched]. rewrite Hs. reflexivity.
Qed.

Lemma submitRest_google (clk : Clock) (c : Context) (code dc : string) (s : DeviceSession)
    (st : Store) :
  dc <> EmptyString -> Status s = "authorizing" -> Provider s = "google" ->
  googleClientID <> EmptyString -> googleClientSecret <> EmptyString ->
  run (submitRest clk c code dc (Some s)) st = (st, googleRedirect c s).
Proof.
  intros Hd Hs Hp H1 H2. unfold submitRest, unset.
  apply String.eqb_neq in Hd, H1, H2. rewrite Hd, Hs, Hp, H1, H2. reflexivity.
Qed.

Lemma submitRest_github (clk : Clock) (c : Context) (code dc : string) (s : DeviceSession)
    (st : Store) :
  dc <> EmptyString -> Status s = "authorizing" -> Provider s = "github" ->
  githubClientID <> EmptyString -> githubClientSecret <> EmptyString ->
  run (submitRest clk c code dc (Some s)) st = (st, githubRedirect c s).
Proof.
  intros Hd Hs Hp H1 H2. unfold submitRest, unset.
  apply String.eqb_neq in Hd, H1, H2. rewrite Hd, Hs, Hp, H1, H2. reflexivity.
Qed.

(** The callback up to its checks of the request: the session its state
    leads to, still within its lifetime. *)
Lemma callback_finds (t : ProviderTexts) (clk : Clock) (code errorParam : string)
    (tc : TokenCall) (fc : FirebaseCall) (st : Store) (s : DeviceSession) (rest : Prog Response) :
  deviceSessions st !! DeviceCode s = Some s ->
  stateIndex st !! State s = Some (DeviceCode s) ->
  State s <> EmptyString -> DeviceCode s <> EmptyString ->
  atHandler clk < ExpiresAt s ->
  rest = providerCallback t clk (State s) code errorParam tc fc ->
  run rest st
  = run (if negb (String.eqb errorParam "") then
           call (OpMark (DeviceCode s) "error" (QueryUnescape errorParam) (atMark clk)) ;;;
           Ret (DevicePage ("Authorization failed: " +:+ QueryUnescape errorParam) "" true false)
         else if String.eqb code "" then
           call (OpMark (DeviceCode s) "error" "Missing authorization code" (atMark clk)) ;;;
           Ret (DevicePage "Missing authorization code" "" true false)
         else
           match tc with
           | TokenFailed err =>
               call (OpMark (DeviceCode s) "error" err (atMark clk)) ;;;
               Ret (DevicePage (contactFailed t) "" true false)
           | TokenAnswer status tokens =>
               if negb (status =? StatusOK) then
                 call (OpMark (DeviceCode s) "error" (authorizationFailed t) (atMark clk)) ;;;
                 Ret (DevicePage (authorizationFailedPage t) "" true false)
               else
                 match asString tokens (tokenField t) with
                 | None =>
                     call (OpMark (DeviceCode s) "error" (tokenMissing t) (atMark clk)) ;;;
                     Ret (DevicePage (tokenMissingPage t) "" true false)
                 | Some providerToken =>
                     if String.eqb providerToken "" then
                       call (OpMark (DeviceCode s) "error" (tokenMissing t) (atMark clk)) ;;;
                       Ret (DevicePage (tokenMissingPage t) "" true false)
                     else
                       match fc with
                       | FirebaseFailed err =>
                           call (OpMark (DeviceCode s) "error" err (atMark clk)) ;;;
                           Ret (DevicePage "Firebase authentication failed" "" true false)
                       | FirebaseData firebaseData =>
                           call (OpSetTokens (DeviceCode s)
                                   (authDict (providerName t) (parseAuthResponse firebaseData))
                                   (atMark clk)) ;;;
                           Ret completePage
                       end
                 end
           end) st.
Proof.
  intros Hl Hi Hs Hd He ->. unfold providerCallback.
  apply String.eqb_neq in Hs, Hd. rewrite Hs.
  cbn [bind call run exec]. unfold findState, index, getSessionCopy. rewrite Hi. cbn [default from_option id].
  rewrite Hl, Hd.
  replace (ExpiresAt s <=? atHandler clk) with false by (symmetry; apply Z.leb_gt; exact He).
  reflexivity.
Qed.

(** A poll for a session that is complete or in error hands out the
    outcome and removes the session. *)
Lemma poll_finished (clk : Clock) (st : Store) (s : DeviceSession) :
  tracked st s -> Status s = "complete" \/ Status s = "error" ->
  atSweep clk < ExpiresAt s -> atSweep clk - CompletedAt s <= 120 ->
  run (devicePoll clk (Some (DeviceCode s))) st
  = (removeSession (DeviceCode s) (swept (atSweep clk) st),
     if String.eqb (Status s) "complete" then JSON StatusOK (Tokens s)
     else JSON StatusBadRequest
            (detail (if String.eqb (Error s) "" then "Authorization failed" else Error s))).
Proof.
  intros Ht Hs H1 H2.
  assert (Hk : deviceSessions (swept (atSweep clk) st) !! DeviceCode s = Some s).
  { apply swept_kept; [apply Ht|]. apply not_sweepable_complete; assumption. }
  rewrite run_devicePoll, Hk.
  destruct Hs as [E|E]; rewrite E; rewrite andb_false_r; reflexivity.
Qed.

Lemma serveEach_app (l1 l2 : list Request) (st : Store) :
  serveEach (l1 ++ l2) st = (serveEach l1 st ++ serveEach l2 (storeAfter l1 st))%list.
Proof.
  revert st. induction l1 as [|req l1 IH]; intros st; [reflexivity|].
  cbn [serveEach app]. rewrite IH. reflexivity.
Qed.

Lemma storeAfter_app (l1 l2 : list Request) (st : Store) :
  storeAfter (l1 ++ l2) st = storeAfter l2 (storeAfter l1 st).
Proof. apply fold_left_app. Qed.

Lemma newSession_facts (now : Z) (rnd : Rand) (provider : string) :
  let s := newSession now rnd provider in
  Status s = "pending" /\ Provider s = provider /\ Error s = EmptyString
  /\ ExpiresAt s = now + 600
  /\ DeviceCode s <> EmptyString /\ State s <> EmptyString
  /\ NormalizedUserCode s <> EmptyString.
Proof.
  intros s. split; [reflexivity|]. split; [reflexivity|]. split; [reflexivity|].
  split; [reflexivity|].
  assert (L1 : String.length (DeviceCode s) = 56%nat) by reflexivity.
  assert (L2 : String.length (State s) = 44%nat) by reflexivity.
  assert (L3 : String.length (NormalizedUserCode s) = 8%nat).
  { subst s. cbn [newSession NormalizedUserCode]. rewrite normalizeCode_generated.
    destruct (rawUserCode_facts (readRand rnd 40 8)) as [-> _]. reflexivity. }
  split; [|split]; intros E; [rewrite E in L1|rewrite E in L2|rewrite E in L3]; discriminate.
Qed.

Lemma submitRest_redirect (clk : Clock) (c : Context) (code dc : string) (s : DeviceSession)
    (st : Store) :
  dc <> EmptyString -> Status s = "authorizing" ->
  Provider s = "google" \/ Provider s = "github" -> checkProvider (Provider s) = None ->
  run (submitRest clk c code dc (Some s)) st
  = (st, if String.eqb (Provider s) "google" then googleRedirect c s else githubRedirect c s).
Proof.
  intros Hd Hs Hp Hc. unfold submitRest. apply String.eqb_neq in Hd. rewrite Hd, Hs.
  unfold checkProvider in Hc. destruct Hp as [E|E]; rewrite E in Hc |- *.
  - change (String.eqb "google" "google") with true in Hc |- *. cbn [andb] in Hc.
    destruct (unset googleClientID || unset googleClientSecret); [discriminate Hc|reflexivity].
  - change (String.eqb "github" "google") with false in Hc |- *.
    change (String.eqb "github" "github") with true in Hc |- *. cbn [andb] in Hc.
    destruct (unset githubClientID || unset githubClientSecret); [discriminate Hc|reflexivity].
Qed.

(** From the start to the provider: a poll, the submit of the user code,
    and another poll. *)
Lemma flow_to_provider (s : DeviceSession) (st : Store) (clk1 clk2 clk3 : Clock)
    (c : Context) (code : string) :
  tracked st s -> stateIndex st !! State s = Some (DeviceCode s) ->
  Status s = "pending" ->
  Provider s = "google" \/ Provider s = "github" -> checkProvider (Provider s) = None ->
  DeviceCode s <> EmptyString -> code <> EmptyString ->
  normalizeCode unicodeToUpper code = NormalizedUserCode s ->
  atSweep clk1 < ExpiresAt s -> atHandler clk1 < ExpiresAt s ->
  atHandler clk2 < ExpiresAt s ->
  atSweep clk3 < ExpiresAt s -> atHandler clk3 < ExpiresAt s ->
  let s2 := setStatus "authorizing" (setLastTouched (atHandler clk2) s) in
  let reqs := [PostDevicePoll clk1 (Some (DeviceCode s)); PostDevice clk2 c code;
               PostDevicePoll clk3 (Some (DeviceCode s))] in
  serveEach reqs st
  = [pendingAnswer;
     if String.eqb (Provider s) "google" then googleRedirect c s else githubRedirect c s;
     pendingAnswer]
  /\ tracked (storeAfter reqs st) s2
  /\ stateIndex (storeAfter reqs st) !! State s = Some (DeviceCode s).
Proof.
  intros Ht Hi Hs Hp Hc Hd Hcode Hn T1 T1' T2 T3 T3' s2 reqs. subst reqs.
  cbn [serveEach storeAfter fold_left handler].
  (* the first poll *)
  rewrite (poll_waiting clk1 st s Ht (or_introl Hs) T1 T1'). cbn [fst snd].
  destruct (tracked_swept (atSweep clk1) st s Ht
              (waiting_not_sweepable _ s (or_introl Hs) T1)) as [Ht1 Hi1].
  rewrite Hi in Hi1. set (st1 := swept (atSweep clk1) st) in *.
  (* the submit *)
  rewrite (submit_pending clk2 c code st1 s Ht1 Hcode Hd Hn Hs T2). fold s2.
  rewrite (submitRest_redirect clk2 c code (DeviceCode s) s2 _ Hd eq_refl Hp Hc). cbn [fst snd].
  pose proof (tracked_rewrite st1 s s2 (stateIndex st1) Ht1 eq_refl eq_refl eq_refl) as Ht2.
  set (st2 := mkStore (<[DeviceCode s := s2]> (deviceSessions st1)) (stateIndex st1)
                      (userIndex st1)) in *.
  (* the second poll *)
  pose proof (poll_waiting clk3 st2 s2 Ht2 (or_intror eq_refl) T3 T3') as E3.
  change (DeviceCode s2) with (DeviceCode s) in E3. rewrite E3. cbn [fst snd].
  destruct (tracked_swept (atSweep clk3) st2 s2 Ht2
              (waiting_not_sweepable _ s2 (or_intror eq_refl) T3)) as [Ht3 Hi3].
  split; [reflexivity|]. split; [exact Ht3|].
  change (State s2) with (State s) in Hi3. rewrite Hi3. exact Hi1.
Qed.

Lemma callback_completes (t : ProviderTexts) (clk : Clock) (authCode providerToken : string)
    (tokens data : jobject) (st : Store) (s : DeviceSession) (rest : Prog Response) :
  deviceSessions st !! DeviceCode s = Some s ->
  stateIndex st !! State s = Some (DeviceCode s) ->
  State s <> EmptyString -> DeviceCode s <> EmptyString ->
  atHandler clk < ExpiresAt s ->
  authCode <> EmptyString ->
  asString tokens (tokenField t) = Some providerToken -> providerToken <> EmptyString ->
  rest = providerCallback t clk (State s) authCode "" (TokenAnswer StatusOK tokens)
           (FirebaseData data) ->
  run rest st
  = (mkStore (<[DeviceCode s :=
                  setCompletedAt (atMark clk)
                    (setTokens (Some (authDict (providerName t) (parseAuthResponse data)))
                       (setStatus "complete" s))]> (deviceSessions st))
             (delete (State s) (stateIndex st)) (userIndex st),
     completePage).
Proof.
  intros Hl Hi Hs Hd He Hc Ha Hp Hr.
  rewrite (callback_finds t clk authCode "" _ _ st s rest Hl Hi Hs Hd He Hr).
  apply String.eqb_neq in Hc, Hp.
  change (negb (String.eqb "" "")) with false. cbn iota. rewrite Hc.
  change (negb (StatusOK =? StatusOK)) with false. cbn iota. rewrite Ha, Hp.
  cbn [bind call run exec]. unfold setSessionTokens. rewrite Hl. reflexivity.
Qed.

Lemma callback_refused (t : ProviderTexts) (clk : Clock) (code errorParam : string)
    (tc : TokenCall) (fc : FirebaseCall) (st : Store) (s : DeviceSession) (rest : Prog Response) :
  deviceSessions st !! DeviceCode s = Some s ->
  stateIndex st !! State s = Some (DeviceCode s) ->
  State s <> EmptyString -> DeviceCode s <> EmptyString ->
  atHandler clk < ExpiresAt s ->
  errorParam <> EmptyString ->
  rest = providerCallback t clk (State s) code errorParam tc fc ->
  run rest st
  = (mkStore (<[DeviceCode s :=
                  if String.eqb (QueryUnescape errorParam) ""
                  then setCompletedAt (atMark clk) (setStatus "error" s)
                  else setError (QueryUnescape errorParam)
                         (setCompletedAt (atMark clk) (setStatus "error" s))]>
                (deviceSessions st))
             (delete (State s) (stateIndex st)) (userIndex st),
     DevicePage ("Authorization failed: " +:+ QueryUnescape errorParam) "" true false).
Proof.
  intros Hl Hi Hs Hd He Hc Hr.
  rewrite (callback_finds t clk code errorParam tc fc st s rest Hl Hi Hs Hd He Hr).
  apply String.eqb_neq in Hc. rewrite Hc. cbn [negb].
  cbn [bind call run exec]. unfold markSession. rewrite Hl. reflexivity.
Qed.

(** A session that a poll has handed out stays away. *)
Lemma forgotten_after_poll (clk clk' : Clock) (st : Store) (s : DeviceSession) (dc : string) :
  deviceSessions st !! DeviceCode s = Some s ->
  stateIndex st !! State s = None ->
  forgotten (run (devicePoll clk' (Some dc)) (removeSession (DeviceCode s) st)).1 s.
Proof.
  intros Hl Hi.
  assert (F : forgotten (removeSession (DeviceCode s) st) s).
  { destruct (removeSession_indices _ _ _ Hl) as [_ Hu].
    split; [apply removeSession_gone|]. split; [exact Hu|].
    unfold removeSession. rewrite Hl. cbn [stateIndex]. apply lookup_delete_eq. }
  set (st' := removeSession (DeviceCode s) st) in *.
  assert (G : forall p : Prog Response,
             storesOnly (fun _ => False) p -> forall st0, forgotten st0 s -> forgotten (run p st0).1 s).
  { clear. induction p as [r|A o k IH]; intros Hp st0 F; cbn [run]; [exact F|].
    destruct (exec o st0) as [st1 a] eqn:E. apply IH; [apply Hp|].
    destruct Hp as [Hn _]. destruct F as (F1 & F2 & F3).
    assert (E1 : st1 = (exec o st0).1) by (rewrite E; reflexivity). subst st1. clear E.
    destruct o; cbn [exec fst]; try (split; [|split]; assumption).
    - destruct (removeEach_subseteq [deviceCode] st0) as (S1 & S2 & S3). cbn [removeEach] in *.
      split; [|split]; eapply lookup_weaken_None; eassumption.
    - destruct (Hn session eq_refl).
    - unfold markSession. destruct (deviceSessions st0 !! deviceCode) as [s0|] eqn:E0;
        [|split; [|split]; assumption].
      cbn zeta. split; [|split]; cbn [deviceSessions userIndex stateIndex]; [|exact F2|].
      + rewrite lookup_insert_ne; [exact F1|]. intros E. rewrite E in E0. congruence.
      + eapply lookup_weaken_None; [exact F3|apply delete_subseteq].
    - unfold setSessionTokens. destruct (deviceSessions st0 !! deviceCode) as [s0|] eqn:E0;
        [|split; [|split]; assumption].
      cbn zeta. split; [|split]; cbn [deviceSessions userIndex stateIndex]; [|exact F2|].
      + rewrite lookup_insert_ne; [exact F1|]. intros E. rewrite E in E0. congruence.
      + eapply lookup_weaken_None; [exact F3|apply delete_subseteq].
    - unfold submitLocked. destruct (String.eqb (index (userIndex st0) normalized) "");
        [split; [|split]; assumption|].
      destruct (deviceSessions st0 !! index (userIndex st0) normalized) as [s0|] eqn:E0;
        [|split; [|split]; assumption].
      cbn zeta. cbn [fst]. split; [|split]; cbn [deviceSessions userIndex stateIndex];
        [|exact F2|exact F3].
      rewrite lookup_insert_ne; [exact F1|]. intros E. rewrite E in E0. congruence. }
  apply G; [apply devicePoll_stores|exact F].
Qed.

(** The end of a flow: the callback, the poll that takes the outcome,
    and a poll that comes after. *)
Lemma flow_outcome (s s' : DeviceSession) (st st' : Store) (req : Request) (page : Response)
    (clk5 clk6 : Clock) :
  tracked st s ->
  run (handler req) st
  = (mkStore (<[DeviceCode s := s']> (deviceSessions st))
             (delete (State s) (stateIndex st)) (userIndex st), page) ->
  DeviceCode s' = DeviceCode s -> NormalizedUserCode s' = NormalizedUserCode s ->
  State s' = State s -> ExpiresAt s' = ExpiresAt s ->
  Status s' = "complete" \/ Status s' = "error" ->
  atSweep clk5 < ExpiresAt s -> atSweep clk5 - CompletedAt s' <= 120 ->
  let reqs := [req; PostDevicePoll clk5 (Some (DeviceCode s));
               PostDevicePoll clk6 (Some (DeviceCode s))] in
  serveEach reqs st
  = [page;
     if String.eqb (Status s') "complete" then JSON StatusOK (Tokens s')
     else JSON StatusBadRequest
            (detail (if String.eqb (Error s') "" then "Authorization failed" else Error s'));
     unknownDeviceCode]
  /\ forgotten (storeAfter reqs st) s.
Proof.
  intros Ht E4 Hd Hn Hs He Hst T5 T5' reqs. subst reqs.
  cbn [serveEach storeAfter fold_left]. rewrite E4. cbn [fst snd].
  pose proof (tracked_rewrite st s s' (delete (State s) (stateIndex st)) Ht Hd Hn Hs) as Ht4.
  set (st4 := mkStore (<[DeviceCode s := s']> (deviceSessions st))
                      (delete (State s) (stateIndex st)) (userIndex st)) in *.
  assert (Hi4 : stateIndex st4 !! State s' = None).
  { rewrite Hs. subst st4. cbn [stateIndex]. apply lookup_delete_eq. }
  cbn [handler].
  pose proof (poll_finished clk5 st4 s' Ht4 Hst) as E5.
  rewrite Hd, He in E5. rewrite (E5 T5 T5'). cbn [fst snd].
  destruct (tracked_swept (atSweep clk5) st4 s' Ht4) as [Ht5 Hi5].
  { apply not_sweepable_complete; [rewrite He; exact T5|exact T5']. }
  rewrite Hi4 in Hi5.
  pose proof (forgotten_after_poll clk5 clk6 (swept (atSweep clk5) st4) s' (DeviceCode s)
                (proj1 Ht5) Hi5) as F.
  unfold forgotten in F. rewrite Hd, Hn, Hs in F.
  rewrite poll_unknown in F |- * by apply removeSession_gone.
  split; [reflexivity|exact F].
Qed.

(** The first half of a flow: the start, a poll, the submit of the user
    code, and another poll. *)
Lemma flow_from_start (provider : string) (st : Store) (rnd : Rand)
    (clk0 clk1 clk2 clk3 : Clock) (c0 c2 : Context) (reqProvider code : string)
    (session : DeviceSession) :
  session = newSession (atHandler clk0) rnd provider ->
  ToLower unicodeToLower reqProvider = provider ->
  provider = "google" \/ provider = "github" -> checkProvider provider = None ->
  freshFor (swept (atSweep clk0) st) session ->
  normalizeCode unicodeToUpper code = NormalizedUserCode session ->
  atSweep clk1 < atHandler clk0 + 600 -> atHandler clk1 < atHandler clk0 + 600 ->
  atHandler clk2 < atHandler clk0 + 600 ->
  atSweep clk3 < atHandler clk0 + 600 -> atHandler clk3 < atHandler clk0 + 600 ->
  let s2 := setStatus "authorizing" (setLastTouched (atHandler clk2) session) in
  let reqs := [PostDeviceStart clk0 rnd c0 (Some reqProvider);
               PostDevicePoll clk1 (Some (DeviceCode session)); PostDevice clk2 c2 code;
               PostDevicePoll clk3 (Some (DeviceCode session))] in
  serveEach reqs st
  = [startAnswer c0 session; pendingAnswer;
     if String.eqb provider "google" then googleRedirect c2 session
     else githubRedirect c2 session;
     pendingAnswer]
  /\ tracked (storeAfter reqs st) s2
  /\ stateIndex (storeAfter reqs st) !! State session = Some (DeviceCode session).
Proof.
  intros Es Hr Hp Hc Hf Hn T1 T1' T2 T3 T3' s2 reqs. subst reqs.
  pose proof (newSession_facts (atHandler clk0) rnd provider) as F. cbv zeta in F.
  rewrite <- Es in F. destruct F as (F1 & F2 & F3 & F4 & F5 & F6 & F7).
  assert (E0 : run (handler (PostDeviceStart clk0 rnd c0 (Some reqProvider))) st
               = (storeSession session (swept (atSweep clk0) st), startAnswer c0 session)).
  { cbn [handler]. rewrite Es, <- Hr. apply run_deviceStart; rewrite Hr; assumption. }
  assert (Hcode : code <> EmptyString).
  { intros ->. apply F7. rewrite <- Hn. reflexivity. }
  clear Es.
  destruct (tracked_storeSession _ _ Hf) as [Ht Hi].
  rewrite <- F4 in T1, T1', T2, T3, T3'. rewrite <- F2 in Hp, Hc |- *.
  destruct (flow_to_provider session (storeSession session (swept (atSweep clk0) st))
              clk1 clk2 clk3 c2 code Ht Hi F1 Hp Hc F5 Hcode Hn T1 T1' T2 T3 T3')
    as (E & Ht' & Hi').
  change (serveEach ?l st) with ((run (handler (PostDeviceStart clk0 rnd c0 (Some reqProvider))) st).2
    :: serveEach [PostDevicePoll clk1 (Some (DeviceCode session)); PostDevice clk2 c2 code;
                  PostDevicePoll clk3 (Some (DeviceCode session))]
         (run (handler (PostDeviceStart clk0 rnd c0 (Some reqProvider))) st).1).
  change (storeAfter ?l st) with
    (storeAfter [PostDevicePoll clk1 (Some (DeviceCode session)); PostDevice clk2 c2 code;
                 PostDevicePoll clk3 (Some (DeviceCode session))]
       (run (handler (PostDeviceStart clk0 rnd c0 (Some reqProvider))) st).1).
  rewrite E0. cbn [fst snd]. rewrite E. split; [reflexivity|]. split; assumption.
Qed.

(** X10: a device flow with Google that goes well, from any store in
    which no live session carries the user code or the state the start
    draws.  The start answers with the codes; a poll before the user has
    acted answers 202; the submit of a code that normalizes to the user
    code shown redirects to Google with the session's state; the callback
    with that state, an authorization code, an ID token from Google and the
    answer of Firebase renders the closing page; the next poll, within
    120 seconds, answers 200 with the bundle built from Firebase's answer;
    a poll after that answers 404, and the session has left the store and
    both indices.  All requests but the last come before the session's
    expiry. *)
Theorem device_flow_google (st : Store) (rnd : Rand)
    (clk0 clk1 clk2 clk3 clk4 clk5 clk6 : Clock) (c0 c2 : Context)
    (reqProvider code authCode providerToken : string) (tokens data : jobject) :
  let session := newSession (atHandler clk0) rnd "google" in
  let expiry := atHandler clk0 + 600 in
  ToLower unicodeToLower reqProvider = "google" ->
  googleClientID <> EmptyString -> googleClientSecret <> EmptyString ->
  freshFor (swept (atSweep clk0) st) session ->
  normalizeCode unicodeToUpper code = NormalizedUserCode session ->
  authCode <> EmptyString ->
  asString tokens "id_token" = Some providerToken -> providerToken <> EmptyString ->
  atSweep clk1 < expiry -> atHandler clk1 < expiry ->
  atHandler clk2 < expiry ->
  atSweep clk3 < expiry -> atHandler clk3 < expiry ->
  atHandler clk4 < expiry ->
  atSweep clk5 < expiry -> atSweep clk5 - atMark clk4 <= 120 ->
  let flow := [PostDeviceStart clk0 rnd c0 (Some reqProvider);
               PostDevicePoll clk1 (Some (DeviceCode session));
               PostDevice clk2 c2 code;
               PostDevicePoll clk3 (Some (DeviceCode session));
               GetCallbackGoogle clk4 (State session) authCode ""
                 (TokenAnswer StatusOK tokens) (FirebaseData data);
               PostDevicePoll clk5 (Some (DeviceCode session));
               PostDevicePoll clk6 (Some (DeviceCode session))] in
  serveEach flow st
  = [startAnswer c0 session; pendingAnswer; googleRedirect c2 session; pendingAnswer;
     completePage;
     JSON StatusOK (Some (authDict "google" (parseAuthResponse data)));
     unknownDeviceCode]
  /\ forgotten (storeAfter flow st) session.
Proof.
  intros session expiry Hr G1 G2 Hf Hn Ha Ht Hp T1 T1' T2 T3 T3' T4 T5 T5' flow.
  subst flow expiry.
  pose proof (newSession_facts (atHandler clk0) rnd "google") as F. cbv zeta in F.
  fold session in F. destruct F as (F1 & F2 & F3 & F4 & F5 & F6 & F7).
  assert (Hc : checkProvider "google" = None).
  { unfold checkProvider, unset. apply String.eqb_neq in G1, G2. rewrite G1, G2. reflexivity. }
  destruct (flow_from_start "google" st rnd clk0 clk1 clk2 clk3 c0 c2 reqProvider code session
              eq_refl Hr (or_introl eq_refl) Hc Hf Hn T1 T1' T2 T3 T3') as (E & Htr & Hi).
  rewrite <- F4 in T4, T5. clearbody session.
  set (s2 := setStatus "authorizing" (setLastTouched (atHandler clk2) session)) in *.
  set (reqs := [PostDeviceStart clk0 rnd c0 (Some reqProvider);
                PostDevicePoll clk1 (Some (DeviceCode session)); PostDevice clk2 c2 code;
                PostDevicePoll clk3 (Some (DeviceCode session))]) in *.
  set (req := GetCallbackGoogle clk4 (State session) authCode ""
                (TokenAnswer StatusOK tokens) (FirebaseData data)).
  change (serveEach ?l st) with
    (serveEach (reqs ++ [req; PostDevicePoll clk5 (Some (DeviceCode session));
                         PostDevicePoll clk6 (Some (DeviceCode session))]) st).
  change (storeAfter ?l st) with
    (storeAfter (reqs ++ [req; PostDevicePoll clk5 (Some (DeviceCode session));
                          PostDevicePoll clk6 (Some (DeviceCode session))]) st).
  rewrite serveEach_app, storeAfter_app, E.
  set (st3 := storeAfter reqs st) in *.
  pose proof (callback_completes googleTexts clk4 authCode providerToken tokens data st3 s2
                (handler req) (proj1 Htr) Hi F6 F5 T4 Ha Ht Hp eq_refl) as E4.
  destruct (flow_outcome s2 _ st3 st3 req completePage clk5 clk6 Htr E4
              eq_refl eq_refl eq_refl eq_refl (or_introl eq_refl) T5 T5') as [E' F'].
  split; [|exact F'].
  change (DeviceCode s2) with (DeviceCode session) in E'. rewrite E'. reflexivity.
Qed.

(** X11: a device flow with GitHub that the user or GitHub refuses.  The
    start, the polls and the submit go as in a flow that goes well, the
    redirect leading to GitHub; the callback that brings the session's
    state and an [error] parameter renders the failure page with the
    unescaped parameter; the next poll, within 120 seconds, answers 400
    with that message, or with [Authorization failed] when the parameter
    does not unescape or unescapes to nothing; a poll after that answers
    404, and the session has left the store and both indices. *)
Theorem device_flow_github_refused (st : Store) (rnd : Rand)
    (clk0 clk1 clk2 clk3 clk4 clk5 clk6 : Clock) (c0 c2 : Context)
    (reqProvider code authCode errorParam : string) (tc : TokenCall) (fc : FirebaseCall) :
  let session := newSession (atHandler clk0) rnd "github" in
  let expiry := atHandler clk0 + 600 in
  let message := QueryUnescape errorParam in
  ToLower unicodeToLower reqProvider = "github" ->
  githubClientID <> EmptyString -> githubClientSecret <> EmptyString ->
  freshFor (swept (atSweep clk0) st) session ->
  normalizeCode unicodeToUpper code = NormalizedUserCode session ->
  errorParam <> EmptyString ->
  atSweep clk1 < expiry -> atHandler clk1 < expiry ->
  atHandler clk2 < expiry ->
  atSweep clk3 < expiry -> atHandler clk3 < expiry ->
  atHandler clk4 < expiry ->
  atSweep clk5 < expiry -> atSweep clk5 - atMark clk4 <= 120 ->
  let flow := [PostDeviceStart clk0 rnd c0 (Some reqProvider);
               PostDevicePoll clk1 (Some (DeviceCode session));
               PostDevice clk2 c2 code;
               PostDevicePoll clk3 (Some (DeviceCode session));
               GetCallbackGitHub clk4 (State session) authCode errorParam tc fc;
               PostDevicePoll clk5 (Some (DeviceCode session));
               PostDevicePoll clk6 (Some (DeviceCode session))] in
  serveEach flow st
  = [startAnswer c0 session; pendingAnswer; githubRedirect c2 session; pendingAnswer;
     DevicePage ("Authorization failed: " +:+ message) "" true false;
     JSON StatusBadRequest
       (detail (if String.eqb message "" then "Authorization failed" else message));
     unknownDeviceCode]
  /\ forgotten (storeAfter flow st) session.
Proof.
  intros session expiry message Hr G1 G2 Hf Hn He T1 T1' T2 T3 T3' T4 T5 T5' flow.
  subst flow expiry.
  pose proof (newSession_facts (atHandler clk0) rnd "github") as F. cbv zeta in F.
  fold session in F. destruct F as (F1 & F2 & F3 & F4 & F5 & F6 & F7).
  assert (Hc : checkProvider "github" = None).
  { unfold checkProvider, unset. apply String.eqb_neq in G1, G2. rewrite G1, G2.
    rewrite !andb_false_r. reflexivity. }
  destruct (flow_from_start "github" st rnd clk0 clk1 clk2 clk3 c0 c2 reqProvider code session
              eq_refl Hr (or_intror eq_refl) Hc Hf Hn T1 T1' T2 T3 T3') as (E & Htr & Hi).
  rewrite <- F4 in T4, T5. clearbody session.
  set (s2 := setStatus "authorizing" (setLastTouched (atHandler clk2) session)) in *.
  set (reqs := [PostDeviceStart clk0 rnd c0 (Some reqProvider);
                PostDevicePoll clk1 (Some (DeviceCode session)); PostDevice clk2 c2 code;
                PostDevicePoll clk3 (Some (DeviceCode session))]) in *.
  set (req := GetCallbackGitHub clk4 (State session) authCode errorParam tc fc).
  change (serveEach ?l st) with
    (serveEach (reqs ++ [req; PostDevicePoll clk5 (Some (DeviceCode session));
                         PostDevicePoll clk6 (Some (DeviceCode session))]) st).
  change (storeAfter ?l st) with
    (storeAfter (reqs ++ [req; PostDevicePoll clk5 (Some (DeviceCode session));
                          PostDevicePoll clk6 (Some (DeviceCode session))]) st).
  rewrite serveEach_app, storeAfter_app, E.
  set (st3 := storeAfter reqs st) in *.
  pose proof (callback_refused githubTexts clk4 authCode errorParam tc fc st3 s2
                (handler req) (proj1 Htr) Hi F6 F5 T4 He eq_refl) as E4.
  fold message in E4.
  assert (Err : Error s2 = EmptyString) by exact F3.
  destruct (String.eqb message "") eqn:Em.
  - destruct (flow_outcome s2 _ st3 st3 req _ clk5 clk6 Htr E4
                eq_refl eq_refl eq_refl eq_refl (or_intror eq_refl) T5 T5') as [E' F'].
    split; [|exact F'].
    change (DeviceCode s2) with (DeviceCode session) in E'. rewrite E'.
    change (Error (setCompletedAt (atMark clk4) (setStatus "error" s2))) with (Error s2).
    rewrite Err. reflexivity.
  - destruct (flow_outcome s2 _ st3 st3 req _ clk5 clk6 Htr E4
                eq_refl eq_refl eq_refl eq_refl (or_intror eq_refl) T5 T5') as [E' F'].
    split; [|exact F'].
    change (DeviceCode s2) with (DeviceCode session) in E'. rewrite E'.
    change (Error (setError message (setCompletedAt (atMark clk4) (setStatus "error" s2))))
      with message.
    rewrite Em. reflexivity.
Qed.

(** ** What a handler leaves alone *)

Lemma removeSession_other (dc0 dc : string) (st : Store) :
  dc <> dc0 -> deviceSessions (removeSession dc0 st) !! dc = deviceSessions st !! dc.
Proof. intros H. rewrite removeSession_sessions. apply lookup_delete_ne. congruence. Qed.

Lemma markSession_other (dc0 status message : string) (now : Z) (dc : string) (st : Store) :
  dc <> dc0 ->
  deviceSessions (markSession dc0 status message now st) !! dc = deviceSessions st !! dc.
Proof.
  intros H. unfold markSession. destruct (deviceSessions st !! dc0); [|reflexivity].
  cbn [deviceSessions]. apply lookup_insert_ne. congruence.
Qed.

Lemma setSessionTokens_other (dc0 : string) (tokens : jobject) (now : Z) (dc : string)
    (st : Store) :
  dc <> dc0 ->
  deviceSessions (setSessionTokens dc0 tokens now st) !! dc = deviceSessions st !! dc.
Proof.
  intros H. unfold setSessionTokens. destruct (deviceSessions st !! dc0); [|reflexivity].
  cbn [deviceSessions]. apply lookup_insert_ne. congruence.
Qed.

Lemma submitLocked_other (normalized : string) (now : Z) (st : Store) (dc : string) :
  dc <> index (userIndex st) normalized ->
  deviceSessions (submitLocked normalized now st).1 !! dc = deviceSessions st !! dc
  /\ (submitLocked normalized now st).2.1 = index (userIndex st) normalized.
Proof.
  intros H. unfold submitLocked. destruct (String.eqb _ ""); [split; reflexivity|].
  destruct (deviceSessions st !! index (userIndex st) normalized); [|split; reflexivity].
  cbn [fst snd deviceSessions]. split; [|reflexivity]. apply lookup_insert_ne. congruence.
Qed.

Lemma submitRest_other (clk : Clock) (c : Context) (code dc0 : string)
    (found : option DeviceSession) (st : Store) (dc : string) :
  dc <> dc0 ->
  deviceSessions (run (submitRest clk c code dc0 found) st).1 !! dc = deviceSessions st !! dc.
Proof.
  intros H. unfold submitRest. destruct found as [session|]; [|reflexivity].
  repeat match goal with
         | |- context [if ?b then _ else _] => destruct b
         end;
    cbn [run bind call exec fst];
    rewrite ?(removeSession_other _ _ _ H), ?(markSession_other _ _ _ _ _ _ H); reflexivity.
Qed.

(** X12: a submit changes no session but the one its code leads to
    through the user-code index, and a callback no session but the one
    its state leads to through the state index: whatever the request
    carries, the sessions under every other device code are after the
    handler what they were before. *)
Theorem handlers_touch_one_session (dc : string) (st : Store) :
  (forall (clk : Clock) (c : Context) (code : string),
      dc <> index (userIndex st) (normalizeCode unicodeToUpper code) ->
      deviceSessions (run (deviceSubmit clk c code) st).1 !! dc = deviceSessions st !! dc)
  /\ (forall (t : ProviderTexts) (clk : Clock) (state code errorParam : string)
             (tc : TokenCall) (fc : FirebaseCall),
         dc <> findState state st ->
         deviceSessions (run (providerCallback t clk state code errorParam tc fc) st).1 !! dc
         = deviceSessions st !! dc).
Proof.
  split.
  - intros clk c code H. destruct (String.eqb code "") eqn:E.
    + unfold deviceSubmit. rewrite E. reflexivity.
    + apply String.eqb_neq in E. rewrite run_deviceSubmit by exact E.
      destruct (submitLocked_other _ (atHandler clk) st dc H) as [H1 H2].
      rewrite submitRest_other by (rewrite H2; exact H). exact H1.
  - intros t clk state code errorParam tc fc H. unfold providerCallback.
    destruct (String.eqb state ""); [reflexivity|].
    cbn [run bind call exec]. unfold getSessionCopy.
    set (dc0 := findState state st) in *.
    destruct (deviceSessions st !! dc0) as [session|]; [|reflexivity].
    destruct (String.eqb dc0 ""); [reflexivity|].
    destruct (ExpiresAt session <=? atHandler clk).
    { cbn [run bind call exec fst].
      rewrite (removeSession_other _ _ _ H), (markSession_other _ _ _ _ _ _ H). reflexivity. }
    destruct (negb _).
    { cbn [run bind call exec fst]. rewrite (markSession_other _ _ _ _ _ _ H). reflexivity. }
    destruct (String.eqb code "").
    { cbn [run bind call exec fst]. rewrite (markSession_other _ _ _ _ _ _ H). reflexivity. }
    destruct tc as [err|status tokens].
    { cbn [run bind call exec fst]. rewrite (markSession_other _ _ _ _ _ _ H). reflexivity. }
    destruct (negb _).
    { cbn [run bind call exec fst]. rewrite (markSession_other _ _ _ _ _ _ H). reflexivity. }
    destruct (asString tokens (tokenField t)) as [providerToken|].
    2: { cbn [run bind call exec fst]. rewrite (markSession_other _ _ _ _ _ _ H). reflexivity. }
    destruct (String.eqb providerToken "").
    { cbn [run bind call exec fst]. rewrite (markSession_other _ _ _ _ _ _ H). reflexivity. }
    destruct fc as [err|data]; cbn [run bind call exec fst].
    + rewrite (markSession_other _ _ _ _ _ _ H). reflexivity.
    + rewrite (setSessionTokens_other _ _ _ _ _ H). reflexivity.
Qed.

(** ** Storing and removing *)

(** X13: a session stored under codes the store does not hold is found
    again through all three maps, and removing it gives back the store
    as it was. *)
Theorem store_then_remove (session : DeviceSession) (st : Store) :
  deviceSessions st !! DeviceCode session = None ->
  stateIndex st !! State session = None ->
  userIndex st !! NormalizedUserCode session = None ->
  getSessionCopy (DeviceCode session) (storeSession session st) = Some session
  /\ findState (State session) (storeSession session st) = DeviceCode session
  /\ index (userIndex (storeSession session st)) (NormalizedUserCode session)
     = DeviceCode session
  /\ removeSession (DeviceCode session) (storeSession session st) = st.
Proof.
  intros H1 H2 H3. unfold getSessionCopy, findState, index, removeSession, storeSession.
  cbn [deviceSessions stateIndex userIndex]. rewrite !lookup_insert_eq.
  repeat split. destruct st as [sessions states users]. cbn [deviceSessions stateIndex userIndex] in *.
  rewrite !delete_insert_eq, !delete_id by assumption. reflexivity.
Qed.

(** ** Sweeps at two instants *)

Lemma sweepable_mono (t1 t2 : Z) (session : DeviceSession) :
  t1 <= t2 -> sweepable t1 session = true -> sweepable t2 session = true.
Proof.
  intros H. rewrite !sweepable_spec. intros [?|[? ?]]; [left; lia|right; split; [assumption|lia]].
Qed.

Lemma NoDup_expiredCodes (now : Z) (st : Store) : NoDup (expiredCodes now st).
Proof.
  unfold expiredCodes.
  assert (G : forall l : list (string * DeviceSession),
             NoDup l.*1 -> NoDup (List.filter (fun p => sweepable now p.2) l).*1).
  { induction l as [|[k s] l IH]; intros Hn; [constructor|].
    cbn [fmap list_fmap fst] in Hn. apply NoDup_cons in Hn as [Hk Hn].
    cbn [List.filter snd]. destruct (sweepable now s); [|apply IH, Hn].
    cbn [fmap list_fmap fst]. apply NoDup_cons. split; [|apply IH, Hn].
    intros Hin. apply Hk. apply list_elem_of_fmap in Hin as [[k' s'] [-> Hin]].
    apply list_elem_of_In, filter_In in Hin as [Hin _].
    apply list_elem_of_fmap. exists (k', s'). split; [reflexivity|].
    apply list_elem_of_In. exact Hin. }
  apply G, NoDup_fst_map_to_list.
Qed.

Lemma removeEach_app (l1 l2 : list string) (st : Store) :
  removeEach (l1 ++ l2) st = removeEach l2 (removeEach l1 st).
Proof. revert st. induction l1 as [|c l1 IH]; intros st; [reflexivity|]. apply IH. Qed.

(** X14: sweeps compose.  A sweep at an instant, followed by a sweep at
    the same or a later instant, leaves the store a single sweep at the
    later instant leaves; in particular a sweep repeated at the same
    instant changes nothing.  So how often the handlers sweep has no
    bearing on which sessions and index entries are left at a given
    time. *)
Theorem sweeps_compose (t1 t2 : Z) (st : Store) :
  t1 <= t2 ->
  (run (sessionCleanup t2) (run (sessionCleanup t1) st).1).1 = (run (sessionCleanup t2) st).1
  /\ (run (sessionCleanup t1) (run (sessionCleanup t1) st).1).1 = (run (sessionCleanup t1) st).1.
Proof.
  intros H.
  assert (G : forall a b, a <= b -> swept b (swept a st) = swept b st).
  { clear H. intros a b H.
    change (swept b (swept a st))
      with (removeEach (expiredCodes b (swept a st)) (removeEach (expiredCodes a st) st)).
    change (swept b st) with (removeEach (expiredCodes b st) st).
    rewrite <- removeEach_app.
    apply cleanup_order. apply NoDup_Permutation.
    - apply NoDup_app. split; [apply NoDup_expiredCodes|]. split; [|apply NoDup_expiredCodes].
      intros dc H1 H2. apply elem_of_expiredCodes in H2 as (s & Hl & _).
      rewrite swept_sessions in Hl. apply elem_of_expiredCodes in H1 as (s' & Hl' & Hs').
      rewrite Hl', Hs' in Hl. discriminate Hl.
    - apply NoDup_expiredCodes.
    - intros dc. rewrite elem_of_app, !elem_of_expiredCodes. split.
      + intros [(s & Hl & Hs)|(s & Hl & Hs)].
        * exists s. split; [exact Hl|]. eapply sweepable_mono; eassumption.
        * rewrite swept_sessions in Hl. destruct (deviceSessions st !! dc) as [s'|]; [|discriminate Hl].
          destruct (sweepable a s'); [discriminate Hl|]. injection Hl as ->. eauto.
      + intros (s & Hl & Hs). destruct (sweepable a s) eqn:Ea; [left; eauto|].
        right. exists s. split; [|exact Hs]. rewrite swept_sessions, Hl, Ea. reflexivity. }
  rewrite !run_sessionCleanup. cbn [fst]. split; apply G; lia.
Qed.

(** ** The symbols of a user code *)

(** X15: the symbols of a user code are not drawn evenly.  Of the 256
    values of a random byte, 8 give each of the symbols A, B, C and D, and
    7 give each of the other 32 symbols of the alphabet; no value gives a
    byte outside the alphabet. *)
Theorem user_code_bias (c : ascii) :
  (forall v : byte, nth_error allBytes (N.to_nat (Byte.to_N v)) = Some v)
  /\ length allBytes = 256%nat
  /\ drawsOf c = match indexOf c alphabet 0 with
                 | Some i => if (i <? 4)%N then 8%nat else 7%nat
                 | None => 0%nat
                 end.
Proof.
  split; [intros v; destruct v; vm_compute; reflexivity|].
  split; [vm_compute; reflexivity|].
  destruct c as [[] [] [] [] [] [] [] []]; vm_compute; reflexivity.
Qed.

(** ** A state is used once *)

(** X16: the state of a session serves one callback.  When the state
    leads to a live session that carries it, a callback with that state,
    whatever else the request brings and whatever the provider and
    Firebase answer, drops the state from the state index; any callback
    that comes with the same state afterwards renders the page for a
    session not found and leaves the store as it is. *)
Theorem callback_state_single_use (t t' : ProviderTexts) (clk clk' : Clock)
    (state code code' errorParam errorParam' : string) (tc tc' : TokenCall)
    (fc fc' : FirebaseCall) (st : Store) (dc : string) (session : DeviceSession) :
  state <> EmptyString -> dc <> EmptyString ->
  stateIndex st !! state = Some dc ->
  deviceSessions st !! dc = Some session ->
  State session = state ->
  let after := (run (providerCallback t clk state code errorParam tc fc) st).1 in
  stateIndex after !! state = None
  /\ run (providerCallback t' clk' state code' errorParam' tc' fc') after
     = (after,
        DevicePage "Session not found or expired. Return to the CLI and try again."
          "" true false).
Proof.
  intros Hs Hd Hi Hl He after.
  assert (G : stateIndex after !! state = None).
  { subst after. unfold providerCallback.
    apply String.eqb_neq in Hs, Hd. rewrite Hs.
    cbn [bind call run exec]. unfold findState, index, getSessionCopy. rewrite Hi.
    cbn [default from_option id]. rewrite Hl, Hd.
    assert (M : forall status message now,
               stateIndex (markSession dc status message now st) !! state = None).
    { intros status message now. unfold markSession. rewrite Hl. cbn [stateIndex].
      rewrite He. apply lookup_delete_eq. }
    assert (S : forall tokens now,
               stateIndex (setSessionTokens dc tokens now st) !! state = None).
    { intros tokens now. unfold setSessionTokens. rewrite Hl. cbn [stateIndex].
      rewrite He. apply lookup_delete_eq. }
    destruct (ExpiresAt session <=? atHandler clk).
    { cbn [run bind call exec fst].
      destruct (removeEach_subseteq [dc] (markSession dc "expired" "" (atMark clk) st))
        as (_ & S2 & _).
      cbn [removeEach] in S2. eapply lookup_weaken_None; [apply M|exact S2]. }
    destruct (negb _); [cbn [run bind call exec fst]; apply M|].
    destruct (String.eqb code ""); [cbn [run bind call exec fst]; apply M|].
    destruct tc as [err|status tokens]; [cbn [run bind call exec fst]; apply M|].
    destruct (negb _); [cbn [run bind call exec fst]; apply M|].
    destruct (asString tokens (tokenField t)) as [providerToken|];
      [|cbn [run bind call exec fst]; apply M].
    destruct (String.eqb providerToken ""); [cbn [run bind call exec fst]; apply M|].
    destruct fc as [err|data]; cbn [run bind call exec fst]; [apply M|apply S]. }
  split; [exact G|]. clearbody after. unfold providerCallback.
  apply String.eqb_neq in Hs. rewrite Hs.
  cbn [bind call run exec]. unfold findState, index, getSessionCopy. rewrite G.
  cbn [default from_option id]. destruct (deviceSessions after !! ""); reflexivity.
Qed.

(** ** A provider that is not configured *)

(** X17: a start for Google or GitHub on a server that lacks the client
    id or the client secret of that provider answers 500, naming the
    provider, and stores no session: the store it leaves is the one the
    sweep leaves. *)
Theorem start_unconfigured (clk : Clock) (rnd : Rand) (c : Context) (reqProvider : string)
    (st : Store) :
  let provider := ToLower unicodeToLower reqProvider in
  (provider = "google" /\ (googleClientID = EmptyString \/ googleClientSecret = EmptyString))
  \/ (provider = "github" /\ (githubClientID = EmptyString \/ githubClientSecret = EmptyString)) ->
  run (deviceStart clk rnd c (Some reqProvider)) st
  = (swept (atSweep clk) st,
     JSON StatusInternalServerError
       (detail (provider +:+ " OAuth is not configured on the server"))).
Proof.
  intros provider H. unfold deviceStart. rewrite run_bind, run_sessionCleanup. cbn [fst snd].
  fold provider. unfold checkProvider, unset.
  destruct H as [[-> [-> | ->]]|[-> [-> | ->]]];
    change (String.eqb "" "") with true;
    change (String.eqb "google" "google") with true;
    change (String.eqb "github" "github") with true;
    change (String.eqb "github" "google") with false;
    rewrite ?orb_true_r; cbn [negb andb orb]; reflexivity.
Qed.

End Handlers.

(** * Worked runs of the server

    A server whose four OAuth credentials are set, serving one device flow
    from its start.  The strings of these runs are ASCII, so the Unicode
    paths of [strings.ToUpper] and [strings.ToLower] are never taken;
    [asciiOnly] stands in for them. *)

Definition asciiOnly : string -> string := fun s => s.

Definition serverHandler : Request -> Prog Response :=
  handler asciiOnly asciiOnly "google-id" "google-secret" "github-id" "github-secret".

Definition serverStep (allowed : forall A : Type, Op A -> Store -> Prop) : World -> World -> Prop :=
  stepWhere asciiOnly asciiOnly "google-id" "google-secret" "github-id" "github-secret" allowed.

Definition serverReachable : World -> Prop :=
  reachable asciiOnly asciiOnly "google-id" "google-secret" "github-id" "github-secret".

Definition serverSubmit : Clock -> Context -> string -> Prog Response :=
  deviceSubmit asciiOnly "google-id" "google-secret" "github-id" "github-secret".

Definition serverStart : Clock -> Rand -> Context -> option string -> Prog Response :=
  deviceStart asciiOnly asciiOnly "google-id" "google-secret" "github-id" "github-secret".

(** Three draws of the random source: all bytes zero, the same with the
    40 bytes of the device code set to one, and all bytes two. *)
Definition zeros : Rand := fun _ => x00.
Definition onesThenZeros : Rand := fun i => if (i <? 40)%nat then x01 else x00.
Definition twos : Rand := fun _ => x02.

Definition cli : Context := mkContext "" "superbox.test" "superbox.test".

Definition deviceCode0 : string := generateDeviceCode (readRand zeros 0 40).
Definition state0 : string := EncodeToString (readRand zeros 48 32).

(** The store after [start] at time 0, after the submit of the user code at
    time 10, and after Google's callback at time 590. *)
Definition started : Store :=
  (run (serverHandler (PostDeviceStart (steady 0) zeros cli (Some "Google"))) emptyStore).1.

Definition authorizing : Store :=
  (run (serverHandler (PostDevice (steady 10) cli "aaaa aaaa")) started).1.

Definition firebaseAnswer : jobject :=
  <["idToken" := JString "id-1"]>
    (<["refreshToken" := JString "refresh-1"]>
       {[ "email" := JString "dev@superbox.test" ]}).

Definition googleCallback : Request :=
  GetCallbackGoogle (steady 590) state0 "auth-code" ""
    (TokenAnswer 200 {[ "id_token" := JString "google-id-token" ]})
    (FirebaseData firebaseAnswer).

Definition completed : Store := (run (serverHandler googleCallback) authorizing).1.

Definition bundle0 : jobject :=
  <["id_token" := JString "id-1"]>
    (<["refresh_token" := JString "refresh-1"]>
       (<["expires_in" := JNumber 0]>
          (<["provider" := JString "google"]>
             {[ "email" := JString "dev@superbox.test" ]}))).

Definition pendingSession : DeviceSession :=
  mkDeviceSession deviceCode0 "AAAA-AAAA" "AAAAAAAA" "google" state0 "pending"
    0 600 0 None "" 0.

Definition completeSession : DeviceSession :=
  mkDeviceSession deviceCode0 "AAAA-AAAA" "AAAAAAAA" "google" state0 "complete"
    0 600 590 (Some bundle0) "" 10.

(** A session with a status the code never writes. *)
Definition oddSession : DeviceSession :=
  mkDeviceSession deviceCode0 "AAAA-AAAA" "AAAAAAAA" "google" state0 "paused"
    0 600 0 None "" 0.

Definition oddStore : Store := storeSession oddSession emptyStore.

(** The server after the start has been served, and then with the submit
    of the user code at time 600 stopped after its critical section. *)
Definition startedWorld : World :=
  mkWorld started
    [Ret (run (serverHandler (PostDeviceStart (steady 0) zeros cli (Some "Google"))) emptyStore).2].

Definition lateSubmit : Request := PostDevice (steady 600) cli "AAAA-AAAA".

Definition midSubmit : World :=
  mkWorld (exec (OpSubmit "AAAAAAAA" 600) started).1
          (<[1%nat := submitRest "google-id" "google-secret" "github-id" "github-secret"
                        (steady 600) cli "AAAA-AAAA"
                        (exec (OpSubmit "AAAAAAAA" 600) started).2.1
                        (exec (OpSubmit "AAAAAAAA" 600) started).2.2]>
             (threads startedWorld ++ [serverHandler lateSubmit])%list).

(** The server after two starts whose random draws differ in the device
    code only, and after two starts whose draws differ everywhere. *)
Definition twoStarts (second : Rand) : World :=
  mkWorld
    (run (serverHandler (PostDeviceStart (steady 5) second cli (Some "github"))) started).1
    (threads startedWorld
     ++ [Ret (run (serverHandler (PostDeviceStart (steady 5) second cli (Some "github")))
                started).2])%list.

(** An upper-casing for strings with bytes outside ASCII that leaves
    those bytes alone, as [strings.ToUpper] does on text whose characters
    outside ASCII have no upper case; and a code with such a character
    (the three bytes of U+4E2D), as stored and as typed. *)
Definition bytewiseUpper : string -> string := Bytes.map Bytes.upperByte.

Definition wideCode : string :=
  String "a" (String "b" (String "-" (String (Bytes.chr 228)
    (String (Bytes.chr 184) (String (Bytes.chr 173) (String "c" EmptyString)))))).

Definition wideCodeTyped : string :=
  String "A" (String "B" (String (Bytes.chr 228)
    (String (Bytes.chr 184) (String (Bytes.chr 173) (String " " (String "C" EmptyString)))))).

(** The server after it has served one more request to its end. *)
Definition afterRequest (w : World) (req : Request) : World :=
  mkWorld (run (serverHandler req) (store w)).1
          (threads w ++ [Ret (run (serverHandler req) (store w)).2])%list.

(** The server after the start, the submit at time 10 and Google's
    callback at time 590. *)
Definition completedWorld : World :=
  afterRequest (afterRequest startedWorld (PostDevice (steady 10) cli "aaaa aaaa"))
               googleCallback.

(** A whole flow with Google, and one with GitHub that ends with the
    user's refusal. *)
Definition googleFlow : list Request :=
  [PostDeviceStart (steady 0) zeros cli (Some "Google");
   PostDevicePoll (steady 5) (Some deviceCode0);
   PostDevice (steady 10) cli "aaaa aaaa";
   PostDevicePoll (steady 15) (Some deviceCode0);
   googleCallback;
   PostDevicePoll (steady 595) (Some deviceCode0);
   PostDevicePoll (steady 599) (Some deviceCode0)].

Definition githubFlow : list Request :=
  [PostDeviceStart (steady 0) zeros cli (Some "GitHub");
   PostDevicePoll (steady 5) (Some deviceCode0);
   PostDevice (steady 10) cli "AAAA-AAAA";
   PostDevicePoll (steady 15) (Some deviceCode0);
   GetCallbackGitHub (steady 20) state0 "" "access_denied" (TokenFailed "") (FirebaseFailed "");
   PostDevicePoll (steady 25) (Some deviceCode0);
   PostDevicePoll (steady 30) (Some deviceCode0)].

Example deviceCode0_text :
  deviceCode0 = "AAAAAAAAAAAAAAAAAAAAAAAAAAAAAAAAAAAAAAAAAAAAAAAAAAAAAA=="
  /\ state0 = "AAAAAAAAAAAAAAAAAAAAAAAAAAAAAAAAAAAAAAAAAAA="
  /\ generateUserCode (readRand zeros 40 8) = "AAAA-AAAA".
Proof. repeat split. Qed.

Example started_store : started = storeSession pendingSession emptyStore.
Proof. vm_compute. reflexivity. Qed.

Example completed_session : deviceSessions completed !! deviceCode0 = Some completeSession.
Proof. vm_compute. reflexivity. Qed.

Example base64_vectors :
  EncodeToString (list_byte_of_string "foobar") = "Zm9vYmFy"
  /\ EncodeToString (list_byte_of_string "foob") = "Zm9vYg=="
  /\ EncodeToString (list_byte_of_string "fo") = "Zm8="
  /\ EncodeToString [xfb; xff; xfe] = "-__-".
Proof. repeat split. Qed.

Example normalizeCode_examples :
  normalizeCode asciiOnly "ab12cd34" = "AB12CD34"
  /\ normalizeCode asciiOnly "AB12-CD34" = "AB12CD34"
  /\ normalizeCode asciiOnly "ab12 cd34" = "AB12CD34".
Proof. repeat split. Qed.

(** ** The code generator *)

(** C8 does not hold as stated: [normalizeCode] keeps white space other
    than the space character, here a tab. *)
Lemma normalizeCode_keeps_tab :
  ~ (forall (toUpper : string -> string) (code : string),
        Bytes.all (fun c => negb (isWhitespace c)) (normalizeCode toUpper code) = true).
Proof.
  intros H. specialize (H asciiOnly ("ab12" +:+ String Bytes.tab "cd34")).
  assert (G : Bytes.all (fun c => negb (isWhitespace c))
                (normalizeCode asciiOnly ("ab12" +:+ String Bytes.tab "cd34")) = false)
    by (vm_compute; reflexivity).
  rewrite G in H. discriminate H.
Qed.

(** [bytewiseUpper] upper-cases as [upperCasing] asks. *)
Lemma bytewiseUpper_casing : upperCasing bytewiseUpper.
Proof.
  intros s _. unfold bytewiseUpper. split; [apply map_upper_idem|]. split.
  - unfold ToUpper. destruct (Bytes.isASCII _); apply map_upper_idem.
  - intros H. rewrite filter_kept_upper, H. reflexivity.
Qed.

(** Two instances: the ASCII code [ab12-cd 34], and a code that holds the
    three bytes of a character outside ASCII. *)
Lemma normalizeCode_canonical_witness :
  (sameCode "ab12-cd 34" "AB12CD34"
   /\ normalizeCode asciiOnly "ab12-cd 34" = "AB12CD34"
   /\ normalizeCode asciiOnly (normalizeCode asciiOnly "ab12-cd 34")
      = normalizeCode asciiOnly "ab12-cd 34"
   /\ normalizeCode asciiOnly "ab12-cd 34" = normalizeCode asciiOnly "AB12CD34")
  /\ (Bytes.isASCII wideCode = false /\ upperCasing bytewiseUpper
      /\ sameCode wideCode wideCodeTyped
      /\ normalizeCode bytewiseUpper (normalizeCode bytewiseUpper wideCode)
         = normalizeCode bytewiseUpper wideCode
      /\ normalizeCode bytewiseUpper wideCode = normalizeCode bytewiseUpper wideCodeTyped).
Proof.
  assert (S : sameCode "ab12-cd 34" "AB12CD34").
  { do 4 (apply same_byte; [reflexivity|]). apply same_skip_l; [left; reflexivity|].
    do 2 (apply same_byte; [reflexivity|]). apply same_skip_l; [right; reflexivity|].
    do 2 (apply same_byte; [reflexivity|]). apply same_nil. }
  assert (S' : sameCode wideCode wideCodeTyped).
  { unfold wideCode, wideCodeTyped.
    do 2 (apply same_byte; [reflexivity|]). apply same_skip_l; [left; reflexivity|].
    do 3 (apply same_byte; [reflexivity|]). apply same_skip_r; [right; reflexivity|].
    apply same_byte; [reflexivity|]. apply same_nil. }
  split.
  - destruct (normalizeCode_canonical asciiOnly "google-id" "google-secret" "github-id"
                "github-secret" "ab12-cd 34") as (_ & H1 & _ & H).
    destruct (H (or_introl eq_refl)) as (H2 & H3).
    split; [exact S|]. split; [exact (H1 eq_refl)|]. split; [exact H2|].
    exact (proj1 (H3 "AB12CD34" S)).
  - destruct (normalizeCode_canonical bytewiseUpper "google-id" "google-secret" "github-id"
                "github-secret" wideCode) as (_ & _ & _ & H).
    destruct (H (or_intror bytewiseUpper_casing)) as (H2 & H3).
    split; [reflexivity|]. split; [exact bytewiseUpper_casing|]. split; [exact S'|].
    split; [exact H2|]. exact (proj1 (H3 wideCodeTyped S')).
Defined.

(** ** The sweep *)

(** C2 does not hold as stated: a complete session completed 10 seconds
    ago is removed by the sweep once its [expiresAt] has passed. *)
Lemma sweep_ignores_grace :
  ~ (forall (now : Z) (st : Store) (dc : string) (session : DeviceSession),
        deviceSessions st !! dc = Some session ->
        Status session = "complete" ->
        now - CompletedAt session <= 120 ->
        deviceSessions (run (sessionCleanup now) st).1 !! dc = Some session).
Proof.
  intros H.
  specialize (H 600 completed deviceCode0 completeSession completed_session eq_refl).
  assert (G : 600 - CompletedAt completeSession <= 120) by (simpl; lia).
  specialize (H G).
  assert (R : deviceSessions (run (sessionCleanup 600) completed).1 !! deviceCode0 = None)
    by (vm_compute; reflexivity).
  rewrite R in H. discriminate H.
Qed.

(** An instance: the completed session, swept at 595, is kept. *)
Lemma sweep_policy_witness :
  deviceSessions completed !! deviceCode0 = Some completeSession
  /\ deviceSessions (run (sessionCleanup 595) completed).1 !! deviceCode0 = Some completeSession.
Proof.
  split; [exact completed_session|].
  destruct (sweep_policy 595 completed deviceCode0 completeSession completed_session)
    as (_ & _ & _ & H).
  apply H; [reflexivity|simpl; lia|simpl; lia].
Defined.

(** ** Polling *)

(** C1 does not hold as stated: the session completed at 590 and expiring
    at 600 is complete in the store, and its first poll, at 600, answers 404:
    the sweep the poll starts with has removed it. *)
Lemma poll_complete_after_ttl :
  ~ (forall (clk : Clock) (st : Store) (dc : string) (session : DeviceSession),
        deviceSessions st !! dc = Some session ->
        Status session = "complete" ->
        (run (devicePoll clk (Some dc)) st).2 = JSON StatusOK (Tokens session)).
Proof.
  intros H.
  specialize (H (steady 600) completed deviceCode0 completeSession completed_session eq_refl).
  assert (R : (run (devicePoll (steady 600) (Some deviceCode0)) completed).2 = unknownDeviceCode)
    by (vm_compute; reflexivity).
  rewrite R in H. discriminate H.
Qed.

(** An instance: the completed session, polled at 595 and twice again. *)
Lemma poll_complete_once_witness :
  (deviceSessions completed !! deviceCode0 = Some completeSession
   /\ Status completeSession = "complete"
   /\ atSweep (steady 595) < ExpiresAt completeSession
   /\ atSweep (steady 595) - CompletedAt completeSession <= 120)
  /\ (run (devicePoll (steady 595) (Some deviceCode0)) completed).2 = JSON StatusOK (Some bundle0)
  /\ deviceSessions (run (devicePoll (steady 595) (Some deviceCode0)) completed).1 !! deviceCode0
     = None
  /\ pollAgain [steady 596; steady 601] deviceCode0
       (run (devicePoll (steady 595) (Some deviceCode0)) completed).1
     = [unknownDeviceCode; unknownDeviceCode].
Proof.
  assert (H1 : atSweep (steady 595) < ExpiresAt completeSession) by (simpl; lia).
  assert (H2 : atSweep (steady 595) - CompletedAt completeSession <= 120) by (simpl; lia).
  split; [repeat split; first [exact completed_session|exact H1|exact H2]|].
  destruct (poll_complete_once (steady 595) completed deviceCode0 completeSession
              completed_session eq_refl H1 H2) as (A & B & _ & _ & D).
  split; [exact A|]. split; [exact B|].
  vm_compute. reflexivity.
Defined.

(** C3, the code at the failing input: the session started at 0 is pending
    and expires at 600; a poll for its device code at 600 answers 404,
    unknown device code, where the claim has 410: the sweep the poll starts
    with has already removed the session, so the branch that answers 410
    for an expired pending session is not reached. *)
Theorem poll_expired_pending_unknown :
  deviceSessions started !! deviceCode0 = Some pendingSession
  /\ Status pendingSession = "pending"
  /\ ExpiresAt pendingSession <= atHandler (steady 600)
  /\ run (devicePoll (steady 600) (Some deviceCode0)) started = (emptyStore, unknownDeviceCode).
Proof.
  split; [vm_compute; reflexivity|]. split; [reflexivity|]. split; [simpl; lia|].
  vm_compute. reflexivity.
Qed.

(** C10 does not hold as stated: a session with an unknown status whose
    [expiresAt] has passed is removed by the sweep, and the poll answers 404. *)
Lemma poll_odd_status_after_ttl :
  ~ (forall (clk : Clock) (st : Store) (dc : string) (session : DeviceSession),
        deviceSessions st !! dc = Some session ->
        Status session <> "pending" -> Status session <> "authorizing" ->
        Status session <> "complete" -> Status session <> "error" ->
        Status session <> "expired" ->
        (run (devicePoll clk (Some dc)) st).2
        = JSON StatusBadRequest (detail "Invalid device session state")).
Proof.
  intros H.
  assert (L : deviceSessions oddStore !! deviceCode0 = Some oddSession)
    by (vm_compute; reflexivity).
  specialize (H (steady 600) oddStore deviceCode0 oddSession L).
  assert (G : (run (devicePoll (steady 600) (Some deviceCode0)) oddStore).2
              = JSON StatusBadRequest (detail "Invalid device session state"))
    by (apply H; discriminate).
  assert (R : (run (devicePoll (steady 600) (Some deviceCode0)) oddStore).2 = unknownDeviceCode)
    by (vm_compute; reflexivity).
  rewrite R in G. discriminate G.
Qed.

(** An instance: the session of unknown status, polled at 599. *)
Lemma poll_invalid_state_witness :
  (deviceSessions oddStore !! deviceCode0 = Some oddSession
   /\ atSweep (steady 599) < ExpiresAt oddSession)
  /\ (run (devicePoll (steady 599) (Some deviceCode0)) oddStore).2
     = JSON StatusBadRequest (detail "Invalid device session state")
  /\ deviceSessions (run (devicePoll (steady 599) (Some deviceCode0)) oddStore).1 !! deviceCode0
     = None.
Proof.
  assert (L : deviceSessions oddStore !! deviceCode0 = Some oddSession)
    by (vm_compute; reflexivity).
  assert (E : atSweep (steady 599) < ExpiresAt oddSession) by (simpl; lia).
  split; [split; assumption|].
  assert (N : forall status : string,
             negb (String.eqb "paused" status) = true -> Status oddSession <> status).
  { intros status Hs Heq. simpl in Heq. rewrite <- Heq, String.eqb_refl in Hs. discriminate. }
  destruct (poll_invalid_state (steady 599) oddStore deviceCode0 oddSession L
              (N "pending" eq_refl) (N "authorizing" eq_refl) (N "complete" eq_refl)
              (N "error" eq_refl) (N "expired" eq_refl) E)
    as (A & B & _).
  split; [exact A|exact B].
Defined.

(** ** Submitting a user code *)

(** C4 does not hold as stated: the submit, at 600, of the user code of
    the session that expires at 600 does not leave the store as it was; the
    session is gone from it. *)
Lemma submit_expired_removes :
  ~ (forall (clk : Clock) (c : Context) (code : string) (st : Store) (session : DeviceSession),
        code <> EmptyString ->
        deviceSessions st !! index (userIndex st) (normalizeCode asciiOnly code) = Some session ->
        ExpiresAt session <= atHandler clk ->
        (run (serverSubmit clk c code) st).1 = st).
Proof.
  intros H.
  assert (L : deviceSessions started
                !! index (userIndex started) (normalizeCode asciiOnly "AAAA-AAAA")
              = Some pendingSession) by (vm_compute; reflexivity).
  assert (E : ExpiresAt pendingSession <= atHandler (steady 600)) by (simpl; lia).
  assert (G : (run (serverSubmit (steady 600) cli "AAAA-AAAA") started).1 = started)
    by (apply (H (steady 600) cli "AAAA-AAAA" started pendingSession); [discriminate|exact L|exact E]).
  assert (R1 : deviceSessions (run (serverSubmit (steady 600) cli "AAAA-AAAA") started).1
               !! deviceCode0 = None) by (vm_compute; reflexivity).
  assert (R2 : deviceSessions started !! deviceCode0 = Some pendingSession)
    by (vm_compute; reflexivity).
  rewrite G, R2 in R1. discriminate R1.
Qed.

(** An instance: the user code of the started session submitted at 600,
    and a user code nobody was given. *)
Lemma submit_unknown_or_expired_witness :
  "AAAA-AAAA" <> EmptyString
  /\ run (serverSubmit (steady 600) cli "AAAA-AAAA") started
     = (removeSession deviceCode0 started,
        DevicePage "Device code has expired. Restart the login from the CLI." "AAAA-AAAA" true true)
  /\ run (serverSubmit (steady 600) cli "ZZZZ-ZZZZ") started
     = (started,
        DevicePage "Invalid or expired device code. Please try again." "ZZZZ-ZZZZ" true true).
Proof.
  assert (N1 : "AAAA-AAAA" <> EmptyString) by discriminate.
  assert (N2 : "ZZZZ-ZZZZ" <> EmptyString) by discriminate.
  split; [exact N1|]. split.
  - destruct (submit_unknown_or_expired asciiOnly "google-id" "google-secret" "github-id"
                "github-secret" (steady 600) cli "AAAA-AAAA" started) as (_ & _ & H).
    apply (H N1 pendingSession).
    + vm_compute. discriminate.
    + vm_compute. reflexivity.
    + simpl. lia.
  - destruct (submit_unknown_or_expired asciiOnly "google-id" "google-secret" "github-id"
                "github-secret" (steady 600) cli "ZZZZ-ZZZZ" started) as (_ & H & _).
    apply (H N2). left. vm_compute. reflexivity.
Defined.

(** ** Starting a device flow *)

(** C9 does not hold as stated: a start with an unsupported provider at
    600 answers 400, but its sweep has removed the session that expired at
    600: the store is not as before the request. *)
Lemma start_unsupported_sweeps :
  ~ (forall (clk : Clock) (rnd : Rand) (c : Context) (provider : string) (st : Store),
        ToLower asciiOnly provider <> "google" ->
        ToLower asciiOnly provider <> "github" ->
        (run (serverStart clk rnd c (Some provider)) st).1 = st).
Proof.
  intros H.
  assert (G : (run (serverStart (steady 600) zeros cli (Some "unsupported")) started).1 = started)
    by (apply H; vm_compute; discriminate).
  assert (R1 : deviceSessions (run (serverStart (steady 600) zeros cli (Some "unsupported"))
                                  started).1 !! deviceCode0 = None) by (vm_compute; reflexivity).
  assert (R2 : deviceSessions started !! deviceCode0 = Some pendingSession)
    by (vm_compute; reflexivity).
  rewrite G, R2 in R1. discriminate R1.
Qed.

(** An instance: an unsupported provider at 10, when nothing is due for
    the sweep. *)
Lemma start_unsupported_witness :
  (ToLower asciiOnly "Unsupported" <> "google" /\ ToLower asciiOnly "Unsupported" <> "github")
  /\ run (serverStart (steady 10) zeros cli (Some "Unsupported")) started
     = (started, JSON StatusBadRequest (detail "Unsupported provider")).
Proof.
  assert (N1 : ToLower asciiOnly "Unsupported" <> "google") by (vm_compute; discriminate).
  assert (N2 : ToLower asciiOnly "Unsupported" <> "github") by (vm_compute; discriminate).
  split; [split; assumption|].
  destruct (start_unsupported asciiOnly asciiOnly "google-id" "google-secret" "github-id"
              "github-secret" (steady 10) zeros cli "Unsupported" started N1 N2) as (E & _).
  etransitivity; [exact E|]. vm_compute. reflexivity.
Defined.

(** ** The server *)

Lemma startedWorld_runs (allowed : forall A : Type, Op A -> Store -> Prop) :
  (forall session, allowed unit (OpStore session) emptyStore) ->
  (forall now, allowed (list string) (OpScan now) emptyStore) ->
  rtc (serverStep allowed) initial startedWorld.
Proof.
  intros Hstore Hscan.
  apply (serve asciiOnly asciiOnly "google-id" "google-secret" "github-id" "github-secret"
           allowed initial (PostDeviceStart (steady 0) zeros cli (Some "Google")) (rtc_refl _ _)).
  vm_compute. repeat split; [apply Hscan|apply Hstore].
Qed.

Lemma startedWorld_reachable : serverReachable startedWorld.
Proof. apply startedWorld_runs; intros; exact I. Qed.

Lemma twoStarts_reachable (second : Rand) : serverReachable (twoStarts second).
Proof.
  apply (serve asciiOnly asciiOnly "google-id" "google-secret" "github-id" "github-secret"
           always startedWorld (PostDeviceStart (steady 5) second cli (Some "github"))
           startedWorld_reachable).
  apply allowedRun_always.
Qed.

(** C6 does not hold as stated: after two starts whose random draws
    agree on the 8 bytes of the user code, two live sessions, under two
    device codes, carry the same normalized user code. *)
Lemma user_code_collision :
  ~ (forall w : World, serverReachable w -> uniqueCodes (store w)).
Proof.
  intros H. specialize (H (twoStarts onesThenZeros) (twoStarts_reachable onesThenZeros)).
  assert (L1 : deviceSessions (store (twoStarts onesThenZeros)) !! DeviceCode pendingSession
               = Some pendingSession) by (vm_compute; reflexivity).
  assert (L2 : deviceSessions (store (twoStarts onesThenZeros))
                 !! DeviceCode (newSession asciiOnly 5 onesThenZeros "github")
               = Some (newSession asciiOnly 5 onesThenZeros "github"))
    by (vm_compute; reflexivity).
  assert (S : NormalizedUserCode pendingSession
              = NormalizedUserCode (newSession asciiOnly 5 onesThenZeros "github"))
    by (vm_compute; reflexivity).
  assert (D : DeviceCode pendingSession
              <> DeviceCode (newSession asciiOnly 5 onesThenZeros "github"))
    by (vm_compute; discriminate).
  apply D, (H _ _ _ _ L1 L2). right. left. exact S.
Qed.

Lemma twoStarts_no_collision : rtc (serverStep noCollision) initial (twoStarts twos).
Proof.
  apply (serve asciiOnly asciiOnly "google-id" "google-secret" "github-id" "github-secret"
           noCollision startedWorld (PostDeviceStart (steady 5) twos cli (Some "github"))).
  - apply startedWorld_runs.
    + intros session s [= <-] dc live L. cbn [deviceSessions emptyStore] in L.
      rewrite lookup_empty in L. discriminate L.
    + intros now s [=].
  - apply deviceStart_noCollision. intros provider dc live L.
    assert (E : swept (atSweep (steady 5)) (store startedWorld)
                = storeSession pendingSession emptyStore) by (vm_compute; reflexivity).
    rewrite E in L.
    cbn [storeSession deviceSessions emptyStore] in L.
    apply lookup_insert_Some in L as [[_ <-]|[_ L]];
      [|rewrite lookup_empty in L; discriminate L].
    split; vm_compute; discriminate.
Qed.

(** An instance: the server after two starts whose random draws differ
    everywhere. *)
Lemma codes_unique_witness :
  serverReachable (twoStarts twos)
  /\ rtc (serverStep noCollision) initial (twoStarts twos)
  /\ keyed (store (twoStarts twos))
  /\ uniqueCodes (store (twoStarts twos)).
Proof.
  split; [apply twoStarts_reachable|]. split; [exact twoStarts_no_collision|].
  destruct (codes_unique asciiOnly asciiOnly "google-id" "google-secret" "github-id"
              "github-secret" (twoStarts twos) (twoStarts_reachable twos)) as (K & _ & U).
  split; [exact K|]. apply U. exact twoStarts_no_collision.
Defined.


Lemma midSubmit_reachable : serverReachable midSubmit.
Proof.
  eapply rtc_r; [eapply rtc_r; [exact startedWorld_reachable|]|].
  - apply (step_accept asciiOnly asciiOnly "google-id" "google-secret" "github-id"
             "github-secret" always startedWorld lateSubmit).
  - apply (step_atomic asciiOnly asciiOnly "google-id" "google-secret" "github-id"
             "github-secret" always
             (mkWorld started (threads startedWorld ++ [serverHandler lateSubmit])%list)
             1 (OpSubmit "AAAAAAAA" 600)
             (fun r => submitRest "google-id" "google-secret" "github-id" "github-secret"
                         (steady 600) cli "AAAA-AAAA" r.1 r.2)).
    + reflexivity.
    + exact I.
Qed.

(** C5, the code at the failing input: the user code of the session that
    expires at 600 is submitted at 600.  When the critical section of
    [deviceSubmit] has run and the handler has not yet called
    [removeSession], the server is in a state where the session is expired
    and the state index still maps its state to its device code. *)
Theorem submit_expired_keeps_state_entry :
  serverReachable midSubmit
  /\ (exists session,
         deviceSessions (store midSubmit) !! deviceCode0 = Some session
         /\ Status session = "expired"
         /\ stateIndex (store midSubmit) !! State session = Some deviceCode0)
  /\ ~ stateIndexLive (store midSubmit).
Proof.
  split; [exact midSubmit_reachable|].
  assert (L : deviceSessions (store midSubmit) !! deviceCode0
              = Some (setLastTouched 600 (setStatus "expired" pendingSession)))
    by (vm_compute; reflexivity).
  assert (S : stateIndex (store midSubmit) !! state0 = Some deviceCode0)
    by (vm_compute; reflexivity).
  split.
  - eexists. split; [exact L|]. split; [reflexivity|exact S].
  - intros H. destruct (H _ _ _ S L) as [E|E]; cbn in E; discriminate E.
Qed.

(** * Instances of the further properties *)

(** The user code drawn from eight zero bytes. *)
Lemma generateUserCode_shape_witness :
  length (readRand zeros 40 8) = 8%nat
  /\ String.length (generateUserCode (readRand zeros 40 8)) = 9%nat
  /\ normalizeCode asciiOnly (generateUserCode (readRand zeros 40 8)) = "AAAAAAAA".
Proof.
  split; [reflexivity|].
  destruct (generateUserCode_shape asciiOnly (readRand zeros 40 8) eq_refl) as (H1 & _ & H3 & _).
  split; [exact H1|]. rewrite H3. reflexivity.
Defined.

(** A Google login with an access token that holds a space and an
    ampersand. *)
Lemma loginProvider_postBody_witness :
  providerPostBody asciiOnly (mkAuthProviderRequest "Google" None (Some "a b&c"))
  = inr "access_token=a+b%26c&providerId=google.com"
  /\ countByte "&"%char "access_token=a+b%26c&providerId=google.com" = 1%nat
  /\ countByte "="%char "access_token=a+b%26c&providerId=google.com" = 2%nat.
Proof.
  split; [reflexivity|].
  destruct (loginProvider_postBody asciiOnly
              (mkAuthProviderRequest "Google" None (Some "a b&c"))
              "access_token=a+b%26c&providerId=google.com" eq_refl)
    as (field & token & host & _ & _ & H1 & H2 & _).
  split; [exact H1|exact H2].
Defined.

Lemma extractToken_sound_witness :
  Bytes.isASCII "Bearer abc" = true
  /\ extractToken asciiOnly asciiOnly "Bearer abc" <> BearerPanic.
Proof.
  split; [reflexivity|].
  exact (proj1 (extractToken_sound asciiOnly asciiOnly "Bearer abc" eq_refl)).
Defined.

(** The scheme in capitals, and white space around the token. *)
Lemma extractToken_bearer_witness :
  extractToken asciiOnly asciiOnly "BEARER   tok " = BearerToken "tok".
Proof.
  assert (N : "tok" <> EmptyString) by discriminate.
  exact (extractToken_bearer asciiOnly asciiOnly "BEARER " "  " "tok" " "
           eq_refl eq_refl eq_refl eq_refl eq_refl N eq_refl eq_refl).
Defined.

Lemma afterRequest_reachable (w : World) (req : Request) :
  serverReachable w -> serverReachable (afterRequest w req).
Proof.
  intros Hw.
  apply (serve asciiOnly asciiOnly "google-id" "google-secret" "github-id" "github-secret"
           always w req Hw).
  apply allowedRun_always.
Qed.

Lemma completedWorld_reachable : serverReachable completedWorld.
Proof. do 2 apply afterRequest_reachable. exact startedWorld_reachable. Qed.

(** The server after a flow has been completed and before the CLI has
    polled: the session is complete and carries its bundle. *)
Lemma sessions_and_answers_shaped_witness :
  serverReachable completedWorld
  /\ deviceSessions (store completedWorld) !! deviceCode0 = Some completeSession
  /\ sessionsShaped (store completedWorld).
Proof.
  split; [exact completedWorld_reachable|]. split; [vm_compute; reflexivity|].
  exact (proj1 (sessions_and_answers_shaped asciiOnly asciiOnly "google-id" "google-secret"
                  "github-id" "github-secret" completedWorld completedWorld_reachable)).
Defined.

Lemma startedWorld_fresh : rtc (serverStep freshCodes) initial startedWorld.
Proof.
  apply startedWorld_runs.
  - intros session s [= <-]. split; [apply lookup_empty|].
    intros dc live L. cbn [deviceSessions emptyStore] in L.
    rewrite lookup_empty in L. discriminate L.
  - intros now s [=].
Qed.

Lemma indices_match_sessions_witness :
  rtc (serverStep freshCodes) initial startedWorld
  /\ userIndexSound (store startedWorld) /\ indexedSessions (store startedWorld).
Proof.
  split; [exact startedWorld_fresh|].
  exact (indices_match_sessions asciiOnly asciiOnly "google-id" "google-secret"
           "github-id" "github-secret" startedWorld startedWorld_fresh).
Defined.

Lemma emptyStore_fresh (now : Z) (session : DeviceSession) :
  freshFor (swept now emptyStore) session.
Proof.
  intros dc live L. rewrite swept_absent in L by apply lookup_empty. discriminate L.
Qed.

(** A flow with Google on an empty store: the user types the code in lower
    case with a space, and the CLI polls before and after. *)
Lemma device_flow_google_witness :
  serveEach asciiOnly asciiOnly "google-id" "google-secret" "github-id" "github-secret"
    googleFlow emptyStore
  = [startAnswer cli pendingSession; pendingAnswer;
     googleRedirect "google-id" cli pendingSession; pendingAnswer; completePage;
     JSON StatusOK (Some bundle0); unknownDeviceCode]
  /\ forgotten
       (storeAfter asciiOnly asciiOnly "google-id" "google-secret" "github-id" "github-secret"
          googleFlow emptyStore)
       pendingSession.
Proof.
  assert (G1 : "google-id" <> EmptyString) by discriminate.
  assert (G2 : "google-secret" <> EmptyString) by discriminate.
  assert (A : "auth-code" <> EmptyString) by discriminate.
  assert (P : "google-id-token" <> EmptyString) by discriminate.
  assert (T : asString {[ "id_token" := JString "google-id-token" ]} "id_token"
              = Some "google-id-token") by (vm_compute; reflexivity).
  assert (L : atSweep (steady 595) - atMark (steady 590) <= 120) by (vm_compute; discriminate).
  destruct (device_flow_google asciiOnly asciiOnly "google-id" "google-secret" "github-id"
              "github-secret" emptyStore zeros
              (steady 0) (steady 5) (steady 10) (steady 15) (steady 590) (steady 595) (steady 599)
              cli cli "Google" "aaaa aaaa" "auth-code" "google-id-token"
              {[ "id_token" := JString "google-id-token" ]} firebaseAnswer
              eq_refl G1 G2 (emptyStore_fresh _ _) eq_refl A T P
              eq_refl eq_refl eq_refl eq_refl eq_refl eq_refl eq_refl L) as [E F].
  split.
  - etransitivity; [exact E|]. vm_compute. reflexivity.
  - exact F.
Defined.

(** A flow with GitHub on an empty store that the user refuses. *)
Lemma device_flow_github_refused_witness :
  serveEach asciiOnly asciiOnly "google-id" "google-secret" "github-id" "github-secret"
    githubFlow emptyStore
  = [startAnswer cli (newSession asciiOnly 0 zeros "github"); pendingAnswer;
     githubRedirect "github-id" cli (newSession asciiOnly 0 zeros "github"); pendingAnswer;
     DevicePage "Authorization failed: access_denied" "" true false;
     JSON StatusBadRequest (detail "access_denied"); unknownDeviceCode].
Proof.
  assert (G1 : "github-id" <> EmptyString) by discriminate.
  assert (G2 : "github-secret" <> EmptyString) by discriminate.
  assert (A : "access_denied" <> EmptyString) by discriminate.
  assert (L : atSweep (steady 25) - atMark (steady 20) <= 120) by (vm_compute; discriminate).
  destruct (device_flow_github_refused asciiOnly asciiOnly "google-id" "google-secret"
              "github-id" "github-secret" emptyStore zeros
              (steady 0) (steady 5) (steady 10) (steady 15) (steady 20) (steady 25) (steady 30)
              cli cli "GitHub" "AAAA-AAAA" "" "access_denied" (TokenFailed "") (FirebaseFailed "")
              eq_refl G1 G2 (emptyStore_fresh _ _) eq_refl A
              eq_refl eq_refl eq_refl eq_refl eq_refl eq_refl eq_refl L) as [E _].
  etransitivity; [exact E|]. vm_compute. reflexivity.
Defined.

Lemma store_then_remove_witness :
  getSessionCopy deviceCode0 (storeSession pendingSession emptyStore) = Some pendingSession
  /\ removeSession deviceCode0 (storeSession pendingSession emptyStore) = emptyStore.
Proof.
  destruct (store_then_remove pendingSession emptyStore
              (lookup_empty _) (lookup_empty _) (lookup_empty _)) as (H1 & _ & _ & H4).
  split; [exact H1|exact H4].
Defined.

(** The store after one start, swept at 100 and then at 700. *)
Lemma sweeps_compose_witness :
  100 <= 700
  /\ (run (sessionCleanup 700) (run (sessionCleanup 100) started).1).1
     = (run (sessionCleanup 700) started).1.
Proof.
  assert (H : 100 <= 700) by (vm_compute; discriminate).
  split; [exact H|]. exact (proj1 (sweeps_compose 100 700 started H)).
Defined.

(** Google's callback a second time, after the flow has been completed. *)
Lemma callback_state_single_use_witness :
  stateIndex authorizing !! state0 = Some deviceCode0
  /\ stateIndex completed !! state0 = None
  /\ run (serverHandler googleCallback) completed
     = (completed,
        DevicePage "Session not found or expired. Return to the CLI and try again."
          "" true false).
Proof.
  assert (S : state0 <> EmptyString) by (vm_compute; discriminate).
  assert (D : deviceCode0 <> EmptyString) by (vm_compute; discriminate).
  assert (I : stateIndex authorizing !! state0 = Some deviceCode0) by (vm_compute; reflexivity).
  assert (L : deviceSessions authorizing !! deviceCode0
              = Some (setStatus "authorizing" (setLastTouched 10 pendingSession)))
    by (vm_compute; reflexivity).
  split; [exact I|].
  exact (callback_state_single_use googleTexts googleTexts (steady 590) (steady 590)
           state0 "auth-code" "auth-code" "" ""
           (TokenAnswer 200 {[ "id_token" := JString "google-id-token" ]})
           (TokenAnswer 200 {[ "id_token" := JString "google-id-token" ]})
           (FirebaseData firebaseAnswer) (FirebaseData firebaseAnswer)
           authorizing deviceCode0 _ S D I L eq_refl).
Defined.

(** A server without Google's client secret. *)
Lemma start_unconfigured_witness :
  run (deviceStart asciiOnly asciiOnly "google-id" "" "github-id" "github-secret"
         (steady 0) zeros cli (Some "Google")) emptyStore
  = (emptyStore,
     JSON StatusInternalServerError (detail "google OAuth is not configured on the server")).
Proof.
  etransitivity.
  - apply (start_unconfigured asciiOnly asciiOnly "google-id" "" "github-id" "github-secret"
             (steady 0) zeros cli "Google" emptyStore).
    left. split; [reflexivity|]. right. reflexivity.
  - vm_compute. reflexivity.
Defined.
